(** * ANTsPyNet: brain age estimation and white matter hyperintensity segmentation

    A shallow embedding of

      - [antspynet/utilities/brain_age.py]  ([brain_age]) and
      - [antspynet/utilities/white_matter_hyperintensity_segmentation.py]
        ([sysu_media_wmh_segmentation] with its local helper
        [pad_or_crop_image_to_size]),

    followed by the properties of the two pipelines.

    Conventions.  Voxel intensities are rationals ([Q]); sums, differences
    and quotients of voxels are exact.  NumPy does not raise on a division
    by zero or on a reduction of an empty array: it warns and goes on with
    nan or inf.  The model does the same, recording each warning as an
    event; [nan] and [inf] are variables that stand for the values that are
    not numbers, and nothing is assumed about them.  The reductions that
    the libraries compute in floating point, with rounding that depends on
    the order of the operations, are variables too: the mean and the
    standard deviation of NumPy (single precision) and the total mass of
    ITK.  An n-dimensional array is its shape together with its indexing
    function.  The calls into ANTsPy, NumPy and Keras whose results cannot
    be computed here (bias correction, masking, center of gravity,
    interpolation, network inference) are variables of the section
    [Pipelines]; the simple array operations (slicing, padding, cropping,
    stacking, minimum and maximum) are written out.  Of the images that
    slicing, padding and cropping return only the shape and the voxels are
    used, and only these are modelled with care. *)

From Stdlib Require Import QArith Qminmax Qabs Qround Lia Lqa List Ascii String.
From stdpp Require Import gmap strings list sorting pretty.
Import ListNotations.

Local Open Scope nat_scope.

(** ** Vectors and matrices over [Q] (origin, spacing, direction, points) *)

Module Vec.

Definition vec := list Q.
Definition mat := list (list Q).

Definition add (u v : vec) : vec := zip_with Qplus u v.
Definition sub (u v : vec) : vec := zip_with Qminus u v.
Definition mul (u v : vec) : vec := zip_with Qmult u v.
Definition neg (u : vec) : vec := map Qopp u.
Definition dot (u v : vec) : Q := fold_right Qplus 0%Q (mul u v).
Definition mat_vec (m : mat) (v : vec) : vec := map (fun row => dot row v) m.
Definition of_index (idx : list nat) : vec := map (fun i => inject_Z (Z.of_nat i)) idx.

(** Componentwise rational equality. *)
Definition eqv (u v : vec) : Prop := Forall2 Qeq u v.

(** Row [k] of the identity: one on the diagonal, zero elsewhere. *)
Definition identity_row (n k : nat) : vec :=
  map (fun j => if k =? j then 1%Q else 0%Q) (seq 0 n).

(** [np.identity(n)] *)
Definition identity (n : nat) : mat := map (fun k => identity_row n k) (seq 0 n).

End Vec.

(** ** NumPy arrays *)

Record ndarray := mk_ndarray {
  shape : list nat;
  item : list nat -> Q
}.

(** [idx] addresses an element of an array of shape [shp]. *)
Definition in_bounds (shp idx : list nat) : Prop := Forall2 lt idx shp.

(** All indices of an array, in row-major order. *)
Fixpoint indices (shp : list nat) : list (list nat) :=
  match shp with
  | [] => [[]]
  | d :: shp' => flat_map (fun i => map (cons i) (indices shp')) (seq 0 d)
  end.

(** The elements of an array, flattened ([a.ravel()]). *)
Definition ravel (a : ndarray) : list Q := map (item a) (indices (shape a)).

(** [np.zeros(shape)] *)
Definition zeros (shp : list nat) : ndarray := mk_ndarray shp (fun _ => 0%Q).

(** Pointwise operations with a scalar and between arrays. *)
Definition map_array (f : Q -> Q) (a : ndarray) : ndarray :=
  mk_ndarray (shape a) (fun idx => f (item a idx)).

Definition zip_array (f : Q -> Q -> Q) (a b : ndarray) : ndarray :=
  mk_ndarray (shape a) (fun idx => f (item a idx) (item b idx)).

(** Reductions over all elements; NumPy raises on an empty array. *)
Definition list_min (l : list Q) : option Q :=
  match l with
  | [] => None
  | x :: l' => Some (fold_left Qmin l' x)
  end.

Definition list_max (l : list Q) : option Q :=
  match l with
  | [] => None
  | x :: l' => Some (fold_left Qmax l' x)
  end.

Definition list_sum (l : list Q) : Q := fold_right Qplus 0%Q l.

(** ** ANTs images: a voxel array with its header *)

Record ANTsImage := mk_image {
  numpy : ndarray;
  spacing : Vec.vec;
  origin : Vec.vec;
  direction : Vec.mat
}.

Definition image_shape (img : ANTsImage) : list nat := shape (numpy img).

(** [image.dimension]: the number of axes of the voxel array. *)
Definition dimension (img : ANTsImage) : nat := length (image_shape img).

Definition voxel (img : ANTsImage) (idx : list nat) : Q := item (numpy img) idx.

(** [image.new_image_like(array)]: same header, new voxels. *)
Definition new_image_like (img : ANTsImage) (a : ndarray) : ANTsImage :=
  mk_image a (spacing img) (origin img) (direction img).

(** Same header: the images occupy the same physical space. *)
Definition same_header (a b : ANTsImage) : Prop :=
  image_shape a = image_shape b /\ spacing a = spacing b /\
  origin a = origin b /\ direction a = direction b.

(** ** Effects: exceptions, the weight-file cache, the progress log *)

(** How a call can end other than by returning.  [ValueError] is Python's,
    with its message; [LibraryError] stands for an exception surfacing from
    NumPy, ANTsPy (ITK), Keras or the statistics module, with the operation
    that raised it. *)
Inductive failure :=
| ValueError (msg : string)
| LibraryError (operation : string).

Inductive outcome (A : Type) :=
| Return (a : A)
| Raise (e : failure).
Arguments Return {A} a.
Arguments Raise {A} e.

(** What the outside world can observe of a run. *)
Inductive event :=
| Print (msg : string)
| RuntimeWarning (msg : string)
| Preprocess (do_brain_extraction : bool) (template : option string)
| GetMask
| Download (network : string) (target : string)
| LoadModel (file : string)
| LoadWeights (file : string)
| Predict (file : string).

Record World := mk_world {
  files : gset string;        (* the paths for which os.path.exists holds *)
  temp_counter : nat;         (* names handed out by tempfile so far *)
  log : list event            (* oldest first *)
}.

(** A computation that may read and change the world and may fail. *)
Definition M (A : Type) : Type := World -> outcome A * World.

Definition ret {A} (a : A) : M A := fun w => (Return a, w).

Definition bind {A B} (m : M A) (k : A -> M B) : M B :=
  fun w =>
    match m w with
    | (Return a, w') => k a w'
    | (Raise e, w') => (Raise e, w')
    end.

Definition raise {A} (e : failure) : M A := fun w => (Raise e, w).

Notation "x <~ m ;; k" := (bind m (fun x => k))
  (at level 100, m at next level, right associativity).
Notation "m ;;; k" := (bind m (fun _ => k))
  (at level 100, right associativity).

Definition emit (e : event) : M unit :=
  fun w => (Return tt, mk_world (files w) (temp_counter w) (log w ++ [e])).

(** [if verbose == True: print(msg)] *)
Definition print_if (verbose : bool) (msg : string) : M unit :=
  if verbose then emit (Print msg) else ret tt.

(** [os.path.exists(path)] *)
Definition path_exists (path : string) : M bool :=
  fun w => (Return (bool_decide (path ∈ files w)), w).

(** Lifting of a pure partial operation. *)
Definition lift {A} (o : outcome A) : M A := fun w => (o, w).

(** A loop [for i in range(n)] over an accumulator. *)
Fixpoint for_range {A} (start count : nat) (body : nat -> A -> M A) (acc : A) : M A :=
  match count with
  | O => ret acc
  | S count' => acc' <~ body start acc ;; for_range (S start) count' body acc'
  end.

(** The same loop for a body without effects on the world. *)
Fixpoint for_range_pure {A} (start count : nat) (body : nat -> A -> outcome A) (acc : A)
  : outcome A :=
  match count with
  | O => Return acc
  | S count' =>
      match body start acc with
      | Return acc' => for_range_pure (S start) count' body acc'
      | Raise e => Raise e
      end
  end.

(** The pure fragment has its own sequencing. *)
Definition and_then {A B} (o : outcome A) (k : A -> outcome B) : outcome B :=
  match o with
  | Return a => k a
  | Raise e => Raise e
  end.

Notation "x <~~ o ;; k" := (and_then o (fun x => k))
  (at level 100, o at next level, right associativity).

(** ** NumPy and ANTsPy operations that are written out *)

Definition insert_at {A} (k : nat) (x : A) (l : list A) : list A := take k l ++ x :: drop k l.
Definition remove_at {A} (k : nat) (l : list A) : list A := take k l ++ drop (S k) l.

(** [ants.slice_image(image, axis, idx)]: the plane [idx] along [axis].  ITK
    refuses an extraction region outside the image, and an axis the image
    does not have. *)
Definition slice_image (image : ANTsImage) (axis idx : nat) : outcome ANTsImage :=
  match image_shape image !! axis with
  | Some d =>
      if idx <? d then
        Return (mk_image
                  (mk_ndarray (remove_at axis (image_shape image))
                              (fun i => voxel image (insert_at axis idx i)))
                  (remove_at axis (spacing image))
                  (remove_at axis (origin image))
                  (map (remove_at axis) (remove_at axis (direction image))))
      else Raise (LibraryError "ants.slice_image: index out of range")
  | None => Raise (LibraryError "ants.slice_image: no such axis")
  end.

(** [ants.pad_image(image, shape=shp)]: zero padding up to [shp], the lower
    side getting [floor] and the upper side [ceil] of half the difference. *)
Definition pad_lower (old new : nat) : nat := (new - old) / 2.
Definition pad_upper (old new : nat) : nat := (new - old + 1) / 2.

Fixpoint inside_pad (old lower idx : list nat) : bool :=
  match old, lower, idx with
  | [], [], [] => true
  | o :: old', l :: lower', i :: idx' =>
      (l <=? i) && (i <? l + o) && inside_pad old' lower' idx'
  | _, _, _ => false
  end.

Definition pad_image (image : ANTsImage) (shp : list nat) : outcome ANTsImage :=
  if length shp =? dimension image then
    let old := image_shape image in
    let lower := zip_with pad_lower old shp in
    let upper := zip_with pad_upper old shp in
    Return (new_image_like image
              (mk_ndarray
                 (zip_with Nat.add (zip_with Nat.add old lower) upper)
                 (fun idx => if inside_pad old lower idx
                             then voxel image (zip_with Nat.sub idx lower)
                             else 0%Q)))
  else Raise (LibraryError "ants.pad_image: shape does not match the image").

(** [ants.crop_indices(image, lower, lower + size)] *)
Definition crop_indices (image : ANTsImage) (lower size : list nat) : ANTsImage :=
  new_image_like image
    (mk_ndarray size (fun idx => voxel image (zip_with Nat.add idx lower))).

(** Modelled from the spec: [crop_image_center] of [antspynet.utilities] is
    not among the sources.  It center-crops an image to a target size: the
    target must have one entry per image axis and fit inside the image
    (a [ValueError] otherwise), and the region kept starts at
    [floor((image_size - crop_size) / 2)] on every axis. *)
Definition crop_image_center (image : ANTsImage) (crop_size : list nat) : outcome ANTsImage :=
  let image_size := image_shape image in
  if negb (length image_size =? length crop_size) then
    Raise (ValueError "crop_size does not match image size.")
  else if existsb (fun p => fst p <? snd p) (zip image_size crop_size) then
    Raise (ValueError "A crop_size dimension is larger than image_size.")
  else
    let start_index := zip_with (fun i c => (i - c) / 2) image_size crop_size in
    Return (crop_indices image start_index crop_size).

(** [a - b] on integer arrays of rank one, with NumPy's broadcasting. *)
Definition broadcast_sub (a b : list Z) : option (list Z) :=
  if length a =? length b then Some (zip_with Z.sub a b)
  else match a, b with
       | _, [y] => Some (map (fun x => (x - y)%Z) a)
       | [x], _ => Some (map (fun y => (x - y)%Z) b)
       | _, _ => None
       end.

Definition min_Z (l : list Z) : Z :=
  match l with
  | [] => 0%Z
  | x :: l' => fold_left Z.min l' x
  end.

(** The local helper of [sysu_media_wmh_segmentation] (lines 71-81). *)
Definition pad_or_crop_image_to_size (image : ANTsImage) (size : list nat)
  : outcome ANTsImage :=
  let image_size := map Z.of_nat (image_shape image) in
  match broadcast_sub image_size (map Z.of_nat size) with
  | None => Raise (LibraryError "numpy: operands could not be broadcast together")
  | Some delta =>
      image' <~~ (if existsb (fun d => (d <? 0)%Z) delta then
                    let pad_size := Z.abs (min_Z delta) in
                    let pad_shape := map (fun s => (s + pad_size)%Z) image_size in
                    pad_image image (map Z.to_nat pad_shape)
                  else Return image) ;;
      crop_image_center image' size
  end.

(** [batchX[i,:,:,c] = plane] on a four-dimensional batch. *)
Definition assign_plane (batch : ndarray) (i c : nat) (plane : ndarray) : outcome ndarray :=
  match shape batch with
  | [n; d0; d1; channels] =>
      if (i <? n) && (c <? channels) then
        if bool_decide (shape plane = [d0; d1]) then
          Return (mk_ndarray (shape batch)
                    (fun idx =>
                       match idx with
                       | [i'; x; y; c'] =>
                           if (i' =? i) && (c' =? c) then item plane [x; y]
                           else item batch idx
                       | _ => item batch idx
                       end))
        else Raise (LibraryError "numpy: could not broadcast input array")
      else Raise (LibraryError "numpy: index out of bounds")
  | _ => Raise (LibraryError "numpy: too many indices for array")
  end.

(** [np.squeeze(a)]: the axes of length one are dropped. *)
Fixpoint unsqueeze (shp idx : list nat) : list nat :=
  match shp with
  | [] => []
  | d :: shp' =>
      if d =? 1 then 0 :: unsqueeze shp' idx
      else match idx with
           | i :: idx' => i :: unsqueeze shp' idx'
           | [] => 0 :: unsqueeze shp' []
           end
  end.

Definition squeeze (a : ndarray) : ndarray :=
  mk_ndarray (filter (fun d => d ≠ 1) (shape a)) (fun idx => item a (unsqueeze (shape a) idx)).

(** [np.transpose(a, (1, 2, 0))] *)
Definition transpose_120 (a : ndarray) : outcome ndarray :=
  match shape a with
  | [s0; s1; s2] =>
      Return (mk_ndarray [s1; s2; s0]
                (fun idx => match idx with
                            | [i; j; k] => item a [k; i; j]
                            | _ => 0%Q
                            end))
  | _ => Raise (LibraryError "numpy.transpose: axes don't match array")
  end.

(** [ants.make_image(shape, voxval, spacing, origin, direction)] *)
Definition make_image (shp : list nat) (voxval : Q) (sp org : Vec.vec) (dir : Vec.mat)
  : ANTsImage :=
  mk_image (mk_ndarray shp (fun _ => voxval)) sp org dir.

(** [ants.from_numpy(array)]: unit spacing, zero origin, identity direction. *)
Definition from_numpy (a : ndarray) : ANTsImage :=
  let n := length (shape a) in
  mk_image a (repeat 1%Q n) (repeat 0%Q n) (Vec.identity n).

(** [ants.copy_image_info(reference, target)]: the header of [reference] on
    the voxels of [target]; the setters refuse a header of another
    dimension. *)
Definition copy_image_info (reference target : ANTsImage) : outcome ANTsImage :=
  if dimension reference =? dimension target then
    Return (new_image_like reference (numpy target))
  else Raise (LibraryError "ants.copy_image_info: dimensions differ").

(** [ants.threshold_image(image, low, high, inval, outval)] *)
Definition threshold_image (image : ANTsImage) (low high inval outval : Q) : ANTsImage :=
  new_image_like image
    (map_array (fun v => if Qle_bool low v && Qle_bool v high then inval else outval)
               (numpy image)).

(** [ants.image_physical_space_consistent(a, b)] with its default tolerance
    of 0.01: equal dimension, each coordinate of the spacing and of the
    origin within the tolerance, direction within [atol + rtol * |b|] per
    entry. *)
Definition within_tolerance (u v : Vec.vec) : bool :=
  forallb (fun p => Qle_bool (Qabs (fst p - snd p)) (1 # 100)) (zip u v).

Definition allclose (u v : Vec.vec) : bool :=
  forallb (fun p => Qle_bool (Qabs (fst p - snd p)) ((1 # 100) + (1 # 100000) * Qabs (snd p)))
          (zip u v).

Definition image_physical_space_consistent (a b : ANTsImage) : bool :=
  (dimension a =? dimension b)
  && within_tolerance (spacing a) (spacing b)
  && within_tolerance (origin a) (origin b)
  && forallb (fun p => allclose (fst p) (snd p)) (zip (direction a) (direction b)).

(** [a * b] on images. *)
Definition image_mul (a b : ANTsImage) : outcome ANTsImage :=
  if image_physical_space_consistent a b then
    if bool_decide (image_shape a = image_shape b) then
      Return (new_image_like a (zip_array Qmult (numpy a) (numpy b)))
    else Raise (LibraryError "numpy: operands could not be broadcast together")
  else Raise (ValueError "images do not occupy same physical space").

(** [image - c] for a scalar [c]. *)
Definition image_sub_scalar (a : ANTsImage) (c : Q) : ANTsImage :=
  new_image_like a (map_array (fun v => v - c)%Q (numpy a)).

(** The warnings of NumPy for a division.  Their text goes on with the name
    of the operation, which differs between the versions of NumPy. *)
Definition divide_by_zero_warning : event := RuntimeWarning "divide by zero encountered".
Definition invalid_value_warning : event := RuntimeWarning "invalid value encountered".

(** What NumPy says when an array of these numerators is divided by zero:
    "divide by zero" if one of them is not zero, then "invalid value" if one
    of them is zero. *)
Definition zero_division_warnings (numerators : list Q) : list event :=
  (if existsb (fun v => negb (Qeq_bool v 0)) numerators then [divide_by_zero_warning]
   else [])
  ++ (if existsb (fun v => Qeq_bool v 0) numerators then [invalid_value_warning] else []).

(** [image[mask]]: the voxels where the mask is not zero, as a flat array. *)
Definition masked_values (image mask : ANTsImage) : outcome (list Q) :=
  if image_physical_space_consistent image mask then
    if bool_decide (image_shape image = image_shape mask) then
      Return (map (voxel image)
                (List.filter (fun idx => negb (Qeq_bool (voxel mask idx) 0))
                             (indices (image_shape image))))
    else Raise (LibraryError "numpy: boolean index did not match indexed array")
  else Raise (ValueError "images do not occupy same physical space").

(** [a += b] and [a /= n] on arrays. *)
Definition array_add (a b : ndarray) : outcome ndarray :=
  if bool_decide (shape a = shape b) then Return (zip_array Qplus a b)
  else Raise (LibraryError "numpy: operands could not be broadcast together").

Definition array_div_nat (a : ndarray) (n : nat) : ndarray :=
  map_array (fun v => v / inject_Z (Z.of_nat n))%Q a.

(** ** Statistics *)

#[global] Instance Qle_dec : RelDecision Qle.
Proof. intros x y. destruct (Qlt_le_dec y x); [right | left]; auto using Qlt_not_le. Defined.

(** [statistics.median(data)]: sort, then the middle element, or the mean of
    the two middle elements when there is an even number of them. *)
Definition median (data : list Q) : outcome Q :=
  let data := merge_sort Qle data in
  let n := length data in
  if n =? 0 then Raise (LibraryError "statistics.median: no median for empty data")
  else if n mod 2 =? 1 then Return (nth (n / 2) data 0%Q)
  else let i := n / 2 in
       Return ((nth (i - 1) data 0%Q + nth i data 0%Q) / 2)%Q.

(** The rows of an array of shape (n, 1), one scalar per row.  This is the
    shape of the output of DeepBrainNet; iterating and comparing rows of any
    other shape is left to NumPy. *)
Definition rows_of (a : ndarray) : outcome (list Q) :=
  match shape a with
  | [n; 1] => Return (map (fun i => item a [i; 0]) (seq 0 n))
  | _ => Raise (LibraryError "statistics.median: rows are not single scalars")
  end.

(** Several events at once. *)
Definition emit_all (events : list event) : M unit :=
  fun w => (Return tt, mk_world (files w) (temp_counter w) (log w ++ events)).

(** ** Paths of the weight files *)

Definition slash : ascii := "/"%char.

Definition is_slash (c : ascii) : bool := Ascii.eqb c slash.

Fixpoint drop_while {A} (p : A -> bool) (l : list A) : list A :=
  match l with
  | [] => []
  | x :: l' => if p x then drop_while p l' else l
  end.

(** [os.path.dirname(path)] of [posixpath]: everything up to the last slash,
    without trailing slashes unless there is nothing else. *)
Definition dirname (path : string) : string :=
  let head := drop_while (fun c => negb (is_slash c)) (rev (list_ascii_of_string path)) in
  let stripped := drop_while is_slash head in
  string_of_list_ascii (rev (match stripped with [] => head | _ => stripped end)).

(** The names [tempfile] hands out. *)
Definition temp_name (n : nat) : string := "/tmp/tmp" +:+ pretty n +:+ ".h5".

(** Modelled from the spec: [get_pretrained_network] of [antspynet.utilities]
    is not among the sources.  It downloads the weights of the named network
    to the target file and returns its name; without a target "these data
    will be downloaded to a tempfile". *)
Definition get_pretrained_network (file_id : string) (target_file_name : option string)
  : M string :=
  fun w =>
    match target_file_name with
    | Some target =>
        (Return target,
         mk_world ({[target]} ∪ files w) (temp_counter w)
                  (log w ++ [Download file_id target]))
    | None =>
        let target := temp_name (temp_counter w) in
        (Return target,
         mk_world ({[target]} ∪ files w) (S (temp_counter w))
                  (log w ++ [Download file_id target]))
    end.

(** ** Spatial transforms *)

(** An [Euler3DTransform] as [ants.create_ants_transform] builds it from a
    center and a translation alone: the rotation stays the identity. *)
Record ANTsTransform := mk_transform {
  center : Vec.vec;
  translation : Vec.vec
}.

Definition create_ants_transform (c t : Vec.vec) : ANTsTransform := mk_transform c t.

(** [R (p - center) + center + translation] with [R] the identity. *)
Definition apply_ants_transform_to_point (xfrm : ANTsTransform) (p : Vec.vec) : Vec.vec :=
  Vec.add (Vec.add (Vec.sub p (center xfrm)) (center xfrm)) (translation xfrm).

(** [ants.invert_ants_transform(xfrm)] *)
Definition invert_ants_transform (xfrm : ANTsTransform) : ANTsTransform :=
  mk_transform (center xfrm) (Vec.neg (translation xfrm)).

(** The physical position of a voxel. *)
Definition index_to_point (image : ANTsImage) (idx : list nat) : Vec.vec :=
  Vec.add (origin image)
          (Vec.mat_vec (direction image) (Vec.mul (spacing image) (Vec.of_index idx))).

(** ** The two pipelines *)

(** What [preprocess_brain_image] returns: a dictionary with the key
    ["preprocessed_image"] and, after brain extraction, ["brain_mask"]. *)
Record preprocessing := mk_preprocessing {
  preprocessed_image : ANTsImage;
  brain_mask : option ANTsImage
}.

(** What [brain_age] returns. *)
Record return_dict := mk_return_dict {
  predicted_age : Q;
  brain_age_per_slice : ndarray
}.

Definition dimension_message : string := "Image dimension must be 3.".

(** ** Sample inputs and stand-ins for the external calls

    Used for the concrete runs only; no general statement depends on them. *)

(** An image whose intensity is the index along its last axis. *)
Definition ramp (shp : list nat) : ANTsImage :=
  mk_image (mk_ndarray shp (fun idx => inject_Z (Z.of_nat (List.last idx 0))))
           (repeat 1%Q (length shp)) (repeat 0%Q (length shp))
           (Vec.identity (length shp)).

Definition ones_like (image : ANTsImage) : ANTsImage :=
  new_image_like image (mk_ndarray (image_shape image) (fun _ => 1%Q)).

Definition sample_preprocess (image : ANTsImage) (do_brain_extraction : bool)
  (template output_directory : option string) : preprocessing :=
  mk_preprocessing image (if do_brain_extraction then Some (ones_like image) else None).

(** A preprocessing whose template and weights are there already. *)
Definition sample_preprocessing_data (output_directory : option string) (w : World)
  : World := w.

Definition sample_get_mask (image : ANTsImage) : ANTsImage := ones_like image.

(** The exact sum of the voxels. *)
Definition sample_total_mass (image : ANTsImage) : Q := list_sum (ravel (numpy image)).

(** The middle of the grid, in voxel units. *)
Definition sample_center_of_gravity (image : ANTsImage) : Vec.vec :=
  map (fun d => (inject_Z (Z.of_nat d) - 1) / 2)%Q (image_shape image).

(** Nearest voxel below, for an image with unit spacing at the origin. *)
Definition sample_interpolate (image : ANTsImage) (p : Vec.vec) : Q :=
  voxel image (map (fun x => Z.to_nat (Qfloor x)) p).

Definition checksum (s : string) : nat :=
  fold_right (fun c n => nat_of_ascii c + n) 0 (list_ascii_of_string s).

(** A network with one output per slice: a multiple of the middle channel at
    the first pixel. *)
Definition sample_age_net (file : string) (batch : ndarray) : ndarray :=
  mk_ndarray [nth 0 (shape batch) 0; 1]
    (fun idx => 100 * item batch [nth 0 idx 0%nat; 0%nat; 0%nat; 1%nat])%Q.

(** A network with one output per pixel: the first channel plus a constant
    that depends on the weights. *)
Definition sample_unet (file : string) (batch : ndarray) : ndarray :=
  mk_ndarray [nth 0 (shape batch) 0; 200; 200; 1]
    (fun idx => item batch (take 3 idx ++ [0%nat]) + inject_Z (Z.of_nat (checksum file)))%Q.

(** Rounding to the nearest integer, ties to the even one. *)
Definition round_half_even (q : Q) : Z :=
  let below := Qfloor q in
  match (q - inject_Z below ?= 1 # 2)%Q with
  | Lt => below
  | Gt => (below + 1)%Z
  | Eq => if Z.even below then below else (below + 1)%Z
  end.

(** Rounding to single precision: 24 significant bits (for magnitudes that
    single precision holds as normal numbers). *)
Definition float32 (q : Q) : Q :=
  if Qeq_bool q 0 then 0%Q
  else
    let magnitude := Qabs q in
    let exponent := (Z.log2 (Qfloor (magnitude * inject_Z (2 ^ 150))) - 150)%Z in
    let ulp := Qpower 2 (exponent - 23) in
    let rounded := Qred (inject_Z (round_half_even (magnitude / ulp)) * ulp) in
    if Qle_bool 0 q then rounded else (- rounded)%Q.

(** The square root, rounded to single precision. *)
Definition float32_sqrt (q : Q) : Q :=
  float32 (inject_Z (Z.sqrt (Qfloor (q * inject_Z (4 ^ 150)))) / inject_Z (2 ^ 150)).

(** The sum of a few values as NumPy accumulates it, each partial sum
    rounded to single precision. *)
Definition float32_sum (l : list Q) : Q := fold_left (fun s x => float32 (s + x)) l 0%Q.

(** [a.mean()] and [a.std()] of a short array of single precision: the mean
    is the rounded sum over the count, the standard deviation the root of
    the mean of the squared deviations from that mean. *)
Definition sample_mean (l : list Q) : Q :=
  float32 (float32_sum l / inject_Z (Z.of_nat (length l))).

Definition sample_std (l : list Q) : Q :=
  let deviations := map (fun x => float32 (x - sample_mean l)) l in
  let squares := map (fun x => float32 (x * x)) deviations in
  float32_sqrt (float32 (float32_sum squares / inject_Z (Z.of_nat (length l)))).

Definition sample_nan : Q := 0.
Definition sample_inf : Q := 1.

Definition empty_world : World := mk_world ∅ 0 [].

Section Pipelines.

(** [antspynet.utilities.preprocess_brain_image(image, truncate_intensity=(0.01, 0.99),
    do_brain_extraction, template, do_bias_correction=True, do_denoising=False,
    output_directory)]: not among the sources, and opaque here. *)
Variable preprocess_brain_image :
  ANTsImage -> forall (do_brain_extraction : bool) (template output_directory : option string),
  preprocessing.

(** What that call does to the world when it is given a template and asked
    for a brain extraction: it fetches the template and the weights of the
    brain extraction network and stores them in [output_directory], or in
    temporary files (docstring, lines 42-45).  Which files these are is not
    in the sources. *)
Variable preprocessing_data : option string -> World -> World.

Definition fetch_preprocessing_data (output_directory : option string) : M unit :=
  fun w => (Return tt, preprocessing_data output_directory w).

(** [ants.get_mask(image, cleanup=2)] *)
Variable get_mask : ANTsImage -> ANTsImage.

(** [ants.get_center_of_mass(image)]: ITK accumulates the moments of the
    image in double precision and refuses an image whose total mass comes
    out as zero; otherwise the answer is the center of gravity, in physical
    coordinates. *)
Variable total_mass : ANTsImage -> Q.
Variable center_of_gravity : ANTsImage -> Vec.vec.

Definition get_center_of_mass (image : ANTsImage) : outcome Vec.vec :=
  if Qeq_bool (total_mass image) 0 then
    Raise (LibraryError "ants.get_center_of_mass: total mass of the image is zero")
  else Return (center_of_gravity image).

(** The intensity the resampler reads off an image at a physical point
    (linear interpolation in ANTsPy). *)
Variable interpolate : ANTsImage -> Vec.vec -> Q.

(** [model.predict(batch)] for the Keras model whose weights were read from
    the given file. *)
Variable predict : string -> ndarray -> ndarray.

(** [a.mean()] and [a.std()] of an array that is not empty, as NumPy
    computes them in the precision of the array. *)
Variable mean_of : list Q -> Q.
Variable std_of : list Q -> Q.

(** The values that are not numbers. *)
Variable nan : Q.
Variable inf : Q.

(** [a.mean()]: of an empty array NumPy says so, divides zero by zero and
    answers nan ([None]). *)
Definition mean (l : list Q) : M (option Q) :=
  if length l =? 0 then
    emit_all [RuntimeWarning "Mean of empty slice."; invalid_value_warning] ;;;
    ret None
  else ret (Some (mean_of l)).

(** [a.std()]: of an empty array NumPy says so and divides zero by zero
    twice, for the mean and for the variance. *)
Definition std (l : list Q) : M (option Q) :=
  if length l =? 0 then
    emit_all [RuntimeWarning "Degrees of freedom <= 0 for slice";
              invalid_value_warning; invalid_value_warning] ;;;
    ret None
  else ret (Some (std_of l)).

(** An image of the shape of [a] none of whose voxels is a number. *)
Definition not_numbers (a : ANTsImage) : ANTsImage :=
  new_image_like a (map_array (fun _ => nan) (numpy a)).

(** [v / 0]: nan for zero, inf with the sign of [v] otherwise. *)
Definition quotient_by_zero (v : Q) : Q :=
  if Qeq_bool v 0 then nan else if Qle_bool 0 v then inf else (- inf)%Q.

(** [image / c] for a scalar [c]: NumPy divides by zero too, with a warning. *)
Definition image_div_scalar (a : ANTsImage) (c : Q) : M ANTsImage :=
  if Qeq_bool c 0 then
    emit_all (zero_division_warnings (ravel (numpy a))) ;;;
    ret (new_image_like a (map_array quotient_by_zero (numpy a)))
  else ret (new_image_like a (map_array (fun v => v / c)%Q (numpy a))).

(** [image - x] and [image / x] where [x] comes from a reduction: nan
    spreads without a warning. *)
Definition image_sub_number (a : ANTsImage) (x : option Q) : ANTsImage :=
  match x with
  | Some c => image_sub_scalar a c
  | None => not_numbers a
  end.

Definition image_div_number (a : ANTsImage) (x : option Q) : M ANTsImage :=
  match x with
  | Some c => image_div_scalar a c
  | None => ret (not_numbers a)
  end.

(** [ants.apply_ants_transform_to_image(xfrm, image, reference)]: [image]
    resampled onto the grid of [reference]; the transform is three-dimensional. *)
Definition apply_ants_transform_to_image (xfrm : ANTsTransform) (image reference : ANTsImage)
  : outcome ANTsImage :=
  if (dimension image =? 3) && (dimension reference =? 3) then
    Return (new_image_like reference
              (mk_ndarray (image_shape reference)
                 (fun idx => interpolate image
                               (apply_ants_transform_to_point xfrm
                                  (index_to_point reference idx)))))
  else Raise (LibraryError "ants.apply_ants_transform_to_image: dimensions differ").

(** *** brain_age *)

(** [(t1 - t1.min()) / (t1.max() - t1.min())] (line 88) *)
Definition rescale_intensity (image : ANTsImage) : M ANTsImage :=
  match list_min (ravel (numpy image)), list_max (ravel (numpy image)) with
  | Some lowest, Some highest =>
      image_div_scalar (image_sub_scalar image lowest) (highest - lowest)%Q
  | _, _ => raise (LibraryError "numpy: zero-size array to reduction operation")
  end.

(** [list(range(45, 125))] (line 111) *)
Definition which_slices : list nat := seq 45 80.

(** The body of the loop over [which_slices] (lines 120-122). *)
Definition fill_row (t1_preprocessed : ANTsImage) (i : nat) (batchX : ndarray)
  : outcome ndarray :=
  previous <~~ slice_image t1_preprocessed 2 (nth i which_slices 0 - 1) ;;
  batchX <~~ assign_plane batchX i 0 (numpy previous) ;;
  current <~~ slice_image t1_preprocessed 2 (nth i which_slices 0) ;;
  batchX <~~ assign_plane batchX i 1 (numpy current) ;;
  next <~~ slice_image t1_preprocessed 2 (nth i which_slices 0 + 1) ;;
  assign_plane batchX i 2 (numpy next).

(** The batch: [np.zeros((len(which_slices), *t1_preprocessed.shape[0:2], 3))],
    filled row by row (lines 113-122). *)
Definition brain_age_batch (t1_preprocessed : ANTsImage) : outcome ndarray :=
  let batchX :=
    zeros (length which_slices :: take 2 (image_shape t1_preprocessed) ++ [3]) in
  for_range_pure 0 (length which_slices) (fill_row t1_preprocessed) batchX.

(** Where [brain_age] keeps its weights inside [output_directory] (line 98). *)
Definition brain_age_weights_file (output_directory : string) : string :=
  output_directory +:+ "/DeepBrainNetModel.h5".

(** The cached or downloaded weights (lines 96-104). *)
Definition brain_age_weights (output_directory : option string) (verbose : bool) : M string :=
  match output_directory with
  | Some dir =>
      let model_weights_file_name := brain_age_weights_file dir in
      cached <~ path_exists model_weights_file_name ;;
      if negb cached then
        print_if verbose "Brain age (DeepBrainNet):  downloading model weights." ;;;
        get_pretrained_network "brainAgeDeepBrainNet" (Some model_weights_file_name)
      else ret model_weights_file_name
  | None => get_pretrained_network "brainAgeDeepBrainNet" None
  end.

(** The optional preprocessing, with the brain mask applied (lines 75-86). *)
Definition brain_age_preprocess (t1 : ANTsImage) (do_preprocessing : bool)
  (output_directory : option string) : M ANTsImage :=
  if do_preprocessing then
    emit (Preprocess true (Some "croppedMni152")) ;;;
    fetch_preprocessing_data output_directory ;;;
    let t1_preprocessing :=
      preprocess_brain_image t1 true (Some "croppedMni152") output_directory in
    match brain_mask t1_preprocessing with
    | Some mask => lift (image_mul (preprocessed_image t1_preprocessing) mask)
    | None => raise (LibraryError "KeyError: 'brain_mask'")
    end
  else ret t1.

(** The function itself (lines 66-134). *)
Definition brain_age (t1 : ANTsImage) (do_preprocessing : bool)
  (output_directory : option string) (verbose : bool) : M return_dict :=
  if negb (dimension t1 =? 3) then raise (ValueError dimension_message)
  else
    t1_preprocessed <~ brain_age_preprocess t1 do_preprocessing output_directory ;;
    t1_preprocessed <~ rescale_intensity t1_preprocessed ;;
    model_weights_file_name <~ brain_age_weights output_directory verbose ;;
    emit (LoadModel model_weights_file_name) ;;;
    batchX <~ lift (brain_age_batch t1_preprocessed) ;;
    print_if verbose "Brain age (DeepBrainNet):  predicting brain age per slice." ;;;
    emit (Predict model_weights_file_name) ;;;
    let per_slice := predict model_weights_file_name batchX in
    age <~ lift (rows <~~ rows_of per_slice ;; median rows) ;;
    ret (mk_return_dict age per_slice).

(** *** sysu_media_wmh_segmentation *)

(** The optional bias correction of [flair], and of [t1] (lines 92-114). *)
Definition wmh_preprocess (image : ANTsImage) (do_preprocessing : bool)
  (output_directory : option string) : M ANTsImage :=
  if do_preprocessing then
    emit (Preprocess false None) ;;;
    ret (preprocessed_image (preprocess_brain_image image false None output_directory))
  else ret image.

(** [ants.make_image((200, 200, 200), voxval=1, spacing=(1, 1, 1),
    origin=(0, 0, 0), direction=np.identity(3))] (lines 131-135) *)
Definition reference_image : ANTsImage :=
  make_image [200; 200; 200] 1 [1; 1; 1]%Q [0; 0; 0]%Q (Vec.identity 3).

(** [np.asarray(center_of_mass_image) - np.asarray(center_of_mass_reference)]
    (line 139) *)
Definition translation_between (center_of_mass_image center_of_mass_reference : Vec.vec)
  : outcome Vec.vec :=
  if length center_of_mass_image =? length center_of_mass_reference then
    Return (Vec.sub center_of_mass_image center_of_mass_reference)
  else Raise (LibraryError "numpy: operands could not be broadcast together").

(** [image > c]: an image of ones and zeros. *)
Definition image_gt_scalar (a : ANTsImage) (c : Q) : ANTsImage :=
  new_image_like a (map_array (fun v => if Qle_bool v c then 0 else 1)%Q (numpy a)).

(** [(image - image[mask > 0].mean()) / image[mask > 0].std()]
    (lines 155-157 for flair, 160-162 for t1) *)
Definition gaussian_normalize (image mask : ANTsImage) : M ANTsImage :=
  inside <~ lift (masked_values image (image_gt_scalar mask 0)) ;;
  mean_inside <~ mean inside ;;
  inside <~ lift (masked_values image (image_gt_scalar mask 0)) ;;
  std_inside <~ std inside ;;
  image_div_number (image_sub_number image mean_inside) std_inside.

(** The name under which the weights of model [i] are published. *)
Definition wmh_network (number_of_channels i : nat) : string :=
  (if number_of_channels =? 1 then "sysuMediaWmhFlairOnlyModel"
   else "sysuMediaWmhFlairT1Model") +:+ pretty i.

(** Where [sysu_media_wmh_segmentation] keeps them, given [output_directory]
    (lines 179 and 188). *)
Definition wmh_weights_file (output_directory : string) (number_of_channels i : nat)
  : string :=
  output_directory +:+ wmh_network number_of_channels i +:+ ".h5".

(** The body of the loop that builds the models (lines 176-197); a model is
    known by the file its weights were loaded from. *)
Definition load_unet_model (number_of_channels : nat) (output_directory : option string)
  (verbose : bool) (i : nat) (unet_models : list string) : M (list string) :=
  weights_file_name <~
    match output_directory with
    | Some dir =>
        let weights_file_name := wmh_weights_file dir number_of_channels i in
        cached <~ path_exists weights_file_name ;;
        if negb cached then
          print_if verbose "White matter hyperintensity:  downloading model weights." ;;;
          get_pretrained_network (wmh_network number_of_channels i) (Some weights_file_name)
        else ret weights_file_name
    | None => get_pretrained_network (wmh_network number_of_channels i) None
    end ;;
  emit (LoadWeights weights_file_name) ;;;
  ret (unet_models ++ [weights_file_name]).

(** Lines 170-172. *)
Definition number_of_models (use_ensemble : bool) : nat := if use_ensemble then 3 else 1.

(** The body of the loop that extracts the slices (lines 212-216). *)
Definition extract_slice (flair_preprocessed_warped : ANTsImage)
  (t1_preprocessed_warped : option ANTsImage) (number_of_channels : nat)
  (i : nat) (batchX : ndarray) : outcome ndarray :=
  flair_plane <~~ slice_image flair_preprocessed_warped 2 i ;;
  flair_slice <~~ pad_or_crop_image_to_size flair_plane [200; 200] ;;
  batchX <~~ assign_plane batchX i 0 (numpy flair_slice) ;;
  if number_of_channels =? 2 then
    match t1_preprocessed_warped with
    | Some t1_warped =>
        t1_plane <~~ slice_image t1_warped 2 i ;;
        t1_slice <~~ pad_or_crop_image_to_size t1_plane [200; 200] ;;
        assign_plane batchX i 1 (numpy t1_slice)
    | None => Raise (LibraryError "NameError: t1_preprocessed_warped")
    end
  else Return batchX.

(** The batch: [np.zeros((number_of_axial_slices, 200, 200, number_of_channels))],
    filled row by row (lines 205-216). *)
Definition wmh_batch (flair_preprocessed_warped : ANTsImage)
  (t1_preprocessed_warped : option ANTsImage) (number_of_channels : nat) : outcome ndarray :=
  match image_shape flair_preprocessed_warped !! 2 with
  | Some number_of_axial_slices =>
      let batchX := zeros [number_of_axial_slices; 200; 200; number_of_channels] in
      for_range_pure 0 number_of_axial_slices
        (extract_slice flair_preprocessed_warped t1_preprocessed_warped number_of_channels)
        batchX
  | None => Raise (LibraryError "IndexError: tuple index out of range")
  end.

(** The prediction of the first model, plus those of the others, over their
    number (lines 227-231). *)
Definition add_prediction (unet_models : list string) (batchX : ndarray)
  (i : nat) (prediction : ndarray) : M ndarray :=
  match unet_models !! i with
  | Some model =>
      emit (Predict model) ;;;
      lift (array_add prediction (predict model batchX))
  | None => raise (LibraryError "IndexError: list index out of range")
  end.

Definition ensemble_prediction (unet_models : list string) (batchX : ndarray)
  (number_of_models : nat) : M ndarray :=
  match unet_models with
  | first_model :: _ =>
      emit (Predict first_model) ;;;
      prediction <~ for_range 1 (number_of_models - 1)
                      (add_prediction unet_models batchX)
                      (predict first_model batchX) ;;
      ret (array_div_nat prediction number_of_models)
  | [] => raise (LibraryError "IndexError: list index out of range")
  end.

(** Restacking: the prediction as an image on the warped grid, then back
    through the inverse transform onto the grid of [flair] (lines 233-237). *)
Definition restack (prediction : ndarray) (flair_preprocessed_warped flair : ANTsImage)
  (xfrm : ANTsTransform) : outcome ANTsImage :=
  prediction_array <~~ transpose_120 (squeeze prediction) ;;
  prediction_image <~~ pad_or_crop_image_to_size (from_numpy prediction_array)
                         (image_shape flair_preprocessed_warped) ;;
  probability_image_warped <~~ copy_image_info flair_preprocessed_warped prediction_image ;;
  apply_ants_transform_to_image (invert_ants_transform xfrm) probability_image_warped flair.

(** The function itself (lines 83-239). *)
Definition sysu_media_wmh_segmentation (flair : ANTsImage) (t1 brain_mask : option ANTsImage)
  (do_preprocessing use_ensemble : bool) (output_directory : option string)
  (verbose : bool) : M ANTsImage :=
  if negb (dimension flair =? 3) then raise (ValueError dimension_message)
  else
    flair_preprocessed <~ wmh_preprocess flair do_preprocessing output_directory ;;
    t1_preprocessed <~
      match t1 with
      | Some t1 => p <~ wmh_preprocess t1 do_preprocessing output_directory ;; ret (Some p)
      | None => ret None
      end ;;
    let number_of_channels := match t1 with Some _ => 2 | None => 1 end in
    brain_mask <~
      match brain_mask with
      | Some mask => ret mask
      | None =>
          print_if verbose "Estimating brain mask." ;;;
          emit GetMask ;;;
          ret (get_mask (match t1 with Some t1 => t1 | None => flair end))
      end ;;
    center_of_mass_reference <~ lift (get_center_of_mass reference_image) ;;
    center_of_mass_image <~ lift (get_center_of_mass brain_mask) ;;
    translation <~
      lift (translation_between center_of_mass_image center_of_mass_reference) ;;
    let xfrm := create_ants_transform center_of_mass_reference translation in
    flair_preprocessed_warped <~
      lift (apply_ants_transform_to_image xfrm flair_preprocessed reference_image) ;;
    brain_mask_warped <~
      lift (warped <~~ apply_ants_transform_to_image xfrm brain_mask reference_image ;;
            Return (threshold_image warped (1 # 2) (11 # 10) 1 0)) ;;
    t1_preprocessed_warped <~
      match t1_preprocessed with
      | Some t1_preprocessed =>
          warped <~ lift (apply_ants_transform_to_image xfrm t1_preprocessed
                            reference_image) ;;
          ret (Some warped)
      | None => ret None
      end ;;
    flair_preprocessed_warped <~
      gaussian_normalize flair_preprocessed_warped brain_mask_warped ;;
    t1_preprocessed_warped <~
      (if number_of_channels =? 2 then
         match t1_preprocessed_warped with
         | Some t1_warped =>
             normalized <~ gaussian_normalize t1_warped brain_mask_warped ;;
             ret (Some normalized)
         | None => raise (LibraryError "NameError: t1_preprocessed_warped")
         end
       else ret t1_preprocessed_warped) ;;
    unet_models <~
      for_range 0 (number_of_models use_ensemble)
        (load_unet_model number_of_channels output_directory verbose) [] ;;
    print_if verbose "Extracting slices." ;;;
    batchX <~
      lift (wmh_batch flair_preprocessed_warped t1_preprocessed_warped
              number_of_channels) ;;
    print_if verbose "Prediction." ;;;
    prediction <~ ensemble_prediction unet_models batchX (number_of_models use_ensemble) ;;
    lift (restack prediction flair_preprocessed_warped flair xfrm).

(** ** Notions used in the statements *)

(** The failure an outcome carries, if any. *)
Definition failure_of {A} (o : outcome A) : option failure :=
  match o with
  | Return _ => None
  | Raise e => Some e
  end.

(** A computation that cannot end in the failure [e]. *)
Definition avoids_pure {A} (e : failure) (o : outcome A) : Prop := failure_of o <> Some e.

Definition avoids {A} (e : failure) (m : M A) : Prop :=
  forall w, avoids_pure e (fst (m w)).

(** The failure of [ants.slice_image] on a plane the image does not have. *)
Definition slice_out_of_range : failure :=
  LibraryError "ants.slice_image: index out of range".

(** [slice] is the axial slice [i] of [image], padded or cropped to
    200 x 200. *)
Definition padded_slice (image : ANTsImage) (i : nat) (slice : ANTsImage) : Prop :=
  exists plane,
    slice_image image 2 i = Return plane /\
    pad_or_crop_image_to_size plane [200; 200] = Return slice.

(** Channel [c] of row [i] of [batch] holds that slice of [image]. *)
Definition row_holds (batch : ndarray) (i c : nat) (image : ANTsImage) : Prop :=
  exists slice,
    padded_slice image i slice /\ image_shape slice = [200; 200] /\
    forall x y, item batch [i; x; y; c] = voxel slice [x; y].


(** Whether a directory is written with a slash at its end. *)
Definition ends_with_slash (directory : string) : bool :=
  match rev (list_ascii_of_string directory) with
  | c :: _ => is_slash c
  | [] => false
  end.


(** What ANTsPy says of two images that do not share a grid. *)
Definition physical_space_message : string := "images do not occupy same physical space".


(** The downloads a log records: network and target file, in order. *)
Definition downloads (l : list event) : list (string * string) :=
  flat_map (fun e => match e with
                     | Download network target => [(network, target)]
                     | _ => []
                     end) l.

(** A computation that neither looks at the world nor touches the files or
    downloads anything: what it returned once it returns from every world. *)
Definition world_independent {A} (m : M A) : Prop :=
  forall w a w1, m w = (Return a, w1) ->
    files w1 = files w /\ temp_counter w1 = temp_counter w /\
    downloads (log w1) = downloads (log w) /\
    forall v, exists v1, m v = (Return a, v1).

(** A computation that leaves the files [cache] behind and, wherever they
    are all present, returns what it returned once without a download. *)
Definition runs_from_cache {A} (cache : gset string) (m : M A) : Prop :=
  forall w a w1, m w = (Return a, w1) ->
    files w1 = cache ∪ files w /\
    forall v, cache ⊆ files v ->
      exists v1, m v = (Return a, v1) /\ downloads (log v1) = downloads (log v).

(** A computation that downloads [fetched t], whatever files there are, when
    [t] temporary names have been handed out, and takes a new temporary name
    for each download. *)
Definition downloads_anew {A} (fetched : nat -> list (string * string)) (m : M A) : Prop :=
  forall w a w1, m w = (Return a, w1) ->
    downloads (log w1) = downloads (log w) ++ fetched (temp_counter w) /\
    temp_counter w1 = temp_counter w + length (fetched (temp_counter w)).

(** * Properties *)

(** ** Sequencing *)

Lemma bind_return {A B} (m : M A) (k : A -> M B) w a w' :
  m w = (Return a, w') -> bind m k w = k a w'.
Proof. intros H. unfold bind. now rewrite H. Qed.

Lemma bind_raise {A B} (m : M A) (k : A -> M B) w e w' :
  m w = (Raise e, w') -> bind m k w = (Raise e, w').
Proof. intros H. unfold bind. now rewrite H. Qed.

Lemma avoids_ret {A} e (a : A) : avoids e (ret a).
Proof. intros w. discriminate. Qed.

Lemma avoids_bind {A B} e (m : M A) (k : A -> M B) :
  avoids e m -> (forall a, avoids e (k a)) -> avoids e (bind m k).
Proof.
  intros Hm Hk w. unfold bind. specialize (Hm w).
  destruct (m w) as [[a | e'] w']; simpl in *; [apply Hk | exact Hm].
Qed.

Lemma avoids_lift {A} e (o : outcome A) : avoids_pure e o -> avoids e (lift o).
Proof. intros H w. exact H. Qed.

Lemma avoids_emit e ev : avoids e (emit ev).
Proof. intros w. discriminate. Qed.

Lemma avoids_print_if e verbose msg : avoids e (print_if verbose msg).
Proof. destruct verbose; [apply avoids_emit | apply avoids_ret]. Qed.

Lemma avoids_emit_all e events : avoids e (emit_all events).
Proof. intros w. discriminate. Qed.

Lemma avoids_fetch_preprocessing_data e output_directory :
  avoids e (fetch_preprocessing_data output_directory).
Proof. intros w. discriminate. Qed.

Lemma avoids_path_exists e path : avoids e (path_exists path).
Proof. intros w. discriminate. Qed.

Lemma avoids_get_pretrained_network e file_id target :
  avoids e (get_pretrained_network file_id target).
Proof. intros w. unfold get_pretrained_network. destruct target; discriminate. Qed.

Lemma avoids_raise {A} e e' : e' <> e -> avoids e (@raise A e').
Proof. intros H w. unfold avoids_pure. simpl. congruence. Qed.

Lemma avoids_and_then {A B} e (o : outcome A) (k : A -> outcome B) :
  avoids_pure e o -> (forall a, avoids_pure e (k a)) -> avoids_pure e (and_then o k).
Proof. intros Ho Hk. destruct o; simpl; [apply Hk | exact Ho]. Qed.

Lemma avoids_for_range {A} e (body : nat -> A -> M A) :
  (forall i acc, avoids e (body i acc)) ->
  forall count start acc, avoids e (for_range start count body acc).
Proof.
  intros Hbody. induction count as [| count IH]; intros start acc; simpl.
  - apply avoids_ret.
  - apply avoids_bind; [apply Hbody | intros a; apply IH].
Qed.

Lemma avoids_for_range_pure {A} e (body : nat -> A -> outcome A) :
  (forall i acc, avoids_pure e (body i acc)) ->
  forall count start acc, avoids_pure e (for_range_pure start count body acc).
Proof.
  intros Hbody. induction count as [| count IH]; intros start acc; simpl.
  - discriminate.
  - specialize (Hbody start acc). destruct (body start acc); [apply IH | exact Hbody].
Qed.


(** ** Failures that a run cannot end in *)

Create HintDb pure_steps.
#[local] Hint Unfold slice_image assign_plane pad_image crop_image_center
  pad_or_crop_image_to_size transpose_120 copy_image_info image_mul
  masked_values array_add median rows_of translation_between get_center_of_mass
  apply_ants_transform_to_image fill_row brain_age_batch
  extract_slice wmh_batch restack : pure_steps.

Create HintDb steps.
#[local] Hint Unfold brain_age_preprocess brain_age_weights wmh_preprocess load_unet_model
  add_prediction ensemble_prediction image_div_scalar image_div_number mean std
  rescale_intensity gaussian_normalize : steps.

Ltac avoid_step :=
  lazymatch goal with
  | |- avoids_pure _ (and_then _ _) => apply avoids_and_then; [| intros ?]
  | |- avoids_pure _ (for_range_pure _ _ _ _) => apply avoids_for_range_pure; intros ? ?
  | |- avoids_pure _ (Return _) => discriminate
  | |- avoids_pure _ (Raise _) =>
      unfold avoids_pure, dimension_message; simpl; first [discriminate | congruence]
  | |- avoids_pure _ (match ?x with _ => _ end) => destruct x
  | |- avoids_pure _ (let _ := _ in _) => cbv zeta
  | |- avoids_pure _ _ => progress autounfold with pure_steps
  end.

Ltac avoid_pure := repeat avoid_step.

Ltac avoid_effect_step :=
  lazymatch goal with
  | |- avoids _ (bind _ _) => apply avoids_bind; [| intros ?]
  | |- avoids _ (ret _) => apply avoids_ret
  | |- avoids _ (emit _) => apply avoids_emit
  | |- avoids _ (print_if _ _) => apply avoids_print_if
  | |- avoids _ (emit_all _) => apply avoids_emit_all
  | |- avoids _ (fetch_preprocessing_data _) => apply avoids_fetch_preprocessing_data
  | |- avoids _ (path_exists _) => apply avoids_path_exists
  | |- avoids _ (get_pretrained_network _ _) => apply avoids_get_pretrained_network
  | |- avoids _ (raise _) =>
      apply avoids_raise; unfold dimension_message; first [discriminate | congruence]
  | |- avoids _ (lift _) => apply avoids_lift; avoid_pure
  | |- avoids _ (for_range _ _ _ _) => apply avoids_for_range; intros ? ?
  | |- avoids _ (match ?x with _ => _ end) => destruct x
  | |- avoids _ (let _ := _ in _) => cbv zeta
  | |- avoids _ _ => progress autounfold with steps
  end.

Ltac avoid_effect := repeat avoid_effect_step.

(** ** Slices and planes *)

Lemma which_slices_nth i : i < 80 -> nth i which_slices 0 = 45 + i.
Proof. intros H. unfold which_slices. now apply seq_nth. Qed.

Lemma slice_image_axial vol d0 d1 d2 idx :
  image_shape vol = [d0; d1; d2] -> idx < d2 ->
  exists plane,
    slice_image vol 2 idx = Return plane /\
    image_shape plane = [d0; d1] /\
    forall x y, voxel plane [x; y] = voxel vol [x; y; idx].
Proof.
  intros Hshape Hidx. unfold slice_image. rewrite Hshape. simpl.
  apply Nat.ltb_lt in Hidx. rewrite Hidx.
  eexists. split; [reflexivity |]. split; reflexivity.
Qed.

Lemma slice_image_out_of_range vol d0 d1 d2 idx :
  image_shape vol = [d0; d1; d2] -> d2 <= idx ->
  slice_image vol 2 idx = Raise (LibraryError "ants.slice_image: index out of range").
Proof.
  intros Hshape Hidx. unfold slice_image. rewrite Hshape. simpl.
  apply Nat.ltb_ge in Hidx. now rewrite Hidx.
Qed.

Lemma assign_plane_ok batch n d0 d1 channels i c plane :
  shape batch = [n; d0; d1; channels] -> i < n -> c < channels ->
  shape plane = [d0; d1] ->
  exists batch',
    assign_plane batch i c plane = Return batch' /\
    shape batch' = [n; d0; d1; channels] /\
    (forall x y, item batch' [i; x; y; c] = item plane [x; y]) /\
    (forall i' x y c', (i', c') <> (i, c) ->
       item batch' [i'; x; y; c'] = item batch [i'; x; y; c']).
Proof.
  intros Hshape Hi Hc Hplane. unfold assign_plane. rewrite Hshape.
  apply Nat.ltb_lt in Hi, Hc. rewrite Hi, Hc. simpl.
  rewrite bool_decide_eq_true_2 by exact Hplane.
  eexists. split; [reflexivity |]. split; [reflexivity |]. split.
  - intros x y. simpl. now rewrite !Nat.eqb_refl.
  - intros i' x y c' Hne. simpl.
    destruct (i' =? i) eqn:Ei; [| reflexivity].
    destruct (c' =? c) eqn:Ec; [| reflexivity].
    apply Nat.eqb_eq in Ei, Ec. congruence.
Qed.

(** One pass of the loop of [brain_age] fills row [i] and nothing else. *)
Lemma fill_row_ok vol d0 d1 d2 i batch :
  image_shape vol = [d0; d1; d2] -> 46 + i < d2 -> i < 80 ->
  shape batch = [80; d0; d1; 3] ->
  exists batch',
    fill_row vol i batch = Return batch' /\
    shape batch' = [80; d0; d1; 3] /\
    (forall x y c, c < 3 -> item batch' [i; x; y; c] = voxel vol [x; y; 44 + i + c]) /\
    (forall i' x y c, i' <> i -> item batch' [i'; x; y; c] = item batch [i'; x; y; c]).
Proof.
  intros Hvol Hd2 Hi Hbatch. unfold fill_row. rewrite which_slices_nth by exact Hi.
  destruct (slice_image_axial vol d0 d1 d2 (45 + i - 1) Hvol) as (p0 & -> & Hs0 & Hv0); [lia |].
  cbn [and_then].
  destruct (assign_plane_ok batch 80 d0 d1 3 i 0 (numpy p0) Hbatch Hi) as (b0 & -> & Hb0 & Hi0 & Ho0);
    [lia | exact Hs0 |].
  cbn [and_then].
  destruct (slice_image_axial vol d0 d1 d2 (45 + i) Hvol) as (p1 & -> & Hs1 & Hv1); [lia |].
  cbn [and_then].
  destruct (assign_plane_ok b0 80 d0 d1 3 i 1 (numpy p1) Hb0 Hi) as (b1 & -> & Hb1 & Hi1 & Ho1);
    [lia | exact Hs1 |].
  cbn [and_then].
  destruct (slice_image_axial vol d0 d1 d2 (45 + i + 1) Hvol) as (p2 & -> & Hs2 & Hv2); [lia |].
  cbn [and_then].
  destruct (assign_plane_ok b1 80 d0 d1 3 i 2 (numpy p2) Hb1 Hi) as (b2 & -> & Hb2 & Hi2 & Ho2);
    [lia | exact Hs2 |].
  eexists. split; [reflexivity |]. split; [exact Hb2 |]. split.
  - intros x y c Hc.
    destruct c as [| [| [| c]]]; [| | | lia].
    + rewrite Ho2 by congruence. rewrite Ho1 by congruence. rewrite Hi0.
      fold (voxel p0 [x; y]). rewrite Hv0. f_equal. f_equal. f_equal. f_equal. lia.
    + rewrite Ho2 by congruence. rewrite Hi1.
      fold (voxel p1 [x; y]). rewrite Hv1. f_equal. f_equal. f_equal. f_equal. lia.
    + rewrite Hi2. fold (voxel p2 [x; y]). rewrite Hv2.
      f_equal. f_equal. f_equal. f_equal. lia.
  - intros i' x y c Hne.
    rewrite Ho2 by congruence. rewrite Ho1 by congruence. now rewrite Ho0 by congruence.
Qed.

Lemma fill_row_out_of_range vol d0 d1 d2 i batch :
  image_shape vol = [d0; d1; d2] -> d2 <= 46 + i -> i < 80 ->
  shape batch = [80; d0; d1; 3] ->
  fill_row vol i batch = Raise (LibraryError "ants.slice_image: index out of range").
Proof.
  intros Hvol Hd2 Hi Hbatch. unfold fill_row. rewrite which_slices_nth by exact Hi.
  destruct (le_lt_dec d2 (45 + i - 1)) as [H0 | H0].
  { now rewrite (slice_image_out_of_range vol d0 d1 d2 _ Hvol H0). }
  destruct (slice_image_axial vol d0 d1 d2 (45 + i - 1) Hvol H0) as (p0 & -> & Hs0 & _).
  cbn [and_then].
  destruct (assign_plane_ok batch 80 d0 d1 3 i 0 (numpy p0) Hbatch Hi) as (b0 & -> & Hb0 & _);
    [lia | exact Hs0 |].
  cbn [and_then].
  destruct (le_lt_dec d2 (45 + i)) as [H1 | H1].
  { now rewrite (slice_image_out_of_range vol d0 d1 d2 _ Hvol H1). }
  destruct (slice_image_axial vol d0 d1 d2 (45 + i) Hvol H1) as (p1 & -> & Hs1 & _).
  cbn [and_then].
  destruct (assign_plane_ok b0 80 d0 d1 3 i 1 (numpy p1) Hb0 Hi) as (b1 & -> & Hb1 & _);
    [lia | exact Hs1 |].
  cbn [and_then].
  rewrite (slice_image_out_of_range vol d0 d1 d2 (45 + i + 1) Hvol); [reflexivity | lia].
Qed.

(** The loop of [brain_age], started at any row. *)
Lemma brain_age_loop_ok vol d0 d1 d2 :
  image_shape vol = [d0; d1; d2] -> 126 <= d2 ->
  forall count start batch,
    start + count = 80 -> shape batch = [80; d0; d1; 3] ->
    exists batch',
      for_range_pure start count (fill_row vol) batch = Return batch' /\
      shape batch' = [80; d0; d1; 3] /\
      (forall i x y c, start <= i < 80 -> c < 3 ->
         item batch' [i; x; y; c] = voxel vol [x; y; 44 + i + c]) /\
      (forall i x y c, i < start -> item batch' [i; x; y; c] = item batch [i; x; y; c]).
Proof.
  intros Hvol Hd2. induction count as [| count IH]; intros start batch Hsum Hbatch.
  - exists batch. simpl. repeat split; [exact Hbatch | intros; lia].
  - destruct (fill_row_ok vol d0 d1 d2 start batch Hvol) as (b1 & Hrun & Hb1 & Hrow & Hrest);
      [lia | lia | exact Hbatch |].
    destruct (IH (S start) b1) as (b' & Hloop & Hb' & Hrows & Hbefore); [lia | exact Hb1 |].
    exists b'. simpl. rewrite Hrun. split; [exact Hloop |]. split; [exact Hb' |]. split.
    + intros i x y c Hi Hc. destruct (Nat.eq_dec i start) as [-> | Hne].
      * rewrite Hbefore by lia. now apply Hrow.
      * apply Hrows; lia.
    + intros i x y c Hi. rewrite Hbefore by lia. apply Hrest. lia.
Qed.

Lemma brain_age_loop_out_of_range vol d0 d1 d2 :
  image_shape vol = [d0; d1; d2] -> d2 < 126 ->
  forall count start batch,
    start + count = 80 -> 0 < count -> shape batch = [80; d0; d1; 3] ->
    for_range_pure start count (fill_row vol) batch
    = Raise (LibraryError "ants.slice_image: index out of range").
Proof.
  intros Hvol Hd2. induction count as [| count IH]; intros start batch Hsum Hpos Hbatch;
    [lia |].
  simpl. destruct (le_lt_dec d2 (46 + start)) as [Hout | Hin].
  - rewrite (fill_row_out_of_range vol d0 d1 d2 start batch Hvol Hout);
      [reflexivity | lia | exact Hbatch].
  - destruct (fill_row_ok vol d0 d1 d2 start batch Hvol Hin) as (b1 & -> & Hb1 & _);
      [lia | exact Hbatch |].
    apply IH; [lia | lia | exact Hb1].
Qed.

Lemma brain_age_batch_returns vol d0 d1 d2 :
  image_shape vol = [d0; d1; d2] -> 126 <= d2 ->
  exists batchX, brain_age_batch vol = Return batchX /\ shape batchX = [80; d0; d1; 3].
Proof.
  intros Hvol Hd2. unfold brain_age_batch.
  destruct (brain_age_loop_ok vol d0 d1 d2 Hvol Hd2 80 0
              (zeros (length which_slices :: take 2 (image_shape vol) ++ [3])))
    as (batchX & Hrun & Hshape & _); [reflexivity | now rewrite Hvol |].
  exists batchX. auto.
Qed.

(** C5.  For a preprocessed volume of shape (d0, d1, d2) with the 126 axial
    slices the loop reads, the batch of [brain_age] has shape (80, d0, d1, 3);
    its row [i] stands for slice [45 + i], and channel [c] of that row is
    the axial slice [44 + i + c] of the volume: the slices 44 + i, 45 + i and
    46 + i, in this order. *)
Theorem brain_age_batch_layout :
  forall (t1_preprocessed : ANTsImage) (d0 d1 d2 : nat),
    image_shape t1_preprocessed = [d0; d1; d2] -> 126 <= d2 ->
    exists batchX,
      brain_age_batch t1_preprocessed = Return batchX /\
      shape batchX = [80; d0; d1; 3] /\
      forall i x y c, i < 80 -> c < 3 ->
        nth i which_slices 0 = 45 + i /\
        item batchX [i; x; y; c] = voxel t1_preprocessed [x; y; 44 + i + c].
Proof.
  intros vol d0 d1 d2 Hvol Hd2. unfold brain_age_batch.
  destruct (brain_age_loop_ok vol d0 d1 d2 Hvol Hd2 80 0
              (zeros (length which_slices :: take 2 (image_shape vol) ++ [3])))
    as (batchX & Hrun & Hshape & Hrows & _); [reflexivity | now rewrite Hvol |].
  exists batchX. split; [exact Hrun |]. split; [exact Hshape |].
  intros i x y c Hi Hc. split; [now apply which_slices_nth | apply Hrows; lia].
Qed.

(** ** Runs of the steps of [brain_age] *)

Lemma indices_in_bounds shp idx : In idx (indices shp) <-> in_bounds shp idx.
Proof.
  revert idx. induction shp as [| d shp IH]; intros idx; simpl.
  - split.
    + intros [<- | []]. constructor.
    + intros H. inversion H. now left.
  - rewrite in_flat_map. split.
    + intros (i & Hi & Hidx). apply in_map_iff in Hidx as (rest & <- & Hrest).
      apply in_seq in Hi. constructor; [lia | now apply IH].
    + intros H. inversion H as [| i d' rest shp' Hlt Hrest]; subst.
      exists i. split; [apply in_seq; lia |].
      apply in_map_iff. exists rest. split; [reflexivity | now apply IH].
Qed.

Lemma indices_nonempty shp : Forall (lt 0) shp -> indices shp <> [].
Proof.
  intros Hpos Hnil.
  assert (Hin : In (map (fun _ => 0) shp) (indices shp)).
  { apply indices_in_bounds. unfold in_bounds.
    clear Hnil. induction Hpos; simpl; constructor; auto. }
  rewrite Hnil in Hin. exact Hin.
Qed.

Lemma ravel_nonempty a : Forall (lt 0) (shape a) -> ravel a <> [].
Proof.
  intros Hpos Hnil. apply (indices_nonempty (shape a) Hpos).
  unfold ravel in Hnil. now apply map_eq_nil in Hnil.
Qed.

Lemma rescale_intensity_run image w :
  Forall (lt 0) (image_shape image) ->
  exists normalized w',
    rescale_intensity image w = (Return normalized, w') /\
    image_shape normalized = image_shape image /\
    files w' = files w /\ temp_counter w' = temp_counter w.
Proof.
  intros Hpos. unfold rescale_intensity.
  destruct (ravel (numpy image)) as [| v values] eqn:Hravel.
  { exfalso. now apply (ravel_nonempty (numpy image) Hpos). }
  cbn [list_min list_max]. unfold image_div_scalar, bind, emit_all, ret.
  destruct (Qeq_bool _ 0); eexists; eexists; repeat split.
Qed.

Lemma brain_age_weights_run output_directory verbose w :
  exists file w', brain_age_weights output_directory verbose w = (Return file, w').
Proof.
  unfold brain_age_weights. destruct output_directory as [dir |]; simpl.
  - unfold bind, path_exists. simpl. destruct (bool_decide _); simpl.
    + eexists; eexists; reflexivity.
    + destruct verbose; simpl; eexists; eexists; reflexivity.
  - eexists; eexists; reflexivity.
Qed.

Lemma emit_run e w :
  emit e w = (Return tt, mk_world (files w) (temp_counter w) (log w ++ [e])).
Proof. reflexivity. Qed.

Lemma lift_run {A} (a : A) w : lift (Return a) w = (Return a, w).
Proof. reflexivity. Qed.

Ltac run_step H := rewrite (bind_return _ _ _ _ _ H).

(** C9.  The loop of [brain_age] asks for the axial slices 44 to 125,
    whatever the size of the volume.  With a preprocessed volume of at least
    126 axial slices no run ends in an out-of-range slice; with fewer, every
    run on a three-dimensional input ends there. *)
Theorem brain_age_needs_126_slices :
  forall (t1 t1_preprocessed : ANTsImage) (do_preprocessing verbose : bool)
         (output_directory : option string) (w w1 : World) (d0 d1 d2 : nat),
    dimension t1 = 3 ->
    brain_age_preprocess t1 do_preprocessing output_directory w
    = (Return t1_preprocessed, w1) ->
    image_shape t1_preprocessed = [d0; d1; d2] ->
    0 < d0 -> 0 < d1 -> 0 < d2 ->
    (length which_slices = 80 /\
     nth 0 which_slices 0 - 1 = 44 /\ nth 79 which_slices 0 + 1 = 125) /\
    (126 <= d2 ->
     failure_of (fst (brain_age t1 do_preprocessing output_directory verbose w))
     <> Some slice_out_of_range) /\
    (d2 < 126 ->
     fst (brain_age t1 do_preprocessing output_directory verbose w)
     = Raise slice_out_of_range).
Proof.
  intros t1 pre dp verbose od w w1 d0 d1 d2 Hdim Hpre Hshape H0 H1 H2.
  split; [repeat split |].
  assert (Hpos : Forall (lt 0) (image_shape pre)).
  { rewrite Hshape. repeat constructor; assumption. }
  destruct (rescale_intensity_run pre w1 Hpos) as (normalized & w2 & Hrescale & Hsame & _).
  rewrite Hshape in Hsame.
  destruct (brain_age_weights_run od verbose w2) as (file & w3 & Hweights).
  apply Nat.eqb_eq in Hdim. unfold brain_age. rewrite Hdim. cbn [negb].
  run_step Hpre. run_step Hrescale. run_step Hweights.
  run_step (emit_run (LoadModel file) w3).
  split; intros Hd2.
  - destruct (brain_age_batch_returns normalized d0 d1 d2 Hsame Hd2) as (batchX & Hbatch & _).
    assert (Hlift : forall w', lift (brain_age_batch normalized) w' = (Return batchX, w')).
    { intros w'. unfold lift. now rewrite Hbatch. }
    run_step (Hlift (mk_world (files w3) (temp_counter w3) (log w3 ++ [LoadModel file]))).
    match goal with |- failure_of (fst (?m ?w')) <> _ =>
      generalize w'; change (avoids slice_out_of_range m) end.
    unfold slice_out_of_range. avoid_effect.
  - unfold brain_age_batch, lift at 1.
    rewrite (brain_age_loop_out_of_range normalized d0 d1 d2 Hsame Hd2);
      [reflexivity | reflexivity | cbv; lia | now rewrite Hsame].
Qed.

(** ** C8: padding and cropping to a size *)

Lemma half_floor_ceil k : k / 2 + (k + 1) / 2 = k.
Proof.
  destruct (Nat.Even_or_Odd k) as [[m ->] | [m ->]].
  - rewrite (Nat.mul_comm 2 m), Nat.div_mul by lia.
    rewrite Nat.div_add_l by lia. simpl. lia.
  - replace (2 * m + 1 + 1) with ((m + 1) * 2) by lia.
    rewrite Nat.div_mul by lia.
    rewrite (Nat.mul_comm 2 m), Nat.div_add_l by lia. simpl. lia.
Qed.

Lemma pad_reaches_shape (old new : list nat) :
  Forall2 le old new ->
  zip_with Nat.add (zip_with Nat.add old (zip_with pad_lower old new))
           (zip_with pad_upper old new) = new.
Proof.
  induction 1 as [| o n old new Hle _ IH]; simpl; [reflexivity |].
  rewrite IH. f_equal. unfold pad_lower, pad_upper.
  pose proof (half_floor_ceil (n - o)). lia.
Qed.

Lemma min_Z_fold_le (l : list Z) (x : Z) :
  (fold_left Z.min l x <= x)%Z /\ Forall (fun y => (fold_left Z.min l x <= y)%Z) l.
Proof.
  revert x. induction l as [| y l IH]; intros x; simpl.
  - split; [lia | constructor].
  - destruct (IH (Z.min x y)) as [Hx Hl]. split; [lia |].
    constructor; [lia | exact Hl].
Qed.

Lemma min_Z_le (l : list Z) : Forall (fun y => (min_Z l <= y)%Z) l.
Proof.
  destruct l as [| x l]; simpl; [constructor |].
  destruct (min_Z_fold_le l x) as [Hx Hl]. constructor; assumption.
Qed.

Lemma pad_image_shape image shp :
  Forall2 le (image_shape image) shp ->
  exists padded, pad_image image shp = Return padded /\ image_shape padded = shp.
Proof.
  intros Hle. unfold pad_image.
  assert (Hlen : length shp = dimension image).
  { unfold dimension. symmetry. eapply Forall2_length. exact Hle. }
  apply Nat.eqb_eq in Hlen. rewrite Hlen.
  eexists. split; [reflexivity |]. unfold image_shape at 1. simpl.
  now apply pad_reaches_shape.
Qed.

Lemma crop_image_center_shape image size :
  Forall2 le size (image_shape image) ->
  exists cropped,
    crop_image_center image size = Return cropped /\ image_shape cropped = size.
Proof.
  intros Hle. unfold crop_image_center.
  assert (Hlen : length (image_shape image) = length size).
  { symmetry. eapply Forall2_length. exact Hle. }
  apply Nat.eqb_eq in Hlen. rewrite Hlen. cbn [negb].
  assert (Hfits : existsb (fun p => fst p <? snd p) (zip (image_shape image) size) = false).
  { clear Hlen. induction Hle as [| c i size shp Hci _ IH]; simpl; [reflexivity |].
    rewrite IH. apply Nat.ltb_ge in Hci. now rewrite Hci. }
  rewrite Hfits. eexists. split; reflexivity.
Qed.

Lemma fits_after_padding (old size : list nat) (p : nat) :
  length size = length old ->
  Forall (fun d => (- Z.of_nat p <= d)%Z)
         (zip_with Z.sub (map Z.of_nat old) (map Z.of_nat size)) ->
  Forall2 (fun s o => s <= o + p) size old.
Proof.
  revert size. induction old as [| o old IH]; intros [| s size] Hlen Hall;
    simpl in *; try discriminate; [constructor |].
  inversion Hall; subst. constructor; [lia | apply IH; [lia | assumption]].
Qed.

Lemma existsb_negative_false (delta : list Z) :
  existsb (fun d => (d <? 0)%Z) delta = false -> Forall (fun d => (- Z.of_nat 0 <= d)%Z) delta.
Proof.
  induction delta as [| d delta IH]; simpl; intros H; [constructor |].
  apply orb_false_iff in H as [Hd Hrest]. apply Z.ltb_ge in Hd.
  constructor; [simpl; lia | now apply IH].
Qed.

Lemma Forall2_le_map_add (size old : list nat) (p : nat) :
  Forall2 (fun s o => s <= o + p) size old ->
  Forall2 le size (map (fun o => o + p) old).
Proof. induction 1; simpl; constructor; auto. Qed.

Lemma Forall2_le_add_zero (size old : list nat) :
  Forall2 (fun s o => s <= o + 0) size old -> Forall2 le size old.
Proof. induction 1; constructor; auto; lia. Qed.

Lemma Forall2_le_map_add_self (old : list nat) (p : nat) :
  Forall2 le old (map (fun o => o + p) old).
Proof. induction old; simpl; constructor; auto; lia. Qed.

(** The first half of [pad_or_crop_image_to_size]: after it the target fits. *)
Lemma padding_makes_room (image : ANTsImage) (size : list nat) :
  length size = dimension image ->
  let delta := zip_with Z.sub (map Z.of_nat (image_shape image)) (map Z.of_nat size) in
  let pad_size := Z.to_nat (Z.abs (min_Z delta)) in
  exists padded,
    (if existsb (fun d => (d <? 0)%Z) delta
     then pad_image image (map (fun s => s + pad_size) (image_shape image)) = Return padded
          /\ image_shape padded = map (fun s => s + pad_size) (image_shape image)
     else padded = image) /\
    Forall2 le size (image_shape padded) /\
    pad_or_crop_image_to_size image size = crop_image_center padded size.
Proof.
  intros Hlen delta pad_size. unfold pad_or_crop_image_to_size, broadcast_sub.
  rewrite !length_map. unfold dimension in Hlen. rewrite <- Hlen, Nat.eqb_refl.
  fold delta.
  assert (Hpad_shape :
    map Z.to_nat (map (fun s => (s + Z.abs (min_Z delta))%Z) (map Z.of_nat (image_shape image)))
    = map (fun s => s + pad_size) (image_shape image)).
  { rewrite !map_map. apply map_ext. intros s. unfold pad_size. lia. }
  rewrite Hpad_shape.
  destruct (existsb (fun d => (d <? 0)%Z) delta) eqn:Hneg.
  - destruct (pad_image_shape image (map (fun s => s + pad_size) (image_shape image)))
      as (padded & Hpad & Hshape).
    { apply Forall2_le_map_add_self. }
    exists padded. rewrite Hpad. cbn [and_then]. split; [auto |]. split; [| reflexivity].
    rewrite Hshape. apply Forall2_le_map_add.
    apply fits_after_padding; [exact Hlen |].
    eapply Forall_impl; [apply min_Z_le |]. fold delta. intros d Hd. simpl in Hd.
    unfold pad_size. lia.
  - exists image. cbn [and_then]. split; [reflexivity |]. split; [| reflexivity].
    apply Forall2_le_add_zero.
    apply fits_after_padding; [exact Hlen | now apply existsb_negative_false].
Qed.

Lemma pad_or_crop_image_to_size_returns (image : ANTsImage) (size : list nat) :
  length size = dimension image ->
  exists cropped,
    pad_or_crop_image_to_size image size = Return cropped /\ image_shape cropped = size.
Proof.
  intros Hlen. destruct (padding_makes_room image size Hlen) as (padded & _ & Hfits & ->).
  now apply crop_image_center_shape.
Qed.

(** C8.  The helper is called three times (lines 212, 215 and 234), each
    time with a size that has one positive entry for each axis of the
    image.  For every image and every such size
    [pad_or_crop_image_to_size] returns an image of exactly that shape.
    When some axis is shorter than the target, every axis is first padded
    by the absolute value of the most negative difference, after which
    every axis is at least as long as the target; the result is then
    cropped about its center. *)
Theorem pad_or_crop_image_to_size_shape :
  forall (image : ANTsImage) (size : list nat),
    length size = dimension image ->
    Forall (lt 0) size ->
    let delta := zip_with Z.sub (map Z.of_nat (image_shape image)) (map Z.of_nat size) in
    let pad_size := Z.to_nat (Z.abs (min_Z delta)) in
    exists padded cropped,
      (if existsb (fun d => (d <? 0)%Z) delta
       then pad_image image (map (fun s => s + pad_size) (image_shape image)) = Return padded
            /\ image_shape padded = map (fun s => s + pad_size) (image_shape image)
       else padded = image) /\
      Forall2 le size (image_shape padded) /\
      crop_image_center padded size = Return cropped /\
      pad_or_crop_image_to_size image size = Return cropped /\
      image_shape cropped = size.
Proof.
  intros image size Hlen _ delta pad_size.
  destruct (padding_makes_room image size Hlen) as (padded & Hpadded & Hfits & Hrun).
  destruct (crop_image_center_shape padded size Hfits) as (cropped & Hcrop & Hshape).
  exists padded, cropped. split; [exact Hpadded |]. split; [exact Hfits |].
  split; [exact Hcrop |]. split; [| exact Hshape].
  rewrite Hrun. exact Hcrop.
Qed.

(** ** C6: the batch of [sysu_media_wmh_segmentation] *)

Lemma padded_slice_exists image d0 d1 n i :
  image_shape image = [d0; d1; n] -> i < n ->
  exists plane slice,
    slice_image image 2 i = Return plane /\
    pad_or_crop_image_to_size plane [200; 200] = Return slice /\
    image_shape slice = [200; 200].
Proof.
  intros Hshape Hi.
  destruct (slice_image_axial image d0 d1 n i Hshape Hi) as (plane & Hplane & Hp & _).
  destruct (pad_or_crop_image_to_size_returns plane [200; 200])
    as (slice & Hslice & Hs).
  { unfold dimension. now rewrite Hp. }
  exists plane, slice. auto.
Qed.

(** One pass of the loop fills the channels of row [i] and nothing else. *)
Lemma extract_slice_ok flair_w t1_w d0 d1 n i batch :
  image_shape flair_w = [d0; d1; n] ->
  (forall t, t1_w = Some t -> exists e0 e1 m, image_shape t = [e0; e1; m] /\ n <= m) ->
  i < n ->
  let channels := match t1_w with Some _ => 2 | None => 1 end in
  shape batch = [n; 200; 200; channels] ->
  exists batch',
    extract_slice flair_w t1_w channels i batch = Return batch' /\
    shape batch' = [n; 200; 200; channels] /\
    row_holds batch' i 0 flair_w /\
    (forall t, t1_w = Some t -> row_holds batch' i 1 t) /\
    (forall i' x y c, i' <> i -> item batch' [i'; x; y; c] = item batch [i'; x; y; c]).
Proof.
  intros Hflair Ht1 Hi channels Hbatch. unfold extract_slice.
  destruct (padded_slice_exists flair_w d0 d1 n i Hflair Hi)
    as (plane & slice & Hplane & Hslice & Hs).
  rewrite Hplane. cbn [and_then]. rewrite Hslice. cbn [and_then].
  destruct (assign_plane_ok batch n 200 200 channels i 0 (numpy slice) Hbatch Hi)
    as (b0 & -> & Hb0 & Hi0 & Ho0); [subst channels; destruct t1_w; lia | exact Hs |].
  cbn [and_then]. subst channels. destruct t1_w as [t |]; simpl.
  - destruct (Ht1 t eq_refl) as (e0 & e1 & m & Ht & Hm).
    destruct (padded_slice_exists t e0 e1 m i Ht) as (plane1 & slice1 & Hplane1 & Hslice1 & Hs1);
      [lia |].
    rewrite Hplane1. cbn [and_then]. rewrite Hslice1. cbn [and_then].
    destruct (assign_plane_ok b0 n 200 200 2 i 1 (numpy slice1) Hb0 Hi)
      as (b1 & -> & Hb1 & Hi1 & Ho1); [lia | exact Hs1 |].
    eexists. split; [reflexivity |]. split; [exact Hb1 |]. split; [| split].
    + exists slice. split; [exists plane; auto |]. split; [exact Hs |].
      intros x y. rewrite Ho1 by congruence. apply Hi0.
    + intros t' [= <-]. exists slice1. split; [exists plane1; auto |]. split; [exact Hs1 |].
      intros x y. apply Hi1.
    + intros i' x y c Hne. rewrite Ho1 by congruence. apply Ho0. congruence.
  - eexists. split; [reflexivity |]. split; [exact Hb0 |]. split; [| split].
    + exists slice. split; [exists plane; auto |]. split; [exact Hs |]. exact Hi0.
    + intros t' [=].
    + intros i' x y c Hne. apply Ho0. congruence.
Qed.

Lemma row_holds_unchanged batch batch' i c image :
  (forall x y, item batch' [i; x; y; c] = item batch [i; x; y; c]) ->
  row_holds batch i c image -> row_holds batch' i c image.
Proof.
  intros Hsame (slice & Hslice & Hshape & Hitems).
  exists slice. split; [exact Hslice |]. split; [exact Hshape |].
  intros x y. rewrite Hsame. apply Hitems.
Qed.

Lemma wmh_loop_ok flair_w t1_w d0 d1 n :
  image_shape flair_w = [d0; d1; n] ->
  (forall t, t1_w = Some t -> exists e0 e1 m, image_shape t = [e0; e1; m] /\ n <= m) ->
  let channels := match t1_w with Some _ => 2 | None => 1 end in
  forall count start batch,
    start + count = n -> shape batch = [n; 200; 200; channels] ->
    exists batch',
      for_range_pure start count (extract_slice flair_w t1_w channels) batch
      = Return batch' /\
      shape batch' = [n; 200; 200; channels] /\
      (forall i, start <= i < n ->
         row_holds batch' i 0 flair_w /\
         forall t, t1_w = Some t -> row_holds batch' i 1 t) /\
      (forall i x y c, i < start -> item batch' [i; x; y; c] = item batch [i; x; y; c]).
Proof.
  intros Hflair Ht1 channels. subst channels.
  induction count as [| count IH]; intros start batch Hsum Hbatch.
  - exists batch. simpl. split; [reflexivity |]. split; [exact Hbatch |].
    split; [intros; lia | reflexivity].
  - destruct (extract_slice_ok flair_w t1_w d0 d1 n start batch Hflair Ht1)
      as (b1 & Hrun & Hb1 & Hrow0 & Hrow1 & Hrest); [lia | exact Hbatch |].
    destruct (IH (S start) b1) as (b' & Hloop & Hb' & Hrows & Hbefore); [lia | exact Hb1 |].
    exists b'. simpl. rewrite Hrun.
    split; [exact Hloop |]. split; [exact Hb' |]. split.
    + intros i Hi. destruct (Nat.eq_dec i start) as [-> | Hne].
      * split.
        -- apply (row_holds_unchanged b1); [intros; apply Hbefore; lia | exact Hrow0].
        -- intros t Ht. apply (row_holds_unchanged b1); [intros; apply Hbefore; lia |].
           now apply Hrow1.
      * apply Hrows. lia.
    + intros i x y c Hi. rewrite Hbefore by lia. apply Hrest. lia.
Qed.

Lemma wmh_batch_returns flair_w t1_w d0 d1 n :
  image_shape flair_w = [d0; d1; n] ->
  (forall t, t1_w = Some t -> exists e0 e1 m, image_shape t = [e0; e1; m] /\ n <= m) ->
  let channels := match t1_w with Some _ => 2 | None => 1 end in
  exists batchX,
    wmh_batch flair_w t1_w channels = Return batchX /\
    shape batchX = [n; 200; 200; channels].
Proof.
  intros Hflair Ht1 channels. subst channels. unfold wmh_batch. rewrite Hflair. simpl lookup.
  destruct (wmh_loop_ok flair_w t1_w d0 d1 n Hflair Ht1 n 0
              (zeros [n; 200; 200; match t1_w with Some _ => 2 | None => 1 end]))
    as (batchX & Hrun & Hshape & _); [reflexivity | reflexivity |].
  exists batchX. auto.
Qed.


(** ** C2: the median of the per-slice predictions *)

#[local] Instance Qle_total : Total Qle.
Proof. intros x y. destruct (Qlt_le_dec x y); [left; now apply Qlt_le_weak | now right]. Qed.

#[local] Instance Qle_transitive : Transitive Qle.
Proof. intros x y z. apply Qle_trans. Qed.










Lemma median_returns (data : list Q) : data <> [] -> exists m, median data = Return m.
Proof.
  intros Hne. unfold median.
  pose proof (merge_sort_Permutation Qle data) as Hperm.
  apply Permutation_length in Hperm. rewrite Hperm.
  destruct data as [| x data]; [congruence |]. simpl length. simpl Nat.eqb.
  destruct (_ =? 1); eexists; reflexivity.
Qed.

(** ** Runs of [brain_age] *)

Lemma bind_inv {A B} (m : M A) (k : A -> M B) w b w' :
  bind m k w = (Return b, w') ->
  exists a w1, m w = (Return a, w1) /\ k a w1 = (Return b, w').
Proof.
  unfold bind. destruct (m w) as [[a | e] w1]; [| discriminate].
  intros H. exists a, w1. auto.
Qed.

Lemma lift_inv {A} (o : outcome A) w a w' :
  lift o w = (Return a, w') -> o = Return a /\ w' = w.
Proof. unfold lift. intros [= -> ->]. auto. Qed.

Lemma and_then_inv {A B} (o : outcome A) (k : A -> outcome B) b :
  and_then o k = Return b -> exists a, o = Return a /\ k a = Return b.
Proof. destruct o as [a | e]; simpl; [| discriminate]. intros H. exists a. auto. Qed.






Lemma brain_age_returns t1 t1_preprocessed do_preprocessing output_directory verbose
  w w1 d0 d1 d2 :
  dimension t1 = 3 ->
  brain_age_preprocess t1 do_preprocessing output_directory w = (Return t1_preprocessed, w1) ->
  image_shape t1_preprocessed = [d0; d1; d2] ->
  0 < d0 -> 0 < d1 -> 126 <= d2 ->
  (forall file batch, shape (predict file batch) = [nth 0 (shape batch) 0; 1]) ->
  exists r w', brain_age t1 do_preprocessing output_directory verbose w = (Return r, w').
Proof.
  intros Hdim Hpre Hshape H0 H1 H2 Hpredict.
  assert (Hpos : Forall (lt 0) (image_shape t1_preprocessed)).
  { rewrite Hshape. repeat constructor; lia. }
  destruct (rescale_intensity_run t1_preprocessed w1 Hpos)
    as (normalized & w2 & Hrescale & Hsame & _).
  rewrite Hshape in Hsame.
  destruct (brain_age_weights_run output_directory verbose w2) as (file & w3 & Hweights).
  destruct (brain_age_batch_returns normalized d0 d1 d2 Hsame H2) as (batchX & Hbatch & Hb).
  apply Nat.eqb_eq in Hdim. unfold brain_age. rewrite Hdim. cbn [negb].
  run_step Hpre. run_step Hrescale. run_step Hweights.
  run_step (emit_run (LoadModel file) w3).
  unfold lift at 1. rewrite Hbatch. unfold bind at 1.
  assert (Hrows : rows_of (predict file batchX)
                  = Return (map (fun i => item (predict file batchX) [i; 0]) (seq 0 80))).
  { unfold rows_of. rewrite Hpredict, Hb. reflexivity. }
  destruct (median_returns (map (fun i => item (predict file batchX) [i; 0]) (seq 0 80)))
    as (age & Hage); [discriminate |].
  unfold lift. rewrite Hrows. cbn [and_then]. rewrite Hage.
  destruct verbose; simpl; eexists; eexists; reflexivity.
Qed.




(** ** C3: the ensemble *)

Lemma load_unet_model_run number_of_channels output_directory verbose i unet_models w :
  exists file w',
    load_unet_model number_of_channels output_directory verbose i unet_models w
    = (Return (unet_models ++ [file]), w').
Proof.
  unfold load_unet_model. destruct output_directory as [dir |].
  - unfold bind, path_exists. simpl.
    match goal with |- context [bool_decide ?P] => destruct (bool_decide P) end; cbn [negb].
    + eexists; eexists; reflexivity.
    + destruct verbose; eexists; eexists; reflexivity.
  - eexists; eexists; reflexivity.
Qed.

Lemma load_three_models number_of_channels output_directory verbose w :
  exists m0 m1 m2 w',
    for_range 0 3 (load_unet_model number_of_channels output_directory verbose) [] w
    = (Return [m0; m1; m2], w').
Proof.
  cbn [for_range].
  destruct (load_unet_model_run number_of_channels output_directory verbose 0 [] w)
    as (m0 & w0 & H0).
  destruct (load_unet_model_run number_of_channels output_directory verbose 1 [m0] w0)
    as (m1 & w1 & H1).
  destruct (load_unet_model_run number_of_channels output_directory verbose 2 [m0; m1] w1)
    as (m2 & w2 & H2).
  exists m0, m1, m2, w2. run_step H0. run_step H1. run_step H2. reflexivity.
Qed.

Lemma load_one_model number_of_channels output_directory verbose w :
  exists m0 w',
    for_range 0 1 (load_unet_model number_of_channels output_directory verbose) [] w
    = (Return [m0], w').
Proof.
  cbn [for_range].
  destruct (load_unet_model_run number_of_channels output_directory verbose 0 [] w)
    as (m0 & w0 & H0).
  exists m0, w0. run_step H0. reflexivity.
Qed.

Lemma add_prediction_run unet_models batchX i model prediction w :
  unet_models !! i = Some model ->
  shape (predict model batchX) = shape prediction ->
  add_prediction unet_models batchX i prediction w
  = (Return (zip_array Qplus prediction (predict model batchX)),
     mk_world (files w) (temp_counter w) (log w ++ [Predict model])).
Proof.
  intros Hmodel Hshape. unfold add_prediction. rewrite Hmodel.
  run_step (emit_run (Predict model) w). unfold lift, array_add.
  rewrite bool_decide_eq_true_2 by (symmetry; exact Hshape). reflexivity.
Qed.

Lemma ensemble_of_three m0 m1 m2 batchX w :
  shape (predict m1 batchX) = shape (predict m0 batchX) ->
  shape (predict m2 batchX) = shape (predict m0 batchX) ->
  exists prediction w',
    ensemble_prediction [m0; m1; m2] batchX 3 w = (Return prediction, w') /\
    shape prediction = shape (predict m0 batchX) /\
    (forall idx,
       (item prediction idx ==
        (item (predict m0 batchX) idx + item (predict m1 batchX) idx
         + item (predict m2 batchX) idx) / 3)%Q) /\
    log w' = log w ++ [Predict m0; Predict m1; Predict m2].
Proof.
  intros H1 H2. unfold ensemble_prediction. cbn [for_range Nat.sub].
  run_step (emit_run (Predict m0) w).
  erewrite (bind_return (bind _ _)).
  2:{ erewrite bind_return by (apply add_prediction_run; [reflexivity | exact H1]).
      erewrite bind_return by (apply add_prediction_run; [reflexivity | exact H2]).
      reflexivity. }
  eexists; eexists. split; [reflexivity |]. split; [reflexivity |]. split.
  - intros idx. simpl. reflexivity.
  - simpl. now rewrite <- !app_assoc.
Qed.

Lemma ensemble_of_one m0 batchX w :
  exists prediction w',
    ensemble_prediction [m0] batchX 1 w = (Return prediction, w') /\
    shape prediction = shape (predict m0 batchX) /\
    (forall idx, (item prediction idx == item (predict m0 batchX) idx)%Q) /\
    log w' = log w ++ [Predict m0].
Proof.
  unfold ensemble_prediction. cbn [for_range Nat.sub].
  eexists; eexists. split; [reflexivity |]. split; [reflexivity |]. split.
  - intros idx. simpl. field.
  - reflexivity.
Qed.





(** ** Transforms of points and images *)

Lemma apply_transform_header xfrm image reference warped :
  apply_ants_transform_to_image xfrm image reference = Return warped ->
  same_header warped reference.
Proof.
  unfold apply_ants_transform_to_image. destruct (_ && _); [| discriminate].
  intros [= <-]. repeat split.
Qed.

Lemma round_trip_pointwise (p c t : Vec.vec) :
  length p = length c -> length t = length c ->
  Vec.eqv (Vec.add (Vec.add (Vec.sub (Vec.add (Vec.add (Vec.sub p c) c) t) c) c) (Vec.neg t)) p.
Proof.
  unfold Vec.eqv, Vec.add, Vec.sub, Vec.neg.
  revert c t. induction p as [| x p IH]; intros [| y c] [| z t] Hp Ht;
    simpl in *; try discriminate; constructor.
  - ring.
  - apply IH; lia.
Qed.

(** Forward and then inverse is the identity on points. *)
Lemma invert_after_apply xfrm p :
  length p = length (center xfrm) -> length (translation xfrm) = length (center xfrm) ->
  Vec.eqv (apply_ants_transform_to_point (invert_ants_transform xfrm)
             (apply_ants_transform_to_point xfrm p)) p.
Proof. intros Hp Ht. unfold apply_ants_transform_to_point. simpl. now apply round_trip_pointwise. Qed.

Lemma translation_between_length a b t :
  translation_between a b = Return t -> length t = length b.
Proof.
  unfold translation_between. destruct (length a =? length b) eqn:Hlen; [| discriminate].
  apply Nat.eqb_eq in Hlen. intros [= <-]. unfold Vec.sub. rewrite length_zip_with. lia.
Qed.

Tactic Notation "inv_bind" hyp(H) ident(x) ident(w) ident(Hx) :=
  apply bind_inv in H as (x & w & Hx & H); cbv beta zeta in H.

(** ** Steps of [sysu_media_wmh_segmentation] *)

Lemma get_center_of_mass_returns image :
  ~ (total_mass image == 0)%Q ->
  get_center_of_mass image = Return (center_of_gravity image).
Proof.
  intros Hmass. unfold get_center_of_mass.
  destruct (Qeq_bool _ 0) eqn:Hzero; [| reflexivity].
  now apply Qeq_bool_eq in Hzero.
Qed.

Lemma get_center_of_mass_inv image c :
  get_center_of_mass image = Return c ->
  ~ (total_mass image == 0)%Q /\ c = center_of_gravity image.
Proof.
  unfold get_center_of_mass. destruct (Qeq_bool _ 0) eqn:Hzero; [discriminate |].
  intros [= <-]. split; [| reflexivity]. now apply Qeq_bool_neq.
Qed.

Lemma translation_between_inv a b t :
  translation_between a b = Return t -> length a = length b /\ t = Vec.sub a b.
Proof.
  unfold translation_between. destruct (length a =? length b) eqn:Hlen; [| discriminate].
  apply Nat.eqb_eq in Hlen. now intros [= <-].
Qed.

Lemma on_reference_grid_consistent a b :
  same_header a reference_image -> same_header b reference_image ->
  image_physical_space_consistent a b = true /\ image_shape a = image_shape b.
Proof.
  intros (Ha & Hsa & Hoa & Hda) (Hb & Hsb & Hob & Hdb).
  unfold image_physical_space_consistent, dimension.
  rewrite Ha, Hb, Hsa, Hsb, Hoa, Hob, Hda, Hdb. split; reflexivity.
Qed.

Lemma apply_transform_run xfrm image reference :
  dimension image = 3 -> dimension reference = 3 ->
  exists warped,
    apply_ants_transform_to_image xfrm image reference = Return warped /\
    same_header warped reference.
Proof.
  intros Hi Hr. unfold apply_ants_transform_to_image. rewrite Hi, Hr. simpl.
  eexists. split; [reflexivity |]. repeat split.
Qed.

Lemma apply_transform_dimension xfrm image reference warped :
  apply_ants_transform_to_image xfrm image reference = Return warped ->
  dimension image = 3.
Proof.
  unfold apply_ants_transform_to_image.
  destruct (dimension image =? 3) eqn:Himage; [| discriminate].
  intros _. now apply Nat.eqb_eq.
Qed.

Lemma image_div_scalar_run image c w :
  exists quotient w',
    image_div_scalar image c w = (Return quotient, w') /\ same_header quotient image.
Proof.
  unfold image_div_scalar. destruct (Qeq_bool c 0); eexists; eexists;
    (split; [reflexivity | repeat split]).
Qed.

Lemma image_div_scalar_header image c w quotient w' :
  image_div_scalar image c w = (Return quotient, w') -> same_header quotient image.
Proof.
  destruct (image_div_scalar_run image c w) as (q & w1 & Hrun & Hheader).
  rewrite Hrun. now intros [= <- _].
Qed.

Lemma mean_run inside w : exists x w', mean inside w = (Return x, w').
Proof. unfold mean. destruct (length inside =? 0); eexists; eexists; reflexivity. Qed.

Lemma std_run inside w : exists x w', std inside w = (Return x, w').
Proof. unfold std. destruct (length inside =? 0); eexists; eexists; reflexivity. Qed.

Lemma image_sub_number_header image x : same_header (image_sub_number image x) image.
Proof. destruct x; repeat split. Qed.

(** The normalization keeps the header of the image. *)
Lemma gaussian_normalize_header image mask w normalized w' :
  gaussian_normalize image mask w = (Return normalized, w') -> same_header normalized image.
Proof.
  unfold gaussian_normalize. intros H.
  inv_bind H inside w1 Hinside. inv_bind H mean_inside w2 Hmean.
  inv_bind H inside' w3 Hinside'. inv_bind H std_inside w4 Hstd.
  assert (Hdivided : same_header normalized (image_sub_number image mean_inside)).
  { destruct std_inside as [c |]; cbn [image_div_number] in H.
    - now apply image_div_scalar_header in H.
    - injection H as <- _. repeat split. }
  destruct (image_sub_number_header image mean_inside) as (H1 & H2 & H3 & H4).
  destruct Hdivided as (G1 & G2 & G3 & G4). repeat split; congruence.
Qed.

Lemma gaussian_normalize_run image mask w :
  same_header image reference_image -> same_header mask reference_image ->
  exists normalized w',
    gaussian_normalize image mask w = (Return normalized, w') /\
    same_header normalized reference_image.
Proof.
  intros Himage Hmask.
  assert (Hgt : same_header (image_gt_scalar mask 0) reference_image).
  { destruct Hmask as (H1 & H2 & H3 & H4). repeat split; assumption. }
  destruct (on_reference_grid_consistent image (image_gt_scalar mask 0) Himage Hgt)
    as [Hconsistent Hshape].
  assert (Hrun : exists normalized w', gaussian_normalize image mask w = (Return normalized, w')).
  { unfold gaussian_normalize, masked_values. rewrite Hconsistent.
    rewrite bool_decide_eq_true_2 by exact Hshape.
    set (inside := map (voxel image) _).
    run_step (lift_run inside w).
    destruct (mean_run inside w) as (mean_inside & w1 & Hmean). run_step Hmean.
    run_step (lift_run inside w1).
    destruct (std_run inside w1) as (std_inside & w2 & Hstd). run_step Hstd.
    destruct std_inside as [c |]; cbn [image_div_number].
    - destruct (image_div_scalar_run (image_sub_number image mean_inside) c w2)
        as (q & w3 & Hq & _).
      now exists q, w3.
    - eexists; eexists; reflexivity. }
  destruct Hrun as (normalized & w' & Hrun). exists normalized, w'.
  split; [exact Hrun |].
  destruct (gaussian_normalize_header _ _ _ _ _ Hrun) as (H1 & H2 & H3 & H4).
  destruct Himage as (G1 & G2 & G3 & G4). repeat split; congruence.
Qed.

Lemma restack_run prediction flair_warped flair xfrm :
  shape prediction = [200; 200; 200; 1] ->
  same_header flair_warped reference_image ->
  dimension flair = 3 ->
  exists probability_image,
    restack prediction flair_warped flair xfrm = Return probability_image.
Proof.
  intros Hprediction (Hshape & _) Hflair. unfold restack.
  unfold transpose_120, squeeze. cbn [shape]. rewrite Hprediction.
  change (filter (fun d => d <> 1) [200; 200; 200; 1]) with [200; 200; 200].
  cbn [and_then].
  change (image_shape reference_image) with [200; 200; 200] in Hshape. rewrite Hshape.
  match goal with |- context [pad_or_crop_image_to_size ?image ?size] =>
    destruct (pad_or_crop_image_to_size_returns image size eq_refl)
      as (cropped & Hcrop & Hcropped)
  end.
  rewrite Hcrop. cbn [and_then]. unfold copy_image_info, dimension.
  rewrite Hshape, Hcropped. cbn [length Nat.eqb and_then].
  match goal with |- context [apply_ants_transform_to_image ?x ?image ?reference] =>
    destruct (apply_transform_run x image reference) as (result & Hresult & _);
      [unfold dimension;
       change (image_shape image) with (image_shape cropped); now rewrite Hcropped
      | exact Hflair |]
  end.
  exists result. exact Hresult.
Qed.

Lemma models_and_prediction_run use_ensemble output_directory verbose batchX w :
  (forall file, shape (predict file batchX) = [200; 200; 200; 1]) ->
  exists unet_models w1,
    for_range 0 (number_of_models use_ensemble)
      (load_unet_model 1 output_directory verbose) [] w = (Return unet_models, w1) /\
    forall w2, exists prediction w3,
      ensemble_prediction unet_models batchX (number_of_models use_ensemble) w2
      = (Return prediction, w3) /\
      shape prediction = [200; 200; 200; 1].
Proof.
  intros Hpredict. destruct use_ensemble.
  - destruct (load_three_models 1 output_directory verbose w) as (m0 & m1 & m2 & w1 & Hload).
    exists [m0; m1; m2], w1. split; [exact Hload |]. intros w2.
    destruct (ensemble_of_three m0 m1 m2 batchX w2) as (p & w3 & Hrun & Hshape & _);
      [now rewrite !Hpredict | now rewrite !Hpredict |].
    exists p, w3. split; [exact Hrun |]. now rewrite Hshape.
  - destruct (load_one_model 1 output_directory verbose w) as (m0 & w1 & Hload).
    exists [m0], w1. split; [exact Hload |]. intros w2.
    destruct (ensemble_of_one m0 batchX w2) as (p & w3 & Hrun & Hshape & _).
    exists p, w3. split; [exact Hrun |]. now rewrite Hshape.
Qed.

Lemma print_if_run verbose msg w : exists w', print_if verbose msg w = (Return tt, w').
Proof. destruct verbose; eexists; reflexivity. Qed.

(** What a returning run of [sysu_media_wmh_segmentation] went through. *)
Lemma sysu_media_wmh_segmentation_inv flair t1 mask do_preprocessing use_ensemble
  output_directory verbose w w' probability_image :
  sysu_media_wmh_segmentation flair t1 mask do_preprocessing use_ensemble
    output_directory verbose w = (Return probability_image, w') ->
  let number_of_channels := match t1 with Some _ => 2 | None => 1 end in
  let preprocessed image :=
    if do_preprocessing
    then preprocessed_image (preprocess_brain_image image false None output_directory)
    else image in
  let mask_used :=
    match mask with
    | Some given => given
    | None => get_mask (match t1 with Some image => image | None => flair end)
    end in
  exists center_of_mass_reference center_of_mass_image flair_warped mask_warped
         t1_warped flair_normalized t1_normalized unet_models batchX prediction
         wa wb wc wd we wf,
    get_center_of_mass reference_image = Return center_of_mass_reference /\
    get_center_of_mass mask_used = Return center_of_mass_image /\
    length center_of_mass_image = length center_of_mass_reference /\
    let xfrm :=
      create_ants_transform center_of_mass_reference
        (Vec.sub center_of_mass_image center_of_mass_reference) in
    apply_ants_transform_to_image xfrm (preprocessed flair) reference_image
    = Return flair_warped /\
    apply_ants_transform_to_image xfrm mask_used reference_image = Return mask_warped /\
    match t1 with
    | Some image =>
        exists warped,
          apply_ants_transform_to_image xfrm (preprocessed image) reference_image
          = Return warped /\ t1_warped = Some warped
    | None => t1_warped = None
    end /\
    gaussian_normalize flair_warped (threshold_image mask_warped (1 # 2) (11 # 10) 1 0) wa
    = (Return flair_normalized, wb) /\
    for_range 0 (number_of_models use_ensemble)
      (load_unet_model number_of_channels output_directory verbose) [] wc
    = (Return unet_models, wd) /\
    wmh_batch flair_normalized t1_normalized number_of_channels = Return batchX /\
    ensemble_prediction unet_models batchX (number_of_models use_ensemble) we
    = (Return prediction, wf) /\
    restack prediction flair_normalized flair xfrm = Return probability_image.
Proof.
  unfold sysu_media_wmh_segmentation. destruct (negb _); [discriminate |]. intros H.
  cbv zeta.
  inv_bind H flair_preprocessed w1 Hflair.
  inv_bind H t1_preprocessed w2 Ht1.
  inv_bind H mask_used w3 Hmask.
  inv_bind H center_of_mass_reference w4 Hreference.
  apply lift_inv in Hreference as [Hreference _].
  inv_bind H center_of_mass_image w5 Himage. apply lift_inv in Himage as [Himage _].
  inv_bind H offset w6 Htranslation. apply lift_inv in Htranslation as [Htranslation _].
  apply translation_between_inv in Htranslation as [Hlength ->].
  inv_bind H flair_warped w7 Hwarp. apply lift_inv in Hwarp as [Hwarp _].
  inv_bind H mask_thresholded w8 Hmask_warped.
  apply lift_inv in Hmask_warped as [Hmask_warped _].
  apply and_then_inv in Hmask_warped as (mask_warped & Hmask_warped & [= <-]).
  inv_bind H t1_warped w9 Ht1_warped.
  inv_bind H flair_normalized w10 Hnormalized.
  inv_bind H t1_normalized w11 Ht1_normalized.
  inv_bind H unet_models w12 Hmodels.
  inv_bind H u1 w13 Hprint1.
  inv_bind H batchX w14 HbatchX. apply lift_inv in HbatchX as [HbatchX _].
  inv_bind H u2 w15 Hprint2.
  inv_bind H prediction w16 Hprediction.
  apply lift_inv in H as [Hrestack _].
  assert (flair_preprocessed
          = if do_preprocessing
            then preprocessed_image
                   (preprocess_brain_image flair false None output_directory)
            else flair) as ->.
  { unfold wmh_preprocess in Hflair. destruct do_preprocessing; now injection Hflair as <- _. }
  assert (mask_used
          = match mask with
            | Some given => given
            | None => get_mask (match t1 with Some image => image | None => flair end)
            end) as ->.
  { destruct mask as [given |].
    - now injection Hmask as <- _.
    - inv_bind Hmask v1 w17 Hsay. inv_bind Hmask v2 w18 Hemit.
      now injection Hmask as <- _. }
  exists center_of_mass_reference, center_of_mass_image, flair_warped, mask_warped,
    t1_warped, flair_normalized, t1_normalized, unet_models, batchX, prediction,
    w9, w10, w11, w12, w15, w16.
  split; [exact Hreference |]. split; [exact Himage |]. split; [exact Hlength |].
  split; [exact Hwarp |]. split; [exact Hmask_warped |]. split.
  { destruct t1 as [image |].
    - inv_bind Ht1 p w17 Hp. injection Ht1 as <- _.
      inv_bind Ht1_warped warped w18 Hwarped. apply lift_inv in Hwarped as [Hwarped _].
      injection Ht1_warped as <- _. exists warped. split; [| reflexivity].
      unfold wmh_preprocess in Hp. destruct do_preprocessing;
        injection Hp as <- _; exact Hwarped.
    - injection Ht1 as <- _. now injection Ht1_warped as <- _. }
  split; [exact Hnormalized |]. split; [exact Hmodels |]. split; [exact HbatchX |].
  split; [exact Hprediction | exact Hrestack].
Qed.

(** ** C4: back to the space of [flair] *)

(** C4.  The image [sysu_media_wmh_segmentation] returns is made in three
    steps.  The forward transform has the center of mass of the reference
    grid as its center and the center of mass of the brain mask minus that
    center as its translation; it takes the preprocessed [flair] and the
    mask to the 200 x 200 x 200 reference grid.  The prediction for the
    slices of the warped and normalized flair, squeezed, transposed and
    fitted to that grid, is given the header of the warped flair.  That
    image is resampled through the inverse of the forward transform with
    [flair] itself as reference: every voxel of the result is read off it at
    the image of the voxel's position under the inverse transform, and the
    result has the shape, spacing, origin and direction of [flair].  The
    inverse undoes the forward transform on every point. *)
Theorem probability_image_in_native_space :
  forall (flair : ANTsImage) (t1 mask : option ANTsImage)
         (do_preprocessing use_ensemble verbose : bool) (output_directory : option string)
         (w w' : World) (probability_image : ANTsImage),
    sysu_media_wmh_segmentation flair t1 mask do_preprocessing use_ensemble
      output_directory verbose w = (Return probability_image, w') ->
    let flair_preprocessed :=
      if do_preprocessing
      then preprocessed_image (preprocess_brain_image flair false None output_directory)
      else flair in
    let mask_used :=
      match mask with
      | Some given => given
      | None => get_mask (match t1 with Some image => image | None => flair end)
      end in
    exists center_of_mass_reference center_of_mass_image flair_preprocessed_warped
           brain_mask_warped flair_normalized t1_normalized unet_models batchX prediction
           prediction_array prediction_image wa wb wc wd,
      get_center_of_mass reference_image = Return center_of_mass_reference /\
      get_center_of_mass mask_used = Return center_of_mass_image /\
      let xfrm :=
        create_ants_transform center_of_mass_reference
          (Vec.sub center_of_mass_image center_of_mass_reference) in
      apply_ants_transform_to_image xfrm flair_preprocessed reference_image
      = Return flair_preprocessed_warped /\
      apply_ants_transform_to_image xfrm mask_used reference_image
      = Return brain_mask_warped /\
      gaussian_normalize flair_preprocessed_warped
        (threshold_image brain_mask_warped (1 # 2) (11 # 10) 1 0) wc
      = (Return flair_normalized, wd) /\
      same_header flair_normalized flair_preprocessed_warped /\
      image_shape flair_preprocessed_warped = [200; 200; 200] /\
      wmh_batch flair_normalized t1_normalized (match t1 with Some _ => 2 | None => 1 end)
      = Return batchX /\
      ensemble_prediction unet_models batchX (number_of_models use_ensemble) wa
      = (Return prediction, wb) /\
      transpose_120 (squeeze prediction) = Return prediction_array /\
      pad_or_crop_image_to_size (from_numpy prediction_array) [200; 200; 200]
      = Return prediction_image /\
      let probability_image_warped :=
        new_image_like flair_normalized (numpy prediction_image) in
      apply_ants_transform_to_image (invert_ants_transform xfrm)
        probability_image_warped flair
      = Return probability_image /\
      (forall idx,
         voxel probability_image idx
         = interpolate probability_image_warped
             (apply_ants_transform_to_point (invert_ants_transform xfrm)
                (index_to_point flair idx))) /\
      same_header probability_image flair /\
      forall p, length p = length center_of_mass_reference ->
        Vec.eqv (apply_ants_transform_to_point (invert_ants_transform xfrm)
                   (apply_ants_transform_to_point xfrm p)) p.
Proof.
  intros flair t1 mask dp ue verbose od w w' probability_image Hrun
    flair_preprocessed mask_used.
  apply sysu_media_wmh_segmentation_inv in Hrun
    as (c_ref & c_mask & warped & mask_warped & t1_warped & normalized & t1_normalized
        & unet_models & batchX & prediction & wa & wb & wc & wd & we & wf
        & Href & Hmask & Hlen & Hforward & Hmask_warped & _ & Hnormalize & _ & Hbatch
        & Hensemble & Hrestack).
  fold flair_preprocessed in Hforward. fold mask_used in Hmask.
  pose proof (gaussian_normalize_header _ _ _ _ _ Hnormalize) as Hheader.
  pose proof (apply_transform_header _ _ _ _ Hforward) as Hgrid.
  assert (Hshape : image_shape normalized = [200; 200; 200]).
  { destruct Hheader as [-> _]. apply Hgrid. }
  unfold restack in Hrestack. rewrite Hshape in Hrestack.
  apply and_then_inv in Hrestack as (prediction_array & Harray & Hrestack).
  apply and_then_inv in Hrestack as (prediction_image & Himage & Hrestack).
  apply and_then_inv in Hrestack as (probability_image_warped & Hcopy & Hinverse).
  unfold copy_image_info in Hcopy.
  destruct (dimension normalized =? dimension prediction_image); [| discriminate].
  injection Hcopy as <-.
  exists c_ref, c_mask, warped, mask_warped, normalized, t1_normalized, unet_models,
    batchX, prediction, prediction_array, prediction_image, we, wf, wa, wb.
  split; [exact Href |]. split; [exact Hmask |]. cbv zeta.
  split; [exact Hforward |]. split; [exact Hmask_warped |]. split; [exact Hnormalize |].
  split; [exact Hheader |]. split; [apply Hgrid |]. split; [exact Hbatch |].
  split; [exact Hensemble |]. split; [exact Harray |]. split; [exact Himage |].
  split; [exact Hinverse |]. split.
  { intros idx. revert Hinverse. unfold apply_ants_transform_to_image.
    destruct (_ && _); [| discriminate]. now intros [= <-]. }
  split; [eapply apply_transform_header; exact Hinverse |].
  intros p Hp. apply invert_after_apply; simpl; [exact Hp |].
  unfold Vec.sub. rewrite length_zip_with. lia.
Qed.

(** ** Runs of [sysu_media_wmh_segmentation] *)

(** On a three-dimensional flair image with a three-dimensional mask that
    has mass, and with networks that answer one value per pixel, the
    function returns. *)
Lemma sysu_media_wmh_segmentation_returns flair mask use_ensemble output_directory verbose w :
  ~ (total_mass reference_image == 0)%Q ->
  dimension flair = 3 -> dimension mask = 3 ->
  ~ (total_mass mask == 0)%Q ->
  length (center_of_gravity mask) = length (center_of_gravity reference_image) ->
  (forall file batch, shape (predict file batch) = [nth 0 (shape batch) 0; 200; 200; 1]) ->
  exists probability_image w',
    sysu_media_wmh_segmentation flair None (Some mask) false use_ensemble
      output_directory verbose w = (Return probability_image, w').
Proof.
  intros Hreference Hflair Hmask Hmass Hcom Hpredict.
  unfold sysu_media_wmh_segmentation. apply Nat.eqb_eq in Hflair as Hcheck.
  rewrite Hcheck. cbn [negb wmh_preprocess].
  unfold bind at 1. unfold ret at 1. unfold bind at 1. unfold ret at 1.
  unfold bind at 1. unfold ret at 1.
  rewrite (get_center_of_mass_returns reference_image Hreference).
  run_step (lift_run (center_of_gravity reference_image) w).
  rewrite (get_center_of_mass_returns mask Hmass).
  run_step (lift_run (center_of_gravity mask) w).
  unfold translation_between. apply Nat.eqb_eq in Hcom. rewrite Hcom.
  unfold bind at 1. unfold lift at 1.
  set (xfrm := create_ants_transform _ _).
  destruct (apply_transform_run xfrm flair reference_image Hflair eq_refl)
    as (flair_warped & Hwarp & Hwarped).
  unfold lift at 1. rewrite Hwarp. unfold bind at 1.
  destruct (apply_transform_run xfrm mask reference_image Hmask eq_refl)
    as (mask_warped & Hmask_warp & Hmask_warped).
  unfold lift at 1. rewrite Hmask_warp. cbn [and_then]. unfold bind at 1.
  unfold bind at 1. unfold ret at 1.
  destruct (gaussian_normalize_run flair_warped
              (threshold_image mask_warped (1 # 2) (11 # 10) 1 0) w Hwarped)
    as (normalized & w1 & Hnormalize & Hnormalized).
  { destruct Hmask_warped as (H1 & H2 & H3 & H4). repeat split; assumption. }
  run_step Hnormalize. cbn [Nat.eqb]. unfold bind at 1. unfold ret at 1.
  destruct (wmh_batch_returns normalized None 200 200 200) as (batchX & Hbatch & HbatchX);
    [apply Hnormalized | intros t [=] |].
  destruct (models_and_prediction_run use_ensemble output_directory verbose batchX w1)
    as (unet_models & w2 & Hload & Hensemble).
  { intros file. now rewrite Hpredict, HbatchX. }
  run_step Hload.
  destruct (print_if_run verbose "Extracting slices." w2) as (w3 & Hprint1).
  run_step Hprint1. unfold lift at 1. rewrite Hbatch. unfold bind at 1.
  destruct (print_if_run verbose "Prediction." w3) as (w4 & Hprint2).
  run_step Hprint2.
  destruct (Hensemble w4) as (prediction & w5 & Hpredicted & Hshape).
  run_step Hpredicted.
  destruct (restack_run prediction normalized flair xfrm Hshape Hnormalized Hflair)
    as (probability_image & Hrestack).
  unfold lift. rewrite Hrestack. eexists; eexists; reflexivity.
Qed.

Lemma wmh_preprocess_run image do_preprocessing output_directory w :
  exists w',
    wmh_preprocess image do_preprocessing output_directory w
    = (Return (if do_preprocessing
               then preprocessed_image
                      (preprocess_brain_image image false None output_directory)
               else image), w').
Proof. unfold wmh_preprocess. destruct do_preprocessing; eexists; reflexivity. Qed.

Lemma bind_lift_raise {A B} (e : failure) (k : A -> M B) w :
  bind (lift (Raise e)) k w = (Raise e, w).
Proof. reflexivity. Qed.

(** With a three-dimensional [flair], an image that is not three-dimensional
    is turned away by no check: the run reaches the library calls and fails
    in one of them, at the latest in the resampler. *)
Lemma sysu_media_wmh_segmentation_flat_input (flair : ANTsImage)
  (t1 brain_mask : option ANTsImage) (do_preprocessing use_ensemble : bool)
  (output_directory : option string) (verbose : bool) (w : World) :
  let preprocessed (image : ANTsImage) :=
    if do_preprocessing
    then preprocessed_image (preprocess_brain_image image false None output_directory)
    else image in
  let mask_used :=
    match brain_mask with
    | Some given => given
    | None => get_mask (match t1 with Some image => image | None => flair end)
    end in
  dimension flair = 3 ->
  dimension (preprocessed flair) <> 3 \/
  (exists image, t1 = Some image /\ dimension (preprocessed image) <> 3) \/
  dimension mask_used <> 3 ->
  exists operation w',
    sysu_media_wmh_segmentation flair t1 brain_mask do_preprocessing use_ensemble
      output_directory verbose w
    = (Raise (LibraryError operation), w').
Proof.
  intros preprocessed mask_used Hflair Hflat.
  unfold sysu_media_wmh_segmentation. apply Nat.eqb_eq in Hflair as Hcheck.
  rewrite Hcheck. cbn [negb].
  destruct (wmh_preprocess_run flair do_preprocessing output_directory w) as (w1 & H1).
  run_step H1. fold (preprocessed flair).
  assert (H2 : exists w2,
            match t1 with
            | Some t1 => p <~ wmh_preprocess t1 do_preprocessing output_directory ;;
                         ret (Some p)
            | None => ret None
            end w1 = (Return (option_map preprocessed t1), w2)).
  { destruct t1 as [image |]; [| eexists; reflexivity].
    destruct (wmh_preprocess_run image do_preprocessing output_directory w1) as (w2 & H).
    exists w2. run_step H. reflexivity. }
  destruct H2 as (w2 & H2). run_step H2.
  assert (H3 : exists w3,
            match brain_mask with
            | Some mask => ret mask
            | None =>
                print_if verbose "Estimating brain mask." ;;;
                emit GetMask ;;;
                ret (get_mask (match t1 with Some t1 => t1 | None => flair end))
            end w2 = (Return mask_used, w3)).
  { destruct brain_mask as [mask |]; [eexists; reflexivity |].
    destruct (print_if_run verbose "Estimating brain mask." w2) as (w3 & H).
    eexists. run_step H. reflexivity. }
  destruct H3 as (w3 & H3). run_step H3.
  unfold get_center_of_mass at 1.
  destruct (Qeq_bool (total_mass reference_image) 0);
    [rewrite bind_lift_raise; eexists; eexists; reflexivity |].
  run_step (lift_run (center_of_gravity reference_image) w3).
  unfold get_center_of_mass at 1.
  destruct (Qeq_bool (total_mass mask_used) 0);
    [rewrite bind_lift_raise; eexists; eexists; reflexivity |].
  run_step (lift_run (center_of_gravity mask_used) w3).
  unfold translation_between.
  destruct (length (center_of_gravity mask_used)
            =? length (center_of_gravity reference_image));
    [| rewrite bind_lift_raise; eexists; eexists; reflexivity].
  match goal with
  | |- context [lift (Return ?t)] => run_step (lift_run t w3)
  end.
  set (xfrm := create_ants_transform _ _).
  change (dimension reference_image =? 3) with true in *.
  unfold apply_ants_transform_to_image at 1. change (dimension reference_image =? 3) with true.
  destruct (dimension (preprocessed flair) =? 3) eqn:Hd1; cbn [andb];
    [| rewrite bind_lift_raise; eexists; eexists; reflexivity].
  match goal with
  | |- context [bind (lift (Return ?t))] => run_step (lift_run t w3)
  end.
  unfold apply_ants_transform_to_image at 1. change (dimension reference_image =? 3) with true.
  destruct (dimension mask_used =? 3) eqn:Hd2; cbn [andb and_then];
    [| rewrite bind_lift_raise; eexists; eexists; reflexivity].
  match goal with
  | |- context [bind (lift (Return ?t))] => run_step (lift_run t w3)
  end.
  apply Nat.eqb_eq in Hd1, Hd2.
  destruct Hflat as [Hflat | [(image & -> & Hflat) | Hflat]]; try contradiction.
  cbn [option_map]. unfold bind at 1.
  unfold apply_ants_transform_to_image at 1.
  apply Nat.eqb_neq in Hflat. rewrite Hflat. cbn [andb].
  rewrite bind_lift_raise. eexists; eexists; reflexivity.
Qed.

(** A second channel that is not three-dimensional passes the check and is
    preprocessed; the run ends where the resampler is given it. *)
Lemma sysu_media_wmh_segmentation_flat_second_channel (flair t1 mask : ANTsImage)
  (do_preprocessing use_ensemble : bool) (output_directory : option string)
  (verbose : bool) (w : World) :
  let preprocessed (image : ANTsImage) :=
    if do_preprocessing
    then preprocessed_image (preprocess_brain_image image false None output_directory)
    else image in
  ~ (total_mass reference_image == 0)%Q ->
  dimension flair = 3 -> dimension (preprocessed flair) = 3 ->
  dimension (preprocessed t1) <> 3 ->
  dimension mask = 3 -> ~ (total_mass mask == 0)%Q ->
  length (center_of_gravity mask) = length (center_of_gravity reference_image) ->
  exists w',
    sysu_media_wmh_segmentation flair (Some t1) (Some mask) do_preprocessing use_ensemble
      output_directory verbose w
    = (Raise (LibraryError "ants.apply_ants_transform_to_image: dimensions differ"), w') /\
    log w' = log w ++ (if do_preprocessing
                       then [Preprocess false None; Preprocess false None] else []).
Proof.
  intros preprocessed Hreference Hflair Hpre Ht1 Hmask Hmass Hcom.
  assert (Hfirst : exists w1,
            wmh_preprocess flair do_preprocessing output_directory w
            = (Return (preprocessed flair), w1) /\
            log w1 = log w ++ (if do_preprocessing then [Preprocess false None] else [])).
  { unfold wmh_preprocess, preprocessed. destruct do_preprocessing.
    - eexists. split; reflexivity.
    - exists w. split; [reflexivity |]. now rewrite app_nil_r. }
  destruct Hfirst as (w1 & Hfirst & Hlog1).
  assert (Hsecond : exists w2,
            wmh_preprocess t1 do_preprocessing output_directory w1
            = (Return (preprocessed t1), w2) /\
            log w2 = log w1 ++ (if do_preprocessing then [Preprocess false None] else [])).
  { unfold wmh_preprocess, preprocessed. destruct do_preprocessing.
    - eexists. split; reflexivity.
    - exists w1. split; [reflexivity |]. now rewrite app_nil_r. }
  destruct Hsecond as (w2 & Hsecond & Hlog2).
  exists w2. split.
  - unfold sysu_media_wmh_segmentation. apply Nat.eqb_eq in Hflair as Hcheck.
    rewrite Hcheck. cbn [negb].
    run_step Hfirst. unfold bind at 1. run_step Hsecond.
    unfold ret at 1. unfold bind at 1. unfold ret at 1.
    rewrite (get_center_of_mass_returns reference_image Hreference).
    run_step (lift_run (center_of_gravity reference_image) w2).
    rewrite (get_center_of_mass_returns mask Hmass).
    run_step (lift_run (center_of_gravity mask) w2).
    unfold translation_between. apply Nat.eqb_eq in Hcom. rewrite Hcom.
    unfold bind at 1. unfold lift at 1.
    set (xfrm := create_ants_transform _ _).
    destruct (apply_transform_run xfrm (preprocessed flair) reference_image Hpre eq_refl)
      as (flair_warped & Hwarp & _).
    unfold lift at 1. rewrite Hwarp. unfold bind at 1.
    destruct (apply_transform_run xfrm mask reference_image Hmask eq_refl)
      as (mask_warped & Hmask_warp & _).
    unfold lift at 1. rewrite Hmask_warp. cbn [and_then]. unfold bind at 1.
    unfold bind at 1. unfold bind at 1. unfold lift at 1.
    unfold apply_ants_transform_to_image at 1.
    apply Nat.eqb_neq in Ht1. rewrite Ht1. reflexivity.
  - rewrite Hlog2, Hlog1, <- app_assoc. now destruct do_preprocessing.
Qed.

(** ** C1: the dimension check *)

(** C1 (as amended).  [brain_age] raises the [ValueError] of the dimension
    check exactly when [t1] is not three-dimensional, and
    [sysu_media_wmh_segmentation] exactly when [flair] is not; the error
    comes before anything else happens (the world is left as it was).  It is
    the only check.  On a three-dimensional [t1], respectively [flair], a
    run that fails has failed in an operation of a library or in one of the
    [ValueError]s that ANTsPy raises for images in different physical
    spaces and [crop_image_center] for a size that does not fit: the
    functions raise nothing else themselves.  Neither the [t1] nor the
    [brain_mask] of [sysu_media_wmh_segmentation] is looked at: when one of
    them, or the preprocessed [flair], is not three-dimensional, the run
    goes on past the check and fails in an operation of a library. *)
Theorem dimension_check :
  forall (t1 flair : ANTsImage) (second_channel mask : option ANTsImage)
         (do_preprocessing use_ensemble verbose : bool)
         (output_directory : option string) (w : World),
    let preprocessed image :=
      if do_preprocessing
      then preprocessed_image (preprocess_brain_image image false None output_directory)
      else image in
    let mask_used :=
      match mask with
      | Some given => given
      | None => get_mask (match second_channel with Some image => image | None => flair end)
      end in
    (dimension t1 <> 3 ->
     brain_age t1 do_preprocessing output_directory verbose w
     = (Raise (ValueError dimension_message), w)) /\
    (dimension t1 = 3 ->
     forall e,
       failure_of (fst (brain_age t1 do_preprocessing output_directory verbose w)) = Some e ->
       e <> ValueError dimension_message /\
       ((exists operation, e = LibraryError operation) \/
        e = ValueError physical_space_message)) /\
    (dimension flair <> 3 ->
     sysu_media_wmh_segmentation flair second_channel mask do_preprocessing use_ensemble
       output_directory verbose w
     = (Raise (ValueError dimension_message), w)) /\
    (dimension flair = 3 ->
     forall e,
       failure_of (fst (sysu_media_wmh_segmentation flair second_channel mask
                          do_preprocessing use_ensemble output_directory verbose w))
       = Some e ->
       e <> ValueError dimension_message /\
       ((exists operation, e = LibraryError operation) \/
        e = ValueError physical_space_message \/
        e = ValueError "crop_size does not match image size." \/
        e = ValueError "A crop_size dimension is larger than image_size.")) /\
    (dimension flair = 3 ->
     dimension (preprocessed flair) <> 3 \/
     (exists image, second_channel = Some image /\ dimension (preprocessed image) <> 3) \/
     dimension mask_used <> 3 ->
     exists operation w',
       sysu_media_wmh_segmentation flair second_channel mask do_preprocessing
         use_ensemble output_directory verbose w
       = (Raise (LibraryError operation), w')).
Proof.
  intros t1 flair second_channel mask do_preprocessing use_ensemble verbose
    output_directory w preprocessed mask_used.
  split; [| split; [| split; [| split]]].
  - intros H. unfold brain_age. apply Nat.eqb_neq in H. now rewrite H.
  - intros H [msg | operation] Hfailure; [| split; [discriminate | left; eauto]].
    destruct (String.string_dec msg physical_space_message) as [-> | H1];
      [split; [discriminate | now right] |].
    exfalso. revert Hfailure. unfold physical_space_message in H1.
    apply Nat.eqb_eq in H. unfold brain_age. rewrite H. cbn [negb].
    revert w.
    match goal with |- forall w, failure_of (fst (?m w)) = _ -> False =>
      change (avoids (ValueError msg) m) end.
    avoid_effect.
  - intros H. unfold sysu_media_wmh_segmentation. apply Nat.eqb_neq in H. now rewrite H.
  - intros H [msg | operation] Hfailure; [| split; [discriminate | left; eauto]].
    destruct (String.string_dec msg physical_space_message) as [-> | H1];
      [split; [discriminate | right; now left] |].
    destruct (String.string_dec msg "crop_size does not match image size.") as [-> | H2];
      [split; [discriminate | right; right; now left] |].
    destruct (String.string_dec msg "A crop_size dimension is larger than image_size.")
      as [-> | H3]; [split; [discriminate | right; right; now right] |].
    exfalso. revert Hfailure. unfold physical_space_message in H1.
    apply Nat.eqb_eq in H. unfold sysu_media_wmh_segmentation. rewrite H. cbn [negb].
    revert w.
    match goal with |- forall w, failure_of (fst (?m w)) = _ -> False =>
      change (avoids (ValueError msg) m) end.
    avoid_effect.
  - intros Hflair Hflat.
    now apply sysu_media_wmh_segmentation_flat_input.
Qed.

(** ** C7: where the weights are kept *)

Lemma list_ascii_of_string_app (s1 s2 : string) :
  list_ascii_of_string (s1 +:+ s2) = list_ascii_of_string s1 ++ list_ascii_of_string s2.
Proof. induction s1 as [| c s1 IH]; simpl; [reflexivity | now rewrite IH]. Qed.


(** [brain_age] looks for its weights in [output_directory] itself. *)
Lemma brain_age_weights_file_inside (output_directory : string) :
  output_directory <> "" -> ends_with_slash output_directory = false ->
  dirname (brain_age_weights_file output_directory) = output_directory.
Proof.
  intros Hne Hslash. unfold dirname, brain_age_weights_file.
  rewrite list_ascii_of_string_app.
  change (list_ascii_of_string "/DeepBrainNetModel.h5")
    with (slash :: list_ascii_of_string "DeepBrainNetModel.h5").
  rewrite rev_app_distr. simpl rev at 1.
  unfold ends_with_slash in Hslash.
  destruct (rev (list_ascii_of_string output_directory)) as [| c l] eqn:Hrev.
  - exfalso. apply Hne. apply (f_equal (@rev ascii)) in Hrev. rewrite rev_involutive in Hrev.
    simpl in Hrev. rewrite <- (string_of_list_ascii_of_string output_directory).
    now rewrite Hrev.
  - simpl. rewrite Hslash. rewrite <- Hrev, rev_involutive.
    apply string_of_list_ascii_of_string.
Qed.

(** With the weights in place [brain_age] fetches nothing. *)
Lemma brain_age_weights_cached (output_directory : string) verbose w :
  brain_age_weights_file output_directory ∈ files w ->
  brain_age_weights (Some output_directory) verbose w
  = (Return (brain_age_weights_file output_directory), w).
Proof.
  intros Hin. unfold brain_age_weights, bind, path_exists.
  now rewrite bool_decide_eq_true_2 by exact Hin.
Qed.

(** Without them it downloads them to that place. *)
Lemma brain_age_weights_downloaded (output_directory : string) verbose w :
  brain_age_weights_file output_directory ∉ files w ->
  exists w',
    brain_age_weights (Some output_directory) verbose w
    = (Return (brain_age_weights_file output_directory), w') /\
    files w' = {[brain_age_weights_file output_directory]} ∪ files w /\
    last (log w')
    = Some (Download "brainAgeDeepBrainNet" (brain_age_weights_file output_directory)).
Proof.
  intros Hin. unfold brain_age_weights, bind, path_exists.
  rewrite bool_decide_eq_false_2 by exact Hin. cbn [negb].
  destruct verbose; simpl; eexists; (split; [reflexivity |]); split;
    try reflexivity; apply last_snoc.
Qed.

(** Without a directory the weights go to a temporary file. *)
Lemma brain_age_weights_temporary verbose w :
  brain_age_weights None verbose w
  = (Return (temp_name (temp_counter w)),
     mk_world ({[temp_name (temp_counter w)]} ∪ files w) (S (temp_counter w))
              (log w ++ [Download "brainAgeDeepBrainNet" (temp_name (temp_counter w))])).
Proof. reflexivity. Qed.

Lemma drop_while_length {A} (p : A -> bool) (l : list A) :
  length (drop_while p l) <= length l.
Proof.
  induction l as [| x l IH]; simpl; [lia |]. destruct (p x); simpl; lia.
Qed.

Lemma drop_while_app_all {A} (p : A -> bool) (l1 l2 : list A) :
  forallb p l1 = true -> drop_while p (l1 ++ l2) = drop_while p l2.
Proof.
  induction l1 as [| x l1 IH]; simpl; [reflexivity |].
  intros H. apply andb_true_iff in H as [Hx Hl]. rewrite Hx. now apply IH.
Qed.

Lemma forallb_reversed {A} (p : A -> bool) (l : list A) :
  forallb p (rev l) = forallb p l.
Proof.
  induction l as [| x l IH]; simpl; [reflexivity |].
  rewrite forallb_app, IH. simpl. rewrite andb_true_r. apply andb_comm.
Qed.

Lemma string_length_of_list (l : list ascii) :
  String.length (string_of_list_ascii l) = length l.
Proof. induction l as [| c l IH]; simpl; [reflexivity | now rewrite IH]. Qed.

Lemma string_length_as_list (s : string) :
  String.length s = length (list_ascii_of_string s).
Proof. induction s as [| c s IH]; simpl; [reflexivity | now rewrite IH]. Qed.

(** A file name without a slash, appended to a directory written without a
    slash at its end, gives a path that is not in that directory. *)
Lemma dirname_of_concatenation (directory name : string) :
  forallb (fun c => negb (is_slash c)) (list_ascii_of_string name) = true ->
  directory <> "" -> ends_with_slash directory = false ->
  dirname (directory +:+ name) <> directory.
Proof.
  intros Hname Hne Hslash Heq.
  assert (Hlen : String.length (dirname (directory +:+ name)) < String.length directory).
  { unfold dirname. rewrite list_ascii_of_string_app, rev_app_distr.
    rewrite drop_while_app_all by (now rewrite forallb_reversed).
    rewrite string_length_of_list, length_rev, string_length_as_list.
    rewrite <- (length_rev (list_ascii_of_string directory)).
    unfold ends_with_slash in Hslash.
    destruct (rev (list_ascii_of_string directory)) as [| c l] eqn:Hrev.
    - exfalso. apply Hne. apply (f_equal (@rev ascii)) in Hrev.
      rewrite rev_involutive in Hrev. simpl in Hrev.
      rewrite <- (string_of_list_ascii_of_string directory). now rewrite Hrev.
    - cbn [drop_while]. rewrite Hslash. cbn [negb length].
      pose proof (drop_while_length (fun c => negb (is_slash c)) l) as H1.
      pose proof (drop_while_length is_slash
                    (drop_while (fun c => negb (is_slash c)) l)) as H2.
      destruct (drop_while is_slash _); simpl in *; lia. }
  rewrite Heq in Hlen. lia.
Qed.

(** So it is for the weights of every model of the ensemble. *)
Lemma wmh_weights_file_outside (output_directory : string) (number_of_channels i : nat) :
  i < 3 -> output_directory <> "" -> ends_with_slash output_directory = false ->
  dirname (wmh_weights_file output_directory number_of_channels i) <> output_directory.
Proof.
  intros Hi Hne Hslash. unfold wmh_weights_file.
  apply dirname_of_concatenation; [| exact Hne | exact Hslash].
  unfold wmh_network. destruct (number_of_channels =? 1);
    destruct i as [| [| [| i]]]; try lia; reflexivity.
Qed.

(** C7 fails for [sysu_media_wmh_segmentation]: the directory and the file
    name are concatenated without a separator, so with the directory
    [/tmp/cache] the weights are looked for, and downloaded, beside it in
    [/tmp]; [brain_age] puts a slash in between. *)
Theorem wmh_weights_beside_output_directory :
  wmh_weights_file "/tmp/cache" 1 0 = "/tmp/cachesysuMediaWmhFlairOnlyModel0.h5" /\
  dirname (wmh_weights_file "/tmp/cache" 1 0) = "/tmp" /\
  dirname (brain_age_weights_file "/tmp/cache") = "/tmp/cache" /\
  fst (load_unet_model 1 (Some "/tmp/cache") false 0 [] empty_world)
  = Return ["/tmp/cachesysuMediaWmhFlairOnlyModel0.h5"] /\
  log (snd (load_unet_model 1 (Some "/tmp/cache") false 0 [] empty_world))
  = [Download "sysuMediaWmhFlairOnlyModel0" "/tmp/cachesysuMediaWmhFlairOnlyModel0.h5";
     LoadWeights "/tmp/cachesysuMediaWmhFlairOnlyModel0.h5"].
Proof. repeat split; vm_compute; reflexivity. Qed.

(** ** C10: the normalizations *)




















(** * Further properties *)

(** ** The batch of [brain_age] exists for no other volumes *)

Lemma brain_age_batch_inv vol batchX :
  brain_age_batch vol = Return batchX ->
  exists d0 d1 d2, image_shape vol = [d0; d1; d2] /\ 126 <= d2.
Proof.
  intros Hrun.
  assert (Hshape : exists d0 d1 d2, image_shape vol = [d0; d1; d2]).
  { unfold brain_age_batch in Hrun. change (length which_slices) with (S 79) in Hrun.
    cbn [for_range_pure] in Hrun.
    destruct (fill_row vol 0 _) as [b | e] eqn:Hrow; [clear Hrun | discriminate].
    unfold fill_row in Hrow.
    apply and_then_inv in Hrow as (p0 & Hslice & Hrow).
    apply and_then_inv in Hrow as (b0 & Hassign & _).
    unfold slice_image in Hslice. unfold assign_plane in Hassign. cbn [zeros shape] in Hassign.
    destruct (image_shape vol) as [| d0 [| d1 [| d2 [| d3 rest]]]]; try discriminate.
    - exists d0, d1, d2. reflexivity.
    - exfalso. simpl in Hslice, Hassign.
      destruct (_ <? d2); [| discriminate]. injection Hslice as <-.
      simpl in Hassign. rewrite bool_decide_eq_false_2 in Hassign by discriminate.
      discriminate. }
  destruct Hshape as (d0 & d1 & d2 & Hshape). exists d0, d1, d2. split; [exact Hshape |].
  destruct (le_lt_dec 126 d2) as [Hge | Hlt]; [exact Hge | exfalso].
  unfold brain_age_batch in Hrun.
  rewrite (brain_age_loop_out_of_range vol d0 d1 d2 Hshape Hlt) in Hrun;
    [discriminate | reflexivity | cbv; lia | now rewrite Hshape].
Qed.

(** X1.  The batch of [brain_age] is built for the three-dimensional volumes
    with at least 126 axial slices, and for no others: a volume with
    another number of axes, or with fewer slices, makes the loop fail. *)
Theorem brain_age_batch_defined_iff :
  forall vol : ANTsImage,
    (exists batchX, brain_age_batch vol = Return batchX) <->
    (exists d0 d1 d2, image_shape vol = [d0; d1; d2] /\ 126 <= d2).
Proof.
  intros vol. split.
  - intros (batchX & Hrun). eapply brain_age_batch_inv. exact Hrun.
  - intros (d0 & d1 & d2 & Hshape & Hd2).
    destruct (brain_age_batch_returns vol d0 d1 d2 Hshape Hd2) as (batchX & Hrun & _).
    exists batchX. exact Hrun.
Qed.

(** ** The range of the rescaled intensities *)



(** ** Where the transform puts the brain *)

Lemma shift_to_pointwise (c m : Vec.vec) :
  length m = length c ->
  Vec.eqv (Vec.add (Vec.add (Vec.sub c c) c) (Vec.sub m c)) m.
Proof.
  unfold Vec.eqv, Vec.add, Vec.sub.
  revert m. induction c as [| x c IH]; intros [| y m] Hlen; simpl in *;
    try discriminate; constructor.
  - ring.
  - apply IH. lia.
Qed.

(** X4.  The transform of [sysu_media_wmh_segmentation] takes the center of
    the reference grid to the center of mass of the brain mask, so the
    resampled images show the brain in the middle of the grid. *)
Theorem transform_centers_mask :
  forall (center_of_mass_image center_of_mass_reference shift : Vec.vec),
    translation_between center_of_mass_image center_of_mass_reference = Return shift ->
    Vec.eqv
      (apply_ants_transform_to_point
         (create_ants_transform center_of_mass_reference shift) center_of_mass_reference)
      center_of_mass_image.
Proof.
  intros m c shift. unfold translation_between.
  destruct (length m =? length c) eqn:Hlen; [| discriminate].
  apply Nat.eqb_eq in Hlen. intros [= <-].
  unfold apply_ants_transform_to_point. simpl. now apply shift_to_pointwise.
Qed.

(** ** Slices that already have the size asked for *)

Lemma no_negative_difference (l : list Z) :
  existsb (fun d => (d <? 0)%Z) (zip_with Z.sub l l) = false.
Proof.
  induction l as [| x l IH]; simpl; [reflexivity |].
  rewrite IH, Z.sub_diag. reflexivity.
Qed.

Lemma nothing_to_crop (l : list nat) :
  existsb (fun p => fst p <? snd p) (zip l l) = false.
Proof.
  induction l as [| x l IH]; simpl; [reflexivity |].
  rewrite IH, Nat.ltb_irrefl. reflexivity.
Qed.

Lemma crop_starts_at_zero (shp idx : list nat) :
  length idx = length shp ->
  zip_with Nat.add idx (zip_with (fun i c => (i - c) / 2) shp shp) = idx.
Proof.
  revert idx. induction shp as [| d shp IH]; intros [| i idx] Hlen; simpl in *;
    try discriminate; [reflexivity |].
  rewrite IH by lia. rewrite Nat.sub_diag. simpl. now rewrite Nat.add_0_r.
Qed.

(** An image of the size asked for comes back with the voxels it had. *)
Lemma pad_or_crop_same_size (image : ANTsImage) :
  exists cropped,
    pad_or_crop_image_to_size image (image_shape image) = Return cropped /\
    image_shape cropped = image_shape image /\
    forall idx, length idx = dimension image -> voxel cropped idx = voxel image idx.
Proof.
  unfold pad_or_crop_image_to_size, broadcast_sub. rewrite Nat.eqb_refl.
  rewrite no_negative_difference. cbn [and_then]. unfold crop_image_center.
  rewrite Nat.eqb_refl. cbn [negb]. rewrite nothing_to_crop.
  eexists. split; [reflexivity |]. split; [reflexivity |].
  intros idx Hlen. unfold crop_indices, voxel. simpl.
  now rewrite crop_starts_at_zero.
Qed.

Lemma row_holds_plane batch i c image n :
  image_shape image = [200; 200; n] -> i < n ->
  row_holds batch i c image ->
  forall x y, item batch [i; x; y; c] = voxel image [x; y; i].
Proof.
  intros Hshape Hi (slice & (plane & Hplane & Hslice) & _ & Hitems) x y.
  destruct (slice_image_axial image 200 200 n i Hshape Hi) as (plane' & Hplane' & Hp & Hvoxels).
  rewrite Hplane in Hplane'. injection Hplane' as <-.
  destruct (pad_or_crop_same_size plane) as (same & Hsame & _ & Hkept).
  rewrite Hp, Hslice in Hsame. injection Hsame as <-.
  rewrite Hitems, Hkept, Hvoxels; [reflexivity |]. unfold dimension. now rewrite Hp.
Qed.

(** X5.  On volumes whose axial slices are 200 x 200 already, as all volumes
    resampled to the reference grid are, padding and cropping change
    nothing: row [i] of the batch is slice [i] of the warped flair, voxel by
    voxel, and its second channel, if there is one, is slice [i] of the
    warped t1. *)
Theorem wmh_batch_on_reference_grid :
  forall (flair_preprocessed_warped : ANTsImage) (t1_preprocessed_warped : option ANTsImage)
         (n : nat),
    image_shape flair_preprocessed_warped = [200; 200; n] ->
    (forall t1_warped, t1_preprocessed_warped = Some t1_warped ->
       image_shape t1_warped = [200; 200; n]) ->
    let number_of_channels :=
      match t1_preprocessed_warped with Some _ => 2 | None => 1 end in
    exists batchX,
      wmh_batch flair_preprocessed_warped t1_preprocessed_warped number_of_channels
      = Return batchX /\
      forall i x y, i < n ->
        item batchX [i; x; y; 0] = voxel flair_preprocessed_warped [x; y; i] /\
        forall t1_warped, t1_preprocessed_warped = Some t1_warped ->
          item batchX [i; x; y; 1] = voxel t1_warped [x; y; i].
Proof.
  intros flair_w t1_w n Hflair Ht1 channels. subst channels.
  assert (Ht1' : forall t, t1_w = Some t ->
            exists e0 e1 m, image_shape t = [e0; e1; m] /\ n <= m).
  { intros t Ht. exists 200, 200, n. split; [now apply Ht1 | lia]. }
  unfold wmh_batch. rewrite Hflair. simpl lookup.
  destruct (wmh_loop_ok flair_w t1_w 200 200 n Hflair Ht1' n 0
              (zeros [n; 200; 200; match t1_w with Some _ => 2 | None => 1 end]))
    as (batchX & Hrun & _ & Hrows & _); [reflexivity | reflexivity |].
  exists batchX. split; [exact Hrun |].
  intros i x y Hi. destruct (Hrows i) as [Hrow0 Hrow1]; [lia |]. split.
  - now apply (row_holds_plane batchX i 0 flair_w n).
  - intros t Ht. apply (row_holds_plane batchX i 1 t n); auto.
Qed.

(** ** Restacking the prediction *)

Lemma squeeze_prediction prediction n :
  n <> 1 -> shape prediction = [n; 200; 200; 1] ->
  shape (squeeze prediction) = [n; 200; 200] /\
  forall k i j, item (squeeze prediction) [k; i; j] = item prediction [k; i; j; 0].
Proof.
  intros Hn Hshape. unfold squeeze. cbn [shape item]. rewrite Hshape. split.
  - rewrite filter_cons_True by exact Hn. reflexivity.
  - intros k i j. cbn [unsqueeze]. apply Nat.eqb_neq in Hn. rewrite Hn. reflexivity.
Qed.

(** X6.  The prediction of shape (n, 200, 200, 1) is restacked along the
    third axis: on the warped grid, and with the header of the warped flair,
    the voxel at [x, y, z] is entry [z, x, y, 0] of the prediction; this is
    the image that is then resampled to the space of [flair].  Slices that
    pass through the network unchanged come back as the volume they were
    cut from. *)
Theorem restack_layout :
  forall (prediction : ndarray) (flair_preprocessed_warped flair : ANTsImage)
         (xfrm : ANTsTransform) (n : nat),
    n <> 1 ->
    shape prediction = [n; 200; 200; 1] ->
    image_shape flair_preprocessed_warped = [200; 200; n] ->
    exists probability_image_warped,
      restack prediction flair_preprocessed_warped flair xfrm
      = apply_ants_transform_to_image (invert_ants_transform xfrm)
          probability_image_warped flair /\
      same_header probability_image_warped flair_preprocessed_warped /\
      (forall x y z, voxel probability_image_warped [x; y; z] = item prediction [z; x; y; 0]) /\
      (forall batchX,
         wmh_batch flair_preprocessed_warped None 1 = Return batchX ->
         (forall i x y, item prediction [i; x; y; 0] = item batchX [i; x; y; 0]) ->
         forall x y z, z < n ->
           voxel probability_image_warped [x; y; z]
           = voxel flair_preprocessed_warped [x; y; z]).
Proof.
  intros prediction flair_w flair xfrm n Hn Hprediction Hflair.
  destruct (squeeze_prediction prediction n Hn Hprediction) as [Hsqueezed Hitems].
  unfold restack, transpose_120. rewrite Hsqueezed. cbn [and_then].
  set (prediction_array := mk_ndarray [200; 200; n] _).
  destruct (pad_or_crop_same_size (from_numpy prediction_array))
    as (cropped & Hcrop & Hcropped & Hkept).
  change (image_shape (from_numpy prediction_array)) with [200; 200; n] in Hcrop, Hcropped.
  rewrite Hflair, Hcrop. cbn [and_then]. unfold copy_image_info, dimension.
  rewrite Hflair, Hcropped. cbn [length Nat.eqb and_then].
  exists (new_image_like flair_w (numpy cropped)).
  assert (Hlayout : forall x y z,
            voxel (new_image_like flair_w (numpy cropped)) [x; y; z]
            = item prediction [z; x; y; 0]).
  { intros x y z. change (voxel (new_image_like flair_w (numpy cropped)) [x; y; z])
      with (voxel cropped [x; y; z]).
    rewrite Hkept by reflexivity. unfold voxel, from_numpy, prediction_array. simpl.
    apply Hitems. }
  split; [reflexivity |]. split; [| split].
  - unfold same_header, image_shape. simpl. fold (image_shape cropped).
    rewrite Hcropped, <- Hflair. repeat split.
  - exact Hlayout.
  - intros batchX Hbatch Hidentity x y z Hz. rewrite Hlayout, Hidentity.
    unfold wmh_batch in Hbatch. rewrite Hflair in Hbatch. simpl lookup in Hbatch.
    destruct (wmh_loop_ok flair_w None 200 200 n Hflair ltac:(intros t [=]) n 0
                (zeros [n; 200; 200; 1]))
      as (batchX' & Hrun & _ & Hrows & _); [reflexivity | reflexivity |].
    rewrite Hbatch in Hrun. injection Hrun as <-.
    destruct (Hrows z) as [Hrow _]; [lia |].
    now apply (row_holds_plane batchX z 0 flair_w n).
Qed.

(** ** Weights that are downloaded once *)

Lemma downloads_app l l' : downloads (l ++ l') = downloads l ++ downloads l'.
Proof. apply flat_map_app. Qed.

Lemma world_independent_ret {A} (a : A) : world_independent (ret a).
Proof. intros w b w1 [= <- <-]. repeat split. intros v. now exists v. Qed.

Lemma world_independent_raise {A} e : world_independent (@raise A e).
Proof. intros w b w1 [=]. Qed.

Lemma world_independent_lift {A} (o : outcome A) : world_independent (lift o).
Proof. intros w b w1 [= -> <-]. repeat split. intros v. now exists v. Qed.

Lemma world_independent_emit e : downloads [e] = [] -> world_independent (emit e).
Proof.
  intros He w [] w1 [= <-]. simpl. rewrite downloads_app, He, app_nil_r.
  repeat split. intros v. eexists. reflexivity.
Qed.

Lemma world_independent_print_if verbose msg : world_independent (print_if verbose msg).
Proof.
  destruct verbose; [now apply world_independent_emit | apply world_independent_ret].
Qed.

Lemma world_independent_emit_all events :
  downloads events = [] -> world_independent (emit_all events).
Proof.
  intros He w [] w1 [= <-]. simpl. rewrite downloads_app, He, app_nil_r.
  repeat split. intros v. eexists. reflexivity.
Qed.

Lemma downloads_zero_division_warnings numerators :
  downloads (zero_division_warnings numerators) = [].
Proof. unfold zero_division_warnings. now destruct (existsb _ _), (existsb _ _). Qed.

Lemma world_independent_bind {A B} (m : M A) (k : A -> M B) :
  world_independent m -> (forall a, world_independent (k a)) ->
  world_independent (bind m k).
Proof.
  intros Hm Hk w b w1 Hrun. apply bind_inv in Hrun as (a & w2 & Hfirst & Hrest).
  destruct (Hm _ _ _ Hfirst) as (Hfiles & Htemp & Hlog & Hany).
  destruct (Hk a _ _ _ Hrest) as (Hfiles' & Htemp' & Hlog' & Hany').
  split; [congruence |]. split; [congruence |]. split; [congruence |].
  intros v. destruct (Hany v) as (v2 & Hv2). destruct (Hany' v2) as (v1 & Hv1).
  exists v1. now rewrite (bind_return _ _ _ _ _ Hv2).
Qed.

Lemma world_independent_for_range {A} (body : nat -> A -> M A) count :
  (forall i acc, world_independent (body i acc)) ->
  forall start acc, world_independent (for_range start count body acc).
Proof.
  intros Hbody. induction count as [| count IH]; intros start acc; simpl.
  - apply world_independent_ret.
  - apply world_independent_bind; [apply Hbody | intros acc'; apply IH].
Qed.

Create HintDb independent.

#[local] Hint Resolve world_independent_ret world_independent_raise world_independent_lift
  world_independent_print_if : independent.

Ltac independent_step :=
  match goal with
  | |- world_independent (bind _ _) => apply world_independent_bind; [| intros ?]
  | |- world_independent (emit _) => apply world_independent_emit; reflexivity
  | |- world_independent (emit_all _) =>
      apply world_independent_emit_all;
      first [reflexivity | apply downloads_zero_division_warnings]
  | |- world_independent (for_range _ _ _ _) => apply world_independent_for_range; intros ? ?
  | |- world_independent (if ?b then _ else _) => destruct b
  | |- world_independent (match ?o with Some _ => _ | None => _ end) => destruct o
  | |- world_independent (match ?l with [] => _ | _ :: _ => _ end) => destruct l
  | |- world_independent (let _ := _ in _) => cbv zeta
  | |- world_independent _ => solve [auto with independent]
  end.

Ltac independent := repeat independent_step.

Lemma world_independent_image_div_scalar image c :
  world_independent (image_div_scalar image c).
Proof. unfold image_div_scalar. independent. Qed.

Lemma world_independent_rescale_intensity image :
  world_independent (rescale_intensity image).
Proof.
  unfold rescale_intensity.
  destruct (list_min (ravel (numpy image))), (list_max (ravel (numpy image))); independent;
    apply world_independent_image_div_scalar.
Qed.

Lemma world_independent_gaussian_normalize image mask :
  world_independent (gaussian_normalize image mask).
Proof.
  unfold gaussian_normalize, mean, std, image_div_number. independent;
    apply world_independent_image_div_scalar.
Qed.

Lemma world_independent_wmh_preprocess image do_preprocessing output_directory :
  world_independent (wmh_preprocess image do_preprocessing output_directory).
Proof. unfold wmh_preprocess. independent. Qed.

Lemma world_independent_ensemble_prediction unet_models batchX n :
  world_independent (ensemble_prediction unet_models batchX n).
Proof. unfold ensemble_prediction, add_prediction. independent. Qed.

Ltac clear_unused :=
  repeat match goal with
         | x : ?T |- _ => lazymatch type of T with Prop => fail | _ => clear x end
         end.

Ltac sets := clear_unused; set_unfold; intuition (subst; eauto).

Lemma runs_from_cache_bind {A B} cache cache' (m : M A) (k : A -> M B) :
  runs_from_cache cache m -> (forall a, runs_from_cache cache' (k a)) ->
  runs_from_cache (cache ∪ cache') (bind m k).
Proof.
  intros Hm Hk w b w1 Hrun. apply bind_inv in Hrun as (a & w2 & Hfirst & Hrest).
  destruct (Hm _ _ _ Hfirst) as (Hfiles & Hagain).
  destruct (Hk a _ _ _ Hrest) as (Hfiles' & Hagain').
  split; [rewrite Hfiles', Hfiles; sets |].
  intros v Hv. destruct (Hagain v) as (v2 & Hv2 & Hlog); [sets |].
  destruct (Hm _ _ _ Hv2) as (Hfiles2 & _).
  destruct (Hagain' v2) as (v1 & Hv1 & Hlog'); [rewrite Hfiles2; sets |].
  exists v1. rewrite (bind_return _ _ _ _ _ Hv2). split; [exact Hv1 | congruence].
Qed.

Lemma world_independent_runs_from_cache {A} (m : M A) :
  world_independent m -> runs_from_cache ∅ m.
Proof.
  intros Hm w a w1 Hrun. destruct (Hm _ _ _ Hrun) as (Hfiles & _ & _ & Hany).
  split; [rewrite Hfiles; sets |].
  intros v _. destruct (Hany v) as (v1 & Hv1). exists v1. split; [exact Hv1 |].
  now destruct (Hm _ _ _ Hv1) as (_ & _ & Hlog & _).
Qed.

Lemma runs_from_cache_after {A B} cache (m : M A) (k : A -> M B) :
  world_independent m -> (forall a, runs_from_cache cache (k a)) ->
  runs_from_cache cache (bind m k).
Proof.
  intros Hm Hk. rewrite <- (left_id_L ∅ (∪) cache).
  apply runs_from_cache_bind; [now apply world_independent_runs_from_cache | exact Hk].
Qed.

Lemma runs_from_cache_before {A B} cache (m : M A) (k : A -> M B) :
  runs_from_cache cache m -> (forall a, world_independent (k a)) ->
  runs_from_cache cache (bind m k).
Proof.
  intros Hm Hk. rewrite <- (right_id_L ∅ (∪) cache).
  apply runs_from_cache_bind; [exact Hm |].
  intros a. now apply world_independent_runs_from_cache.
Qed.

(** A file that is looked for, and downloaded where it is missing. *)
Lemma runs_from_cache_lookup network file verbose msg :
  runs_from_cache {[file]}
    (cached <~ path_exists file ;;
     if negb cached then
       print_if verbose msg ;;; get_pretrained_network network (Some file)
     else ret file).
Proof.
  assert (Hcached : forall v, file ∈ files v ->
            (cached <~ path_exists file ;;
             if negb cached then
               print_if verbose msg ;;; get_pretrained_network network (Some file)
             else ret file) v = (Return file, v)).
  { intros v Hv. unfold bind, path_exists. now rewrite bool_decide_eq_true_2 by exact Hv. }
  intros w a w1 Hrun. split.
  - revert Hrun. unfold bind, path_exists.
    destruct (bool_decide (file ∈ files w)) eqn:Hfile; simpl.
    + intros [= <- <-]. apply bool_decide_eq_true_1 in Hfile. sets.
    + destruct verbose; simpl; intros [= <- <-]; reflexivity.
  - intros v Hv. exists v. split; [| reflexivity].
    assert (a = file) as ->.
    { revert Hrun. unfold bind, path_exists.
      destruct (bool_decide (file ∈ files w)); simpl; [now intros [= <- _] |].
      destruct verbose; simpl; now intros [= <- _]. }
    apply Hcached. sets.
Qed.

(** X7.  With an output directory, what [brain_age] does after the
    preprocessing (which fetches a template and weights of its own) leaves the
    weights in [output_directory + "/DeepBrainNetModel.h5"] and no other new
    file; it downloads them if the file is missing and nothing otherwise.
    Without preprocessing, the same call from any world that has the file
    returns the same ages, without a download and without a new file. *)
Theorem brain_age_downloads_weights_once :
  forall (t1 t1_preprocessed : ANTsImage) (do_preprocessing verbose : bool)
         (output_directory : string) (w w1 w' : World) (r : return_dict),
    brain_age_preprocess t1 do_preprocessing (Some output_directory) w
    = (Return t1_preprocessed, w1) ->
    brain_age t1 do_preprocessing (Some output_directory) verbose w = (Return r, w') ->
    let model_weights_file_name := brain_age_weights_file output_directory in
    files w' = {[model_weights_file_name]} ∪ files w1 /\
    downloads (log w')
    = downloads (log w1)
      ++ (if bool_decide (model_weights_file_name ∈ files w1) then []
          else [("brainAgeDeepBrainNet", model_weights_file_name)]) /\
    (do_preprocessing = false ->
     forall v, model_weights_file_name ∈ files v ->
       exists v1,
         brain_age t1 false (Some output_directory) verbose v = (Return r, v1) /\
         files v1 = files v /\ downloads (log v1) = downloads (log v)).
Proof.
  intros t1 t1_preprocessed do_preprocessing verbose dir w w1 w' r Hpre Hrun file.
  unfold brain_age in Hrun. destruct (negb _) eqn:Hcheck; [discriminate |].
  inv_bind Hrun preprocessed wa Hpre'. rewrite Hpre in Hpre'. injection Hpre' as <- <-.
  match type of Hrun with
  | ?m w1 = _ => assert (Hcache : runs_from_cache {[file]} m)
  end.
  { apply runs_from_cache_after; [apply world_independent_rescale_intensity | intros ?].
    apply runs_from_cache_before; [apply runs_from_cache_lookup | intros ?].
    independent. }
  destruct (Hcache _ _ _ Hrun) as (Hfiles & Hagain).
  split; [exact Hfiles |]. split.
  - inv_bind Hrun t1_rescaled wb Hrescale.
    inv_bind Hrun weights wc Hweights.
    destruct (world_independent_rescale_intensity _ _ _ _ Hrescale)
      as (Hfb & _ & Hlb & _).
    assert (Hrest : downloads (log w') = downloads (log wc)).
    { match type of Hrun with
      | ?m wc = _ =>
          assert (Hm : world_independent m) by independent;
          now destruct (Hm _ _ _ Hrun) as (_ & _ & Hl & _)
      end. }
    rewrite Hrest, <- Hlb, <- Hfb. fold file.
    revert Hweights. unfold brain_age_weights, bind, path_exists. fold file.
    destruct (bool_decide (file ∈ files wb)); simpl.
    + intros [= _ <-]. now rewrite app_nil_r.
    + destruct verbose; simpl; intros [= _ <-]; simpl;
        rewrite ?downloads_app; simpl; rewrite ?app_nil_r; reflexivity.
  - intros -> v Hv. injection Hpre as <- _.
    destruct (Hagain v) as (v1 & Hv1 & Hlog); [sets |].
    exists v1. unfold brain_age. rewrite Hcheck.
    split; [exact Hv1 |]. split; [| exact Hlog].
    destruct (Hcache _ _ _ Hv1) as (Hfiles1 & _). rewrite Hfiles1. sets.
Qed.

#[local] Hint Resolve world_independent_image_div_scalar world_independent_rescale_intensity
  world_independent_gaussian_normalize world_independent_wmh_preprocess
  world_independent_ensemble_prediction : independent.

Lemma runs_from_cache_load_unet_model number_of_channels dir verbose i unet_models :
  runs_from_cache {[wmh_weights_file dir number_of_channels i]}
    (load_unet_model number_of_channels (Some dir) verbose i unet_models).
Proof.
  unfold load_unet_model. cbv zeta.
  apply runs_from_cache_before; [apply runs_from_cache_lookup | intros ?; independent].
Qed.

Lemma runs_from_cache_load_loop number_of_channels dir verbose count :
  forall start unet_models,
    runs_from_cache
      (list_to_set (map (wmh_weights_file dir number_of_channels) (seq start count)))
      (for_range start count (load_unet_model number_of_channels (Some dir) verbose)
         unet_models).
Proof.
  induction count as [| count IH]; intros start unet_models; simpl.
  - apply world_independent_runs_from_cache, world_independent_ret.
  - apply runs_from_cache_bind; [apply runs_from_cache_load_unet_model | intros ?; apply IH].
Qed.

Lemma runs_from_cache_wmh flair t1 mask do_preprocessing use_ensemble dir verbose :
  runs_from_cache
    (list_to_set (map (wmh_weights_file dir (match t1 with Some _ => 2 | None => 1 end))
                      (seq 0 (number_of_models use_ensemble))))
    (sysu_media_wmh_segmentation flair t1 mask do_preprocessing use_ensemble
       (Some dir) verbose).
Proof.
  unfold sysu_media_wmh_segmentation. destruct (negb _); [intros w a w1 [=] |].
  cbv zeta.
  repeat (apply runs_from_cache_after; [solve [independent] | intros ?]).
  apply runs_from_cache_before; [apply runs_from_cache_load_loop | intros ?; independent].
Qed.

Lemma weights_in_cache dir number_of_channels n file :
  file ∈ (list_to_set (map (wmh_weights_file dir number_of_channels) (seq 0 n))
          : gset string)
  <-> exists i, i < n /\ file = wmh_weights_file dir number_of_channels i.
Proof.
  rewrite elem_of_list_to_set, list_elem_of_fmap. split.
  - intros (i & -> & Hi). apply elem_of_seq in Hi. exists i. split; [lia | reflexivity].
  - intros (i & Hi & ->). exists i. split; [reflexivity |]. apply elem_of_seq. lia.
Qed.

(** X8.  With an output directory, a run of [sysu_media_wmh_segmentation]
    that returns leaves the weights of each of its models in
    [output_directory + network + str(i) + ".h5"] and no other new file.
    From any world that has these files, the same call returns the same
    image, without a download and without a new file. *)
Theorem wmh_downloads_weights_once :
  forall (flair : ANTsImage) (t1 brain_mask : option ANTsImage)
         (do_preprocessing use_ensemble verbose : bool) (output_directory : string)
         (w w1 : World) (probability_image : ANTsImage),
    sysu_media_wmh_segmentation flair t1 brain_mask do_preprocessing use_ensemble
      (Some output_directory) verbose w = (Return probability_image, w1) ->
    let number_of_channels := match t1 with Some _ => 2 | None => 1 end in
    let weights_file_name := wmh_weights_file output_directory number_of_channels in
    (forall file,
       file ∈ files w1 <->
       file ∈ files w \/
       exists i, i < number_of_models use_ensemble /\ file = weights_file_name i) /\
    forall v,
      (forall i, i < number_of_models use_ensemble -> weights_file_name i ∈ files v) ->
      exists v1,
        sysu_media_wmh_segmentation flair t1 brain_mask do_preprocessing use_ensemble
          (Some output_directory) verbose v = (Return probability_image, v1) /\
        files v1 = files v /\ downloads (log v1) = downloads (log v).
Proof.
  intros flair t1 mask do_preprocessing use_ensemble verbose dir w w1 probability_image
    Hrun number_of_channels weights_file_name.
  destruct (runs_from_cache_wmh _ _ _ _ _ _ _ _ _ _ Hrun) as (Hfiles & Hagain).
  split.
  - intros file. rewrite Hfiles, elem_of_union, weights_in_cache. tauto.
  - intros v Hv.
    assert (Hcache : (list_to_set (map weights_file_name
                                      (seq 0 (number_of_models use_ensemble)))
                      : gset string) ⊆ files v).
    { intros file Hfile. apply weights_in_cache in Hfile as (i & Hi & ->). now apply Hv. }
    destruct (Hagain v Hcache) as (v1 & Hv1 & Hlog).
    exists v1. split; [exact Hv1 |]. split; [| exact Hlog].
    destruct (runs_from_cache_wmh _ _ _ _ _ _ _ _ _ _ Hv1) as (Hfiles1 & _).
    rewrite Hfiles1. apply set_eq. intros file. rewrite elem_of_union. split; [| tauto].
    intros [Hfile | Hfile]; [now apply Hcache | exact Hfile].
Qed.

(** ** Images that are not checked *)

Lemma wmh_preprocess_inv image do_preprocessing output_directory w a w1 :
  wmh_preprocess image do_preprocessing output_directory w = (Return a, w1) ->
  a = if do_preprocessing
      then preprocessed_image (preprocess_brain_image image false None output_directory)
      else image.
Proof. unfold wmh_preprocess. destruct do_preprocessing; now intros [= <- _]. Qed.

(** X9.  The check of [sysu_media_wmh_segmentation] looks at [flair] alone,
    but a run returns only if the other images are three-dimensional too:
    the preprocessed [flair] and [t1], and the brain mask, given or
    estimated, all go through the three-dimensional resampler. *)
Theorem wmh_inputs_are_three_dimensional :
  forall (flair : ANTsImage) (t1 brain_mask : option ANTsImage)
         (do_preprocessing use_ensemble verbose : bool) (output_directory : option string)
         (w w' : World) (probability_image : ANTsImage),
    sysu_media_wmh_segmentation flair t1 brain_mask do_preprocessing use_ensemble
      output_directory verbose w = (Return probability_image, w') ->
    let preprocessed image :=
      if do_preprocessing
      then preprocessed_image (preprocess_brain_image image false None output_directory)
      else image in
    dimension flair = 3 /\
    dimension (preprocessed flair) = 3 /\
    (forall image, t1 = Some image -> dimension (preprocessed image) = 3) /\
    dimension (match brain_mask with
               | Some mask => mask
               | None => get_mask (match t1 with Some image => image | None => flair end)
               end) = 3.
Proof.
  intros flair t1 mask do_preprocessing use_ensemble verbose output_directory w w'
    probability_image H preprocessed.
  unfold sysu_media_wmh_segmentation in H.
  destruct (dimension flair =? 3) eqn:Hflair; [| discriminate]. cbn [negb] in H.
  apply Nat.eqb_eq in Hflair.
  inv_bind H flair_preprocessed w1 Hpre. apply wmh_preprocess_inv in Hpre as ->.
  inv_bind H t1_preprocessed w2 Ht1.
  inv_bind H mask_used w3 Hmask.
  inv_bind H center_of_mass_reference wr Hreference.
  inv_bind H center_of_mass_image wi Himage.
  inv_bind H offset w4 Htranslation.
  inv_bind H flair_warped w5 Hwarp. apply lift_inv in Hwarp as [Hwarp _].
  inv_bind H mask_warped w6 Hmask_warp. apply lift_inv in Hmask_warp as [Hmask_warp _].
  apply and_then_inv in Hmask_warp as (warped & Hmask_warp & _).
  inv_bind H t1_warped w7 Ht1_warp.
  split; [exact Hflair |]. split; [| split].
  - exact (apply_transform_dimension _ _ _ _ Hwarp).
  - intros image ->.
    inv_bind Ht1 p w8 Hp. apply wmh_preprocess_inv in Hp as ->.
    injection Ht1 as <- _.
    inv_bind Ht1_warp t1_on_grid w9 Hgrid. apply lift_inv in Hgrid as [Hgrid _].
    exact (apply_transform_dimension _ _ _ _ Hgrid).
  - assert (mask_used = match mask with
                        | Some mask => mask
                        | None => get_mask (match t1 with Some image => image | None => flair end)
                        end) as <-.
    { destruct mask as [mask |].
      - now injection Hmask as <- _.
      - inv_bind Hmask u1 w8 Hprint. inv_bind Hmask u2 w9 Hemit.
        now injection Hmask as <- _. }
    exact (apply_transform_dimension _ _ _ _ Hmask_warp).
Qed.

(** ** A mask that selects nothing *)

Lemma filter_none {A} (f : A -> bool) (l : list A) :
  (forall x, f x = false) -> List.filter f l = [].
Proof. intros Hf. induction l as [| x l IH]; simpl; [| rewrite Hf]; auto. Qed.

(** X10.  The warped mask is thresholded to the values between 0.5 and 1.1.
    A brain mask none of whose resampled values lies there (one that marks
    the brain with 255, say) selects no voxel at all: the mean and the
    standard deviation are those of an empty array.  NumPy warns of the
    empty slice and of the division of zero by zero behind the mean, then
    of the degrees of freedom and of the two such divisions behind the
    standard deviation; both are nan, and so is every voxel of the
    normalized image, without a further warning. *)
Theorem mask_outside_threshold_selects_nothing :
  forall (xfrm : ANTsTransform) (brain_mask image warped : ANTsImage) (w : World),
    apply_ants_transform_to_image xfrm brain_mask reference_image = Return warped ->
    same_header image reference_image ->
    (forall p, ~ (1 # 2 <= interpolate brain_mask p <= 11 # 10)%Q) ->
    let brain_mask_warped := threshold_image warped (1 # 2) (11 # 10) 1 0 in
    masked_values image (image_gt_scalar brain_mask_warped 0) = Return [] /\
    exists w',
      gaussian_normalize image brain_mask_warped w = (Return (not_numbers image), w') /\
      log w' = log w ++ [RuntimeWarning "Mean of empty slice.";
                         invalid_value_warning;
                         RuntimeWarning "Degrees of freedom <= 0 for slice";
                         invalid_value_warning;
                         invalid_value_warning].
Proof.
  intros xfrm mask image warped w Hwarp Himage Houtside brain_mask_warped.
  assert (Hgt : same_header (image_gt_scalar brain_mask_warped 0) reference_image).
  { destruct (apply_transform_header _ _ _ _ Hwarp) as (H1 & H2 & H3 & H4).
    repeat split; assumption. }
  destruct (on_reference_grid_consistent _ _ Himage Hgt) as [Hconsistent Hshape].
  assert (Hinside : masked_values image (image_gt_scalar brain_mask_warped 0) = Return []).
  { unfold masked_values. rewrite Hconsistent, bool_decide_eq_true_2 by exact Hshape.
    rewrite filter_none; [reflexivity |]. intros idx.
    revert Hwarp. unfold apply_ants_transform_to_image. destruct (_ && _); [| discriminate].
    intros [= <-]. unfold voxel. simpl.
    set (p := apply_ants_transform_to_point xfrm (index_to_point reference_image idx)).
    specialize (Houtside p).
    destruct (Qle_bool (1 # 2) (interpolate mask p)) eqn:Hlow;
      destruct (Qle_bool (interpolate mask p) (11 # 10)) eqn:Hhigh; simpl; try reflexivity.
    apply Qle_bool_iff in Hlow, Hhigh. exfalso. exact (Houtside (conj Hlow Hhigh)). }
  split; [exact Hinside |].
  unfold gaussian_normalize. rewrite Hinside.
  eexists. split; [reflexivity |]. simpl. now rewrite <- !app_assoc.
Qed.

(** ** Where the weights are kept, for every directory *)

Lemma dirname_ignores_file_name (directory name : string) :
  forallb (fun c => negb (is_slash c)) (list_ascii_of_string name) = true ->
  dirname (directory +:+ name) = dirname directory.
Proof.
  intros Hname. unfold dirname.
  rewrite list_ascii_of_string_app, rev_app_distr.
  now rewrite drop_while_app_all by (now rewrite forallb_reversed).
Qed.

(** X11.  [sysu_media_wmh_segmentation] appends the name of the weights file
    to [output_directory] as it is written, so the file lies where
    [output_directory] itself lies: in its parent when the directory is
    written without a slash at its end, in the directory only when it is
    written with one.  [brain_age] puts a slash in between, and its file
    lies in [output_directory]. *)
Theorem wmh_weights_directory :
  forall (output_directory : string) (number_of_channels i : nat),
    i < 3 ->
    dirname (wmh_weights_file output_directory number_of_channels i)
    = dirname output_directory /\
    (output_directory <> "" -> ends_with_slash output_directory = false ->
     dirname output_directory <> output_directory /\
     dirname (brain_age_weights_file output_directory) = output_directory).
Proof.
  intros dir number_of_channels i Hi.
  assert (Hname : forallb (fun c => negb (is_slash c))
                    (list_ascii_of_string (wmh_network number_of_channels i +:+ ".h5"))
                  = true).
  { unfold wmh_network. destruct (number_of_channels =? 1);
      destruct i as [| [| [| i]]]; try lia; reflexivity. }
  assert (Hsame : dirname (wmh_weights_file dir number_of_channels i) = dirname dir).
  { unfold wmh_weights_file. now apply dirname_ignores_file_name. }
  split; [exact Hsame |].
  intros Hne Hslash. split.
  - rewrite <- Hsame. unfold wmh_weights_file.
    now apply dirname_of_concatenation.
  - now apply brain_age_weights_file_inside.
Qed.

(** ** Weights that are downloaded every time *)

Lemma downloads_anew_bind {A B} fetched fetched' (m : M A) (k : A -> M B) :
  downloads_anew fetched m -> (forall a, downloads_anew fetched' (k a)) ->
  downloads_anew (fun t => fetched t ++ fetched' (t + length (fetched t))) (bind m k).
Proof.
  intros Hm Hk w b w1 Hrun. apply bind_inv in Hrun as (a & w2 & Hfirst & Hrest).
  destruct (Hm _ _ _ Hfirst) as (Hlog & Htemp).
  destruct (Hk a _ _ _ Hrest) as (Hlog' & Htemp').
  rewrite Hlog', Htemp', Hlog, Htemp, length_app, <- app_assoc. split; [reflexivity | lia].
Qed.

Lemma downloads_anew_ext {A} fetched fetched' (m : M A) :
  (forall t, fetched t = fetched' t) -> downloads_anew fetched m ->
  downloads_anew fetched' m.
Proof. intros Heq Hm w a w1 Hrun. rewrite <- Heq. exact (Hm w a w1 Hrun). Qed.

Lemma world_independent_downloads_anew {A} (m : M A) :
  world_independent m -> downloads_anew (fun _ => []) m.
Proof.
  intros Hm w a w1 Hrun. destruct (Hm _ _ _ Hrun) as (_ & Htemp & Hlog & _).
  rewrite Hlog, Htemp, app_nil_r. simpl. split; [reflexivity | lia].
Qed.

Lemma downloads_anew_after {A B} fetched (m : M A) (k : A -> M B) :
  world_independent m -> (forall a, downloads_anew fetched (k a)) ->
  downloads_anew fetched (bind m k).
Proof.
  intros Hm Hk.
  apply (downloads_anew_ext (fun t => [] ++ fetched (t + length (@nil (string * string))))).
  - intros t. simpl. now rewrite Nat.add_0_r.
  - apply (downloads_anew_bind (fun _ => [])); [| exact Hk].
    now apply world_independent_downloads_anew.
Qed.

Lemma downloads_anew_before {A B} fetched (m : M A) (k : A -> M B) :
  downloads_anew fetched m -> (forall a, world_independent (k a)) ->
  downloads_anew fetched (bind m k).
Proof.
  intros Hm Hk. apply (downloads_anew_ext (fun t => fetched t ++ [])).
  - intros t. apply app_nil_r.
  - apply (downloads_anew_bind fetched (fun _ => [])); [exact Hm |].
    intros a. now apply world_independent_downloads_anew.
Qed.

Lemma downloads_anew_temporary network :
  downloads_anew (fun t => [(network, temp_name t)]) (get_pretrained_network network None).
Proof.
  intros w a w1 [= <- <-]. simpl. rewrite downloads_app. simpl. split; [reflexivity | lia].
Qed.

Lemma downloads_anew_load_loop number_of_channels verbose count :
  forall start unet_models,
    downloads_anew
      (fun t => map (fun i => (wmh_network number_of_channels (start + i), temp_name (t + i)))
                    (seq 0 count))
      (for_range start count (load_unet_model number_of_channels None verbose) unet_models).
Proof.
  induction count as [| count IH]; intros start unet_models.
  - apply (world_independent_downloads_anew (ret unet_models)), world_independent_ret.
  - cbn [for_range].
    eapply downloads_anew_ext;
      [| apply (downloads_anew_bind
                  (fun t => [(wmh_network number_of_channels start, temp_name t)]));
         [| intros acc; apply (IH (S start) acc)]].
    + intros t. cbn [length app seq map]. rewrite <- seq_shift, map_map.
      rewrite !Nat.add_0_r. f_equal. apply map_ext. intros i.
      f_equal; [f_equal | f_equal]; lia.
    + unfold load_unet_model.
      apply downloads_anew_before; [apply downloads_anew_temporary | intros ?; independent].
Qed.

(** X12.  Without an output directory [brain_age] does not look for the
    weights: after the preprocessing (which fetches a template and weights
    of its own) every call that returns has downloaded them, once, to a new
    temporary file, whatever files there were. *)
Theorem brain_age_downloads_every_time :
  forall (t1 t1_preprocessed : ANTsImage) (do_preprocessing verbose : bool)
         (w w1 w' : World) (r : return_dict),
    brain_age_preprocess t1 do_preprocessing None w = (Return t1_preprocessed, w1) ->
    brain_age t1 do_preprocessing None verbose w = (Return r, w') ->
    downloads (log w')
    = downloads (log w1) ++ [("brainAgeDeepBrainNet", temp_name (temp_counter w1))] /\
    temp_counter w' = S (temp_counter w1).
Proof.
  intros t1 t1_preprocessed do_preprocessing verbose w w1 w' r Hpre Hrun.
  unfold brain_age in Hrun. destruct (negb _); [discriminate |].
  inv_bind Hrun preprocessed wa Hpre'. rewrite Hpre in Hpre'. injection Hpre' as <- <-.
  match type of Hrun with
  | ?m w1 = _ =>
      assert (H : downloads_anew (fun t => [("brainAgeDeepBrainNet", temp_name t)]) m)
  end.
  { apply downloads_anew_after; [apply world_independent_rescale_intensity | intros ?].
    apply downloads_anew_before; [apply downloads_anew_temporary | intros ?; independent]. }
  destruct (H _ _ _ Hrun) as (Hlog & Htemp). split; [exact Hlog |].
  rewrite Htemp. simpl. lia.
Qed.

(** X13.  Without an output directory [sysu_media_wmh_segmentation] does not
    look for the weights either: every call that returns has downloaded
    those of each of its models, one or three, in the order of the models
    and each to a new temporary file. *)
Theorem wmh_downloads_every_time :
  forall (flair : ANTsImage) (t1 brain_mask : option ANTsImage)
         (do_preprocessing use_ensemble verbose : bool) (w w1 : World)
         (probability_image : ANTsImage),
    sysu_media_wmh_segmentation flair t1 brain_mask do_preprocessing use_ensemble
      None verbose w = (Return probability_image, w1) ->
    let number_of_channels := match t1 with Some _ => 2 | None => 1 end in
    downloads (log w1)
    = downloads (log w)
      ++ map (fun i => (wmh_network number_of_channels i, temp_name (temp_counter w + i)))
             (seq 0 (number_of_models use_ensemble)) /\
    temp_counter w1 = temp_counter w + number_of_models use_ensemble.
Proof.
  intros flair t1 mask do_preprocessing use_ensemble verbose w w1 probability_image Hrun
    number_of_channels.
  assert (H : downloads_anew
                (fun t => map (fun i => (wmh_network number_of_channels (0 + i),
                                         temp_name (t + i)))
                              (seq 0 (number_of_models use_ensemble)))
                (sysu_media_wmh_segmentation flair t1 mask do_preprocessing use_ensemble
                   None verbose)).
  { unfold sysu_media_wmh_segmentation. destruct (negb _); [intros v a v1 [=] |].
    cbv zeta.
    repeat (apply downloads_anew_after; [solve [independent] | intros ?]).
    apply downloads_anew_before; [apply downloads_anew_load_loop | intros ?; independent]. }
  destruct (H _ _ _ Hrun) as (Hlog & Htemp). split; [exact Hlog |].
  now rewrite Htemp, length_map, length_seq.
Qed.

(** ** When the two functions return *)

Lemma indices_positive shp : indices shp <> [] -> Forall (lt 0) shp.
Proof.
  induction shp as [| d shp IH]; intros Hne; [constructor |].
  simpl in Hne. constructor.
  - destruct d; [now contradiction Hne | lia].
  - apply IH. intros Hnil. apply Hne. rewrite Hnil.
    clear. induction (seq 0 d) as [| i l IHl]; simpl; auto.
Qed.

Lemma rescale_intensity_inv image w normalized w' :
  rescale_intensity image w = (Return normalized, w') ->
  image_shape normalized = image_shape image /\ Forall (lt 0) (image_shape image).
Proof.
  unfold rescale_intensity. intros Hrun. split.
  - destruct (list_min (ravel (numpy image))), (list_max (ravel (numpy image)));
      try discriminate.
    apply image_div_scalar_header in Hrun. apply Hrun.
  - apply indices_positive. intros Hnil.
    unfold ravel in Hrun. unfold image_shape in Hnil. rewrite Hnil in Hrun.
    discriminate Hrun.
Qed.

(** X14.  With a network that answers one row for each row of its batch,
    [brain_age] returns exactly when [t1] is three-dimensional and the
    preprocessed image has three axes, none of them empty, and at least 126
    axial slices; nothing else in the function can fail. *)
Theorem brain_age_returns_iff :
  (forall file batch, shape (predict file batch) = [nth 0 (shape batch) 0; 1]) ->
  forall (t1 t1_preprocessed : ANTsImage) (do_preprocessing verbose : bool)
         (output_directory : option string) (w w1 : World),
    brain_age_preprocess t1 do_preprocessing output_directory w
    = (Return t1_preprocessed, w1) ->
    (exists r w', brain_age t1 do_preprocessing output_directory verbose w = (Return r, w'))
    <->
    dimension t1 = 3 /\
    exists d0 d1 d2,
      image_shape t1_preprocessed = [d0; d1; d2] /\ 0 < d0 /\ 0 < d1 /\ 126 <= d2.
Proof.
  intros Hpredict t1 t1_preprocessed do_preprocessing verbose output_directory w w1 Hpre.
  split.
  - intros (r & w' & Hrun). unfold brain_age in Hrun.
    destruct (dimension t1 =? 3) eqn:Hdim; [| discriminate]. cbn [negb] in Hrun.
    apply Nat.eqb_eq in Hdim. split; [exact Hdim |].
    inv_bind Hrun preprocessed wa Hpre'. rewrite Hpre in Hpre'. injection Hpre' as <- <-.
    inv_bind Hrun rescaled wb Hrescale.
    inv_bind Hrun weights wc Hweights.
    inv_bind Hrun u wd Hload.
    inv_bind Hrun batchX we Hbatch. apply lift_inv in Hbatch as [Hbatch _].
    apply rescale_intensity_inv in Hrescale as [Hshape Hpositive].
    apply brain_age_batch_inv in Hbatch as (d0 & d1 & d2 & Hrescaled & Hslices).
    rewrite Hshape in Hrescaled. rewrite Hrescaled in Hpositive.
    exists d0, d1, d2. split; [exact Hrescaled |].
    inversion Hpositive as [| ? ? H0 Hrest]; subst.
    inversion Hrest as [| ? ? H1 _]; subst. auto.
  - intros (Hdim & d0 & d1 & d2 & Hshape & H0 & H1 & H2).
    exact (brain_age_returns t1 t1_preprocessed do_preprocessing output_directory verbose
             w w1 d0 d1 d2 Hdim Hpre Hshape H0 H1 H2 Hpredict).
Qed.

(** X15.  With a reference grid that has mass, a center of gravity of one
    coordinate for each axis and networks that answer one value for each
    pixel of their batch, [sysu_media_wmh_segmentation] on [flair] alone,
    with a brain mask and without preprocessing, returns exactly when
    [flair] and the mask are three-dimensional and the mask has mass (of a
    mask whose mass comes out as zero, such as an empty one, ITK finds no
    center); nothing else in the function can fail. *)
Theorem wmh_returns_iff :
  ~ (total_mass reference_image == 0)%Q ->
  (forall image, length (center_of_gravity image) = dimension image) ->
  (forall file batch, shape (predict file batch) = [nth 0 (shape batch) 0; 200; 200; 1]) ->
  forall (flair mask : ANTsImage) (use_ensemble verbose : bool)
         (output_directory : option string) (w : World),
    (exists probability_image w',
       sysu_media_wmh_segmentation flair None (Some mask) false use_ensemble
         output_directory verbose w = (Return probability_image, w'))
    <-> dimension flair = 3 /\ dimension mask = 3 /\ ~ (total_mass mask == 0)%Q.
Proof.
  intros Hreference Hcenter Hpredict flair mask use_ensemble verbose output_directory w.
  split.
  - intros (probability_image & w' & Hrun).
    apply sysu_media_wmh_segmentation_inv in Hrun
      as (c_ref & c_mask & warped & mask_warped & t1_warped & normalized & t1_normalized
          & unet_models & batchX & prediction & wa & wb & wc & wd & we & wf
          & _ & Hmass & _ & Hforward & Hmask & _).
    split; [exact (apply_transform_dimension _ _ _ _ Hforward) |].
    split; [exact (apply_transform_dimension _ _ _ _ Hmask) |].
    now apply get_center_of_mass_inv in Hmass.
  - intros (Hflair & Hmask & Hmass).
    apply sysu_media_wmh_segmentation_returns; auto.
    now rewrite !Hcenter, Hmask.
Qed.

End Pipelines.

(** * Concrete runs *)

Local Abbreviation sample_brain_age :=
  (brain_age sample_preprocess sample_preprocessing_data sample_age_net sample_nan
     sample_inf).
Local Abbreviation sample_wmh :=
  (sysu_media_wmh_segmentation sample_preprocess sample_get_mask sample_total_mass
     sample_center_of_gravity sample_interpolate sample_unet sample_mean sample_std
     sample_nan sample_inf).

Lemma list_sum_ones {A} (l : list A) :
  (list_sum (map (fun _ => 1) l) == inject_Z (Z.of_nat (length l)))%Q.
Proof.
  induction l as [| x l IH]; [reflexivity |].
  cbn [map list_sum fold_right length]. fold (list_sum (map (fun _ : A => 1%Q) l)).
  rewrite IH, Nat2Z.inj_succ, <- Z.add_1_l, inject_Z_plus. reflexivity.
Qed.

(** The reference grid of ones has mass. *)
Lemma sample_total_mass_reference : ~ (sample_total_mass reference_image == 0)%Q.
Proof.
  unfold sample_total_mass, ravel.
  change (shape (numpy reference_image)) with [200; 200; 200].
  change (item (numpy reference_image)) with (fun _ : list nat => 1%Q).
  assert (Hne : indices [200; 200; 200] <> []).
  { apply indices_nonempty. repeat constructor; lia. }
  revert Hne. generalize (indices [200; 200; 200]). intros l Hne Hzero.
  rewrite list_sum_ones in Hzero.
  destruct l; [contradiction |]. discriminate Hzero.
Qed.

(** So has a small mask of ones. *)
Ltac has_mass := let H := fresh in intros H; vm_compute in H; discriminate H.

(** The dimension check, a run of each kind: two-dimensional inputs are
    refused at once; three-dimensional ones end in no failure of the
    functions' own; a two-dimensional [t1] beside a three-dimensional
    [flair] is not refused, and the run fails in a library. *)
Lemma dimension_check_witness :
  sample_brain_age (ramp [2; 2]) false None false empty_world
  = (Raise (ValueError dimension_message), empty_world) /\
  (forall e,
     failure_of (fst (sample_brain_age (ramp [1; 1; 125]) false None false empty_world))
     = Some e ->
     e <> ValueError dimension_message) /\
  sample_wmh (ramp [2; 2]) None None false true None false empty_world
  = (Raise (ValueError dimension_message), empty_world) /\
  (forall e,
     failure_of (fst (sample_wmh (ramp [2; 2; 2]) None None false true None false
                        empty_world))
     = Some e ->
     e <> ValueError dimension_message) /\
  exists operation w',
    sample_wmh (ramp [2; 2; 2]) (Some (ramp [2; 2])) None false true None false
      empty_world
    = (Raise (LibraryError operation), w').
Proof.
  destruct (dimension_check sample_preprocess sample_preprocessing_data sample_get_mask
              sample_total_mass sample_center_of_gravity sample_interpolate sample_age_net
              sample_mean sample_std sample_nan sample_inf
              (ramp [2; 2]) (ramp [2; 2]) None None false true false None empty_world)
    as (H1 & _ & _ & _ & _).
  destruct (dimension_check sample_preprocess sample_preprocessing_data sample_get_mask
              sample_total_mass sample_center_of_gravity sample_interpolate sample_age_net
              sample_mean sample_std sample_nan sample_inf
              (ramp [1; 1; 125]) (ramp [2; 2]) None None false true false None empty_world)
    as (_ & H2 & _ & _ & _).
  destruct (dimension_check sample_preprocess sample_preprocessing_data sample_get_mask
              sample_total_mass sample_center_of_gravity sample_interpolate sample_unet
              sample_mean sample_std sample_nan sample_inf
              (ramp [2; 2]) (ramp [2; 2]) None None false true false None empty_world)
    as (_ & _ & H3 & _ & _).
  destruct (dimension_check sample_preprocess sample_preprocessing_data sample_get_mask
              sample_total_mass sample_center_of_gravity sample_interpolate sample_unet
              sample_mean sample_std sample_nan sample_inf
              (ramp [2; 2]) (ramp [2; 2; 2]) None None false true false None empty_world)
    as (_ & _ & _ & H4 & _).
  destruct (dimension_check sample_preprocess sample_preprocessing_data sample_get_mask
              sample_total_mass sample_center_of_gravity sample_interpolate sample_unet
              sample_mean sample_std sample_nan sample_inf
              (ramp [2; 2]) (ramp [2; 2; 2]) (Some (ramp [2; 2])) None false true false None
              empty_world)
    as (_ & _ & _ & _ & H5).
  split; [apply H1; vm_compute; lia |].
  split; [intros e He; now apply (H2 eq_refl e) |].
  split; [apply H3; vm_compute; lia |].
  split; [intros e He; now apply (H4 eq_refl e) |].
  apply H5; [reflexivity |].
  right. left. exists (ramp [2; 2]). split; [reflexivity | vm_compute; lia].
Defined.

(** Not every image is checked: a two-dimensional [t1] passes the check of
    [sysu_media_wmh_segmentation]; both images are preprocessed, and the run
    ends in the resampler, not in a [ValueError]. *)
Lemma dimension_check_counterexample :
  dimension (ramp [2; 2]) <> 3 /\
  exists w',
    sample_wmh (ramp [2; 2; 2]) (Some (ramp [2; 2])) (Some (ones_like (ramp [2; 2; 2])))
      true true None false empty_world
    = (Raise (LibraryError "ants.apply_ants_transform_to_image: dimensions differ"), w') /\
    log w' = [Preprocess false None; Preprocess false None].
Proof.
  split; [vm_compute; lia |].
  apply (sysu_media_wmh_segmentation_flat_second_channel sample_preprocess sample_get_mask
           sample_total_mass sample_center_of_gravity sample_interpolate sample_unet
           sample_mean sample_std sample_nan sample_inf
           (ramp [2; 2; 2]) (ramp [2; 2]) (ones_like (ramp [2; 2; 2])) true true None false
           empty_world);
    try reflexivity; [apply sample_total_mass_reference | vm_compute; lia | has_mass].
Qed.

(** The batch of [brain_age] on a volume of 2 x 3 x 126 voxels. *)
Lemma brain_age_batch_layout_witness :
  exists batchX,
    brain_age_batch (ramp [2; 3; 126]) = Return batchX /\
    shape batchX = [80; 2; 3; 3] /\
    forall i x y c, i < 80 -> c < 3 ->
      nth i which_slices 0 = 45 + i /\
      item batchX [i; x; y; c] = voxel (ramp [2; 3; 126]) [x; y; 44 + i + c].
Proof. apply (brain_age_batch_layout (ramp [2; 3; 126]) 2 3 126); [reflexivity | lia]. Defined.

(** [brain_age] on volumes of 125 and of 126 axial slices. *)
Lemma brain_age_needs_126_slices_witness :
  fst (sample_brain_age (ramp [1; 1; 125]) false None false empty_world)
  = Raise slice_out_of_range /\
  failure_of (fst (sample_brain_age (ramp [1; 1; 126]) false None false empty_world))
  <> Some slice_out_of_range.
Proof.
  split.
  - apply (brain_age_needs_126_slices sample_preprocess sample_preprocessing_data
             sample_age_net sample_nan sample_inf
             (ramp [1; 1; 125]) (ramp [1; 1; 125]) false false None
             empty_world empty_world 1 1 125);
      (reflexivity || lia).
  - apply (brain_age_needs_126_slices sample_preprocess sample_preprocessing_data
             sample_age_net sample_nan sample_inf
             (ramp [1; 1; 126]) (ramp [1; 1; 126]) false false None
             empty_world empty_world 1 1 126);
      (reflexivity || lia).
Defined.

(** A slice of 3 x 250 pixels, padded by 197 and cropped to 200 x 200. *)
Lemma pad_or_crop_image_to_size_shape_witness :
  exists cropped,
    pad_or_crop_image_to_size (ramp [3; 250]) [200; 200] = Return cropped /\
    image_shape cropped = [200; 200].
Proof.
  destruct (pad_or_crop_image_to_size_shape (ramp [3; 250]) [200; 200] eq_refl)
    as (padded & cropped & _ & _ & _ & Hrun & Hshape).
  - repeat constructor; lia.
  - exists cropped. split; assumption.
Defined.



(** The same run, computed: the slices 45 to 124 of the ramp, rescaled to
    [0, 1] and multiplied by 100 by the sample network, have median 67.6. *)
Example brain_age_of_ramp :
  match fst (sample_brain_age (ramp [1; 1; 126]) false None false empty_world) with
  | Return r => Qeq_bool (predicted_age r) (338 # 5)
  | Raise _ => false
  end = true.
Proof. vm_compute. reflexivity. Qed.


(** The probability image of a flair image of 2 x 2 x 2 voxels with a full
    mask: resampled through the inverse of the transform that centred the
    mask, onto the grid of the flair image. *)
Lemma probability_image_in_native_space_witness :
  exists probability_image center_of_mass_image probability_image_warped,
    fst (sample_wmh (ramp [2; 2; 2]) None (Some (ones_like (ramp [2; 2; 2])))
           false true None false empty_world)
    = Return probability_image /\
    get_center_of_mass sample_total_mass sample_center_of_gravity (ones_like (ramp [2; 2; 2]))
    = Return center_of_mass_image /\
    apply_ants_transform_to_image sample_interpolate
      (invert_ants_transform
         (create_ants_transform (sample_center_of_gravity reference_image)
            (Vec.sub center_of_mass_image (sample_center_of_gravity reference_image))))
      probability_image_warped (ramp [2; 2; 2])
    = Return probability_image /\
    same_header probability_image (ramp [2; 2; 2]).
Proof.
  destruct (sysu_media_wmh_segmentation_returns sample_preprocess sample_get_mask
              sample_total_mass sample_center_of_gravity sample_interpolate sample_unet
              sample_mean sample_std sample_nan sample_inf
              (ramp [2; 2; 2]) (ones_like (ramp [2; 2; 2])) true None false empty_world)
    as (probability_image & w' & Hrun); try reflexivity;
    [apply sample_total_mass_reference | has_mass |].
  destruct (probability_image_in_native_space sample_preprocess sample_get_mask
              sample_total_mass sample_center_of_gravity sample_interpolate sample_unet
              sample_mean sample_std sample_nan sample_inf
              _ _ _ _ _ _ _ _ _ _ Hrun)
    as (c_ref & c_mask & warped & mask_warped & normalized & t1_normalized & unet_models
        & batchX & prediction & prediction_array & prediction_image & wa & wb & wc & wd
        & Href & Hmask & _ & _ & _ & _ & _ & _ & _ & _ & _ & Hinverse & _ & Hheader & _).
  apply get_center_of_mass_inv in Href as [_ ->].
  exists probability_image, c_mask,
    (new_image_like normalized (numpy prediction_image)).
  rewrite Hrun. split; [reflexivity |]. split; [exact Hmask |].
  split; [exact Hinverse | exact Hheader].
Defined.



(** ** Runs for the further properties *)


(** A mask centred at (3, 4, 5) and a reference centred at (1, 1, 1). *)
Lemma transform_centers_mask_witness :
  Vec.eqv
    (apply_ants_transform_to_point
       (create_ants_transform [1; 1; 1]%Q (Vec.sub [3; 4; 5]%Q [1; 1; 1]%Q)) [1; 1; 1]%Q)
    [3; 4; 5]%Q.
Proof.
  apply (transform_centers_mask [3; 4; 5]%Q [1; 1; 1]%Q). reflexivity.
Defined.

(** Two slices of 200 x 200 voxels, with a second channel. *)
Lemma wmh_batch_on_reference_grid_witness :
  exists batchX,
    wmh_batch (ramp [200; 200; 2]) (Some (ones_like (ramp [200; 200; 2]))) 2
    = Return batchX /\
    forall i x y, i < 2 ->
      item batchX [i; x; y; 0] = voxel (ramp [200; 200; 2]) [x; y; i] /\
      item batchX [i; x; y; 1] = voxel (ones_like (ramp [200; 200; 2])) [x; y; i].
Proof.
  destruct (wmh_batch_on_reference_grid (ramp [200; 200; 2])
              (Some (ones_like (ramp [200; 200; 2]))) 2)
    as (batchX & Hrun & Hrows).
  - reflexivity.
  - intros t1_warped [= <-]. reflexivity.
  - exists batchX. split; [exact Hrun |].
    intros i x y Hi. destruct (Hrows i x y Hi) as [Hflair Ht1].
    split; [exact Hflair | now apply Ht1].
Defined.

(** A prediction of two slices, restacked on a warped image of two slices. *)
Lemma restack_layout_witness :
  exists probability_image_warped,
    restack sample_interpolate (zeros [2; 200; 200; 1]) (ramp [200; 200; 2])
      (ramp [2; 2; 2]) (create_ants_transform [0; 0; 0]%Q [0; 0; 0]%Q)
    = apply_ants_transform_to_image sample_interpolate
        (invert_ants_transform (create_ants_transform [0; 0; 0]%Q [0; 0; 0]%Q))
        probability_image_warped (ramp [2; 2; 2]) /\
    same_header probability_image_warped (ramp [200; 200; 2]) /\
    forall x y z,
      voxel probability_image_warped [x; y; z] = item (zeros [2; 200; 200; 1]) [z; x; y; 0].
Proof.
  destruct (restack_layout sample_interpolate (zeros [2; 200; 200; 1])
              (ramp [200; 200; 2]) (ramp [2; 2; 2])
              (create_ants_transform [0; 0; 0]%Q [0; 0; 0]%Q) 2)
    as (probability_image_warped & Hrun & Hheader & Hlayout & _).
  - lia.
  - reflexivity.
  - reflexivity.
  - exists probability_image_warped. auto.
Defined.

(** Two calls of [brain_age] without preprocessing and with the same
    directory, one after the other: the second one downloads nothing. *)
Lemma brain_age_downloads_weights_once_witness :
  exists r w1 w2,
    sample_brain_age (ramp [1; 1; 126]) false (Some "/tmp/cache") false empty_world
    = (Return r, w1) /\
    sample_brain_age (ramp [1; 1; 126]) false (Some "/tmp/cache") false w1
    = (Return r, w2) /\
    files w2 = files w1 /\ downloads (log w2) = downloads (log w1).
Proof.
  destruct (brain_age_returns sample_preprocess sample_preprocessing_data sample_age_net
              sample_nan sample_inf
              (ramp [1; 1; 126]) (ramp [1; 1; 126]) false (Some "/tmp/cache") false
              empty_world empty_world 1 1 126)
    as (r & w1 & Hrun); try reflexivity; try lia.
  destruct (brain_age_downloads_weights_once sample_preprocess sample_preprocessing_data
              sample_age_net sample_nan sample_inf
              (ramp [1; 1; 126]) (ramp [1; 1; 126]) false false "/tmp/cache"
              empty_world empty_world w1 r eq_refl Hrun)
    as (Hfiles & _ & Hagain).
  destruct (Hagain eq_refl w1) as (w2 & Hrun2 & Hfiles2 & Hlog2).
  - rewrite Hfiles. apply elem_of_union_l, elem_of_singleton. reflexivity.
  - exists r, w1, w2. auto.
Defined.

(** Two calls of [sysu_media_wmh_segmentation] with the same directory, one
    after the other: the second one downloads nothing. *)
Lemma wmh_downloads_weights_once_witness :
  exists probability_image w1 w2,
    sample_wmh (ramp [2; 2; 2]) None (Some (ones_like (ramp [2; 2; 2])))
      false true (Some "/tmp/cache") false empty_world
    = (Return probability_image, w1) /\
    sample_wmh (ramp [2; 2; 2]) None (Some (ones_like (ramp [2; 2; 2])))
      false true (Some "/tmp/cache") false w1
    = (Return probability_image, w2) /\
    files w2 = files w1 /\ downloads (log w2) = downloads (log w1).
Proof.
  destruct (sysu_media_wmh_segmentation_returns sample_preprocess sample_get_mask
              sample_total_mass sample_center_of_gravity sample_interpolate sample_unet
              sample_mean sample_std sample_nan sample_inf
              (ramp [2; 2; 2]) (ones_like (ramp [2; 2; 2])) true (Some "/tmp/cache")
              false empty_world)
    as (probability_image & w1 & Hrun); try reflexivity;
    [apply sample_total_mass_reference | has_mass |].
  destruct (wmh_downloads_weights_once sample_preprocess sample_get_mask sample_total_mass
              sample_center_of_gravity sample_interpolate sample_unet sample_mean sample_std
              sample_nan sample_inf
              _ _ _ _ _ _ _ _ _ _ Hrun)
    as (Hfiles & Hagain).
  destruct (Hagain w1) as (w2 & Hrun2 & Hfiles2 & Hlog2).
  - intros i Hi. apply Hfiles. right. exists i. split; [exact Hi | reflexivity].
  - exists probability_image, w1, w2. auto.
Defined.

(** A run that returns, and the dimensions of what it was given. *)
Lemma wmh_inputs_are_three_dimensional_witness :
  exists probability_image,
    fst (sample_wmh (ramp [2; 2; 2]) None (Some (ones_like (ramp [2; 2; 2])))
           false false None false empty_world)
    = Return probability_image /\
    dimension (ramp [2; 2; 2]) = 3 /\ dimension (ones_like (ramp [2; 2; 2])) = 3.
Proof.
  destruct (sysu_media_wmh_segmentation_returns sample_preprocess sample_get_mask
              sample_total_mass sample_center_of_gravity sample_interpolate sample_unet
              sample_mean sample_std sample_nan sample_inf
              (ramp [2; 2; 2]) (ones_like (ramp [2; 2; 2])) false None false empty_world)
    as (probability_image & w1 & Hrun); try reflexivity;
    [apply sample_total_mass_reference | has_mass |].
  destruct (wmh_inputs_are_three_dimensional sample_preprocess sample_get_mask
              sample_total_mass sample_center_of_gravity sample_interpolate sample_unet
              sample_mean sample_std sample_nan sample_inf
              _ _ _ _ _ _ _ _ _ _ Hrun)
    as (Hflair & _ & _ & Hmask).
  exists probability_image. rewrite Hrun. auto.
Defined.

(** A mask that marks the brain with 255. *)
Lemma mask_outside_threshold_selects_nothing_witness :
  let brain_mask := make_image [2; 2; 2] 255 [1; 1; 1]%Q [0; 0; 0]%Q (Vec.identity 3) in
  let xfrm := create_ants_transform [0; 0; 0]%Q [0; 0; 0]%Q in
  exists warped w',
    apply_ants_transform_to_image sample_interpolate xfrm brain_mask reference_image
    = Return warped /\
    masked_values reference_image
      (image_gt_scalar (threshold_image warped (1 # 2) (11 # 10) 1 0) 0) = Return [] /\
    gaussian_normalize sample_mean sample_std sample_nan sample_inf reference_image
      (threshold_image warped (1 # 2) (11 # 10) 1 0) empty_world
    = (Return (not_numbers sample_nan reference_image), w') /\
    log w' = [RuntimeWarning "Mean of empty slice.";
              invalid_value_warning;
              RuntimeWarning "Degrees of freedom <= 0 for slice";
              invalid_value_warning;
              invalid_value_warning].
Proof.
  intros brain_mask xfrm.
  destruct (apply_transform_run sample_interpolate xfrm brain_mask reference_image)
    as (warped & Hwarp & _); try reflexivity.
  destruct (mask_outside_threshold_selects_nothing sample_interpolate sample_mean sample_std
              sample_nan sample_inf
              xfrm brain_mask reference_image warped empty_world Hwarp)
    as (Hinside & w' & Hrun & Hlog).
  - repeat split.
  - intros p [_ H]. apply Qle_bool_iff in H. vm_compute in H. discriminate H.
  - exists warped, w'. split; [exact Hwarp |]. split; [exact Hinside |].
    split; [exact Hrun | exact Hlog].
Defined.

(** The directory [/tmp/cache], written without a slash at its end. *)
Lemma wmh_weights_directory_witness :
  dirname (wmh_weights_file "/tmp/cache" 2 1) = dirname "/tmp/cache" /\
  dirname "/tmp/cache" <> "/tmp/cache" /\
  dirname (brain_age_weights_file "/tmp/cache") = "/tmp/cache".
Proof.
  destruct (wmh_weights_directory "/tmp/cache" 2 1) as (Hsame & Hbeside); [lia |].
  split; [exact Hsame |]. apply Hbeside; [discriminate | reflexivity].
Defined.

(** A call of [brain_age] without preprocessing and without a directory. *)
Lemma brain_age_downloads_every_time_witness :
  exists r w1,
    sample_brain_age (ramp [1; 1; 126]) false None false empty_world = (Return r, w1) /\
    downloads (log w1) = [("brainAgeDeepBrainNet", temp_name 0)] /\
    temp_counter w1 = 1.
Proof.
  destruct (brain_age_returns sample_preprocess sample_preprocessing_data sample_age_net
              sample_nan sample_inf
              (ramp [1; 1; 126]) (ramp [1; 1; 126]) false None false
              empty_world empty_world 1 1 126)
    as (r & w1 & Hrun); try reflexivity; try lia.
  destruct (brain_age_downloads_every_time sample_preprocess sample_preprocessing_data
              sample_age_net sample_nan sample_inf
              (ramp [1; 1; 126]) (ramp [1; 1; 126]) false false
              empty_world empty_world w1 r eq_refl Hrun)
    as (Hlog & Htemp).
  exists r, w1. auto.
Defined.

(** A call of [sysu_media_wmh_segmentation] with the ensemble and without a
    directory. *)
Lemma wmh_downloads_every_time_witness :
  exists probability_image w1,
    sample_wmh (ramp [2; 2; 2]) None (Some (ones_like (ramp [2; 2; 2])))
      false true None false empty_world
    = (Return probability_image, w1) /\
    downloads (log w1)
    = [(wmh_network 1 0, temp_name 0); (wmh_network 1 1, temp_name 1);
       (wmh_network 1 2, temp_name 2)] /\
    temp_counter w1 = 3.
Proof.
  destruct (sysu_media_wmh_segmentation_returns sample_preprocess sample_get_mask
              sample_total_mass sample_center_of_gravity sample_interpolate sample_unet
              sample_mean sample_std sample_nan sample_inf
              (ramp [2; 2; 2]) (ones_like (ramp [2; 2; 2])) true None false empty_world)
    as (probability_image & w1 & Hrun); try reflexivity;
    [apply sample_total_mass_reference | has_mass |].
  destruct (wmh_downloads_every_time sample_preprocess sample_get_mask sample_total_mass
              sample_center_of_gravity sample_interpolate sample_unet sample_mean sample_std
              sample_nan sample_inf
              _ _ _ _ _ _ _ _ _ Hrun)
    as (Hlog & Htemp).
  exists probability_image, w1. auto.
Defined.

(** A ramp of 126 axial slices is enough for [brain_age]. *)
Lemma brain_age_returns_iff_witness :
  exists r w',
    sample_brain_age (ramp [1; 1; 126]) false None false empty_world = (Return r, w').
Proof.
  apply (brain_age_returns_iff sample_preprocess sample_preprocessing_data sample_age_net
           sample_nan sample_inf
           (fun file batch => eq_refl)
           (ramp [1; 1; 126]) (ramp [1; 1; 126]) false false None empty_world empty_world
           eq_refl).
  split; [reflexivity |]. exists 1, 1, 126. repeat split; lia.
Defined.

(** A flair image of 2 x 2 x 2 voxels with a full mask is enough for
    [sysu_media_wmh_segmentation]. *)
Lemma wmh_returns_iff_witness :
  exists probability_image w',
    sample_wmh (ramp [2; 2; 2]) None (Some (ones_like (ramp [2; 2; 2])))
      false false None false empty_world
    = (Return probability_image, w').
Proof.
  apply (wmh_returns_iff sample_preprocess sample_get_mask sample_total_mass
           sample_center_of_gravity sample_interpolate sample_unet sample_mean sample_std
           sample_nan sample_inf).
  - apply sample_total_mass_reference.
  - intros image. unfold sample_center_of_gravity. apply length_map.
  - intros file batch. reflexivity.
  - split; [reflexivity |]. split; [reflexivity | has_mass].
Defined.
